(** * CaseInventory: the consolidation engine of GenerateMasterCSV.py and
      the sheet-title helpers of FormatCSV.py, embedded in Rocq.

    Conventions of the embedding.
    - Python [str] values are modelled as [string] (byte strings); [lower]
      and [strip] act on the ASCII range.
    - A Python [dict] is a [gmap], a Python [set] a [gset].
    - Exceptions are values of [error]; a function that may raise returns
      [result].
    - The wall clock ([datetime.today()], [datetime.now()]) is an explicit
      argument [today]. *)

From stdpp Require Import gmap strings list pretty.
From Stdlib Require Import ZArith Ascii.

Local Open Scope Z_scope.

(** ** Python string primitives *)

Module PyStr.

(** [str.lower] on ASCII letters. *)
Definition lower_char (c : ascii) : ascii :=
  let n := nat_of_ascii c in
  if ((65 <=? n) && (n <=? 90))%nat then ascii_of_nat (n + 32) else c.

Fixpoint lower (s : string) : string :=
  match s with
  | EmptyString => EmptyString
  | String c s' => String (lower_char c) (lower s')
  end.

(** The ASCII characters for which [str.isspace] holds. *)
Definition is_space (c : ascii) : bool :=
  let n := nat_of_ascii c in
  (((9 <=? n) && (n <=? 13)) || ((28 <=? n) && (n <=? 32)))%nat.

Fixpoint lstrip (s : string) : string :=
  match s with
  | EmptyString => EmptyString
  | String c s' => if is_space c then lstrip s' else s
  end.

(** [str.strip()] *)
Definition strip (s : string) : string :=
  String.rev (lstrip (String.rev (lstrip s))).

(** [t in s] for strings. *)
Fixpoint contains (t s : string) : bool :=
  String.prefix t s ||
  match s with
  | EmptyString => false
  | String _ s' => contains t s'
  end.

(** [s[:k]] with Python's treatment of a negative bound. *)
Definition slice_to (s : string) (k : Z) : string :=
  if 0 <=? k then String.substring 0 (Z.to_nat k) s
  else String.substring 0 (Z.to_nat (Z.of_nat (String.length s) + k)) s.

(** [str(i)] for a non-negative integer. *)
Definition of_nat (i : nat) : string := pretty i.

End PyStr.

(** ** HeaderNormalizer: [_process_headers] *)

Module Header.

(** A raw header cell: [None] for an empty cell, [Some s] for a cell whose
    value prints as [s] ([str(value)]). *)
Definition raw := option string.

(** [str(subheader).strip().lower()] when [subheader] is truthy, else the
    empty string.  A falsy value that prints non-empty (0, False) is sent
    to the empty string by the source and to its lower-cased print here;
    neither contains any of the words looked for below. *)
Definition subheader_str (subheader : raw) : string :=
  match subheader with
  | Some s => PyStr.lower (PyStr.strip s)
  | None => EmptyString
  end.

(** [any(t in subheader_str for t in ['time', 'tme', 'tim'])] *)
Definition any_time (sub : string) : bool :=
  existsb (fun t => PyStr.contains t sub) ["time"; "tme"; "tim"].

(** Lines 181-190: the [header is None] test and its two branches.
    Returns the header and the new [prev_main_header]. *)
Definition resolve_none (i : nat) (header subheader : raw)
    (prev_main_header : option string) : string * option string :=
  match header with
  | None =>
      let sub := subheader_str subheader in
      if bool_decide (prev_main_header = Some "Scheduled APPT") && any_time sub
      then ("Scheduled Time", prev_main_header)
      else ("Unnamed_" +:+ PyStr.of_nat i, prev_main_header)
  | Some h =>
      let h' := PyStr.strip h in (h', Some h')
  end.

(** Lines 192-198: the [Scheduled APPT] special case. *)
Definition split_appt (header : string) (subheader : raw) : string :=
  if bool_decide (header = "Scheduled APPT") then
    let sub := subheader_str subheader in
    if PyStr.contains "date" sub then "Scheduled Date"
    else if any_time sub then "Scheduled Time"
    else header
  else header.

(** The name of position [i] before duplicate handling. *)
Definition candidate (i : nat) (header subheader : raw)
    (prev_main_header : option string) : string * option string :=
  let '(h, prev) := resolve_none i header subheader prev_main_header in
  (split_appt h subheader, prev).

(** [f"{header}_{n}"] *)
Definition suffixed (header : string) (n : nat) : string :=
  header +:+ "_" +:+ PyStr.of_nat n.

(** Lines 200-205: duplicate handling against [seen_headers]. *)
Definition dedup (header : string) (seen_headers : gmap string nat)
    : string * gmap string nat :=
  match seen_headers !! header with
  | Some n => (suffixed header (S n), <[header := S n]> seen_headers)
  | None => (header, <[header := 0%nat]> seen_headers)
  end.

(** The loop state besides the output list. *)
Record state := State {
  seen_headers : gmap string nat;
  prev_main_header : option string
}.

Definition init : state := State ∅ None.

(** One iteration of the [for] loop. *)
Definition step (i : nat) (header subheader : raw) (st : state)
    : string * state :=
  let '(h, prev) := candidate i header subheader (prev_main_header st) in
  let '(h', seen) := dedup h (seen_headers st) in
  (h', State seen prev).

(** The loop over [enumerate(zip(header_row, subheader_row))], from
    index [i]. *)
Fixpoint loop (i : nat) (cells : list (raw * raw)) (st : state)
    : list string :=
  match cells with
  | [] => []
  | (header, subheader) :: rest =>
      let '(h, st') := step i header subheader st in
      h :: loop (S i) rest st'
  end.

Definition _process_headers (header_row subheader_row : list raw)
    : list string :=
  loop 0 (zip header_row subheader_row) init.

(** The state reached after the iterations for [cells], from index [i]. *)
Fixpoint state_after (i : nat) (cells : list (raw * raw)) (st : state)
    : state :=
  match cells with
  | [] => st
  | (header, subheader) :: rest =>
      state_after (S i) rest (snd (step i header subheader st))
  end.

(** The most recently seen non-empty primary header of a prefix of the
    header row, as the loop records it. *)
Fixpoint last_primary (prev : option string) (hs : list raw)
    : option string :=
  match hs with
  | [] => prev
  | None :: rest => last_primary prev rest
  | Some h :: rest => last_primary (Some (PyStr.strip h)) rest
  end.

(** A name as duplicate handling leaves it: untouched, or with the
    counter [k] appended. *)
Definition numbered (h : string) (k : nat) : string :=
  match k with
  | O => h
  | S _ => suffixed h k
  end.

End Header.

(** ** Dates and the Reference Window *)

Module Date.

(** A [datetime]/[Timestamp]: calendar date and time of day ([tod], in
    microseconds since midnight). *)
Record datetime := DateTime { year : Z; month : Z; day : Z; tod : Z }.

Global Instance datetime_eq_dec : EqDecision datetime.
Proof. solve_decision. Defined.

(** Chronological order: lexicographic on the fields. *)
Definition compare (a b : datetime) : comparison :=
  match year a ?= year b with
  | Eq => match month a ?= month b with
          | Eq => match day a ?= day b with
                  | Eq => tod a ?= tod b
                  | c => c
                  end
          | c => c
          end
  | c => c
  end.

Definition leb (a b : datetime) : bool :=
  match compare a b with Gt => false | _ => true end.
Definition ltb (a b : datetime) : bool :=
  match compare a b with Lt => true | _ => false end.

Definition is_leap (y : Z) : bool :=
  (y mod 4 =? 0) && (negb (y mod 100 =? 0) || (y mod 400 =? 0)).

(** Months are 1..12 in every [datetime]. *)
Definition days_in_month (y m : Z) : Z :=
  match m with
  | 2 => if is_leap y then 29 else 28
  | 4 | 6 | 9 | 11 => 30
  | _ => 31
  end.

(** [datetime(y, m, d)] *)
Definition midnight (y m d : Z) : datetime := DateTime y m d 0.

(** [d - Timedelta(days=1)] *)
Definition minus_one_day (d : datetime) : datetime :=
  if 1 <? day d then DateTime (year d) (month d) (day d - 1) (tod d)
  else if 1 <? month d then
    DateTime (year d) (month d - 1) (days_in_month (year d) (month d - 1)) (tod d)
  else DateTime (year d - 1) 12 31 (tod d).

(** Lines 252-255 and 506-509: the window
    [(first_day_prev_month, last_day_prev_month)]. *)
Definition reference_window (today : datetime) : datetime * datetime :=
  let first_day_this_month := midnight (year today) (month today) 1 in
  let last_day_prev_month := minus_one_day first_day_this_month in
  let first_day_prev_month :=
    midnight (year last_day_prev_month) (month last_day_prev_month) 1 in
  (first_day_prev_month, last_day_prev_month).

(** [first <= x <= last] *)
Definition in_window (W : datetime * datetime) (x : datetime) : bool :=
  leb (fst W) x && leb x (snd W).

(** Day number of a date (proleptic Gregorian ordinal), the value a
    spreadsheet subtracts when it evaluates a difference of two dates. *)
Definition days_before_year (y : Z) : Z :=
  (y - 1) * 365 + (y - 1) / 4 - (y - 1) / 100 + (y - 1) / 400.

Definition days_before_month (y m : Z) : Z :=
  fold_right Z.add 0
    (map (days_in_month y) (map Z.of_nat (seq 1 (Z.to_nat (m - 1))))).

Definition ordinal (d : datetime) : Z :=
  days_before_year (year d) + days_before_month (year d) (month d) + day d.

(** The master sheet formula [=(Storage Ends - Storage Starts)+1] on two
    midnight dates. *)
Definition days_in_storage (starts ends : datetime) : Z :=
  (ordinal ends - ordinal starts) + 1.

End Date.

(** ** Cells, exceptions and frames *)

(** A scalar of a DataFrame: the missing marker (None, NaN, NaT, pd.NA),
    a timestamp, a string or a number. *)
Inductive cell :=
  | NA
  | Stamp (t : Date.datetime)
  | Text (s : string)
  | Num (z : Z).

Global Instance cell_eq_dec : EqDecision cell.
Proof. solve_decision. Defined.

Definition is_na (c : cell) : bool :=
  match c with NA => true | _ => false end.

Inductive error :=
  | KeyError (key : string)
  | TypeError
  | ValueError (msg : string)
  | AttributeError
  | InvalidIndexError.

Inductive result (A : Type) :=
  | Ok (a : A)
  | Raise (e : error).
Global Arguments Ok {A} a.
Global Arguments Raise {A} e.

Global Instance result_bind : MBind result := fun A B k r =>
  match r with
  | Ok a => k a
  | Raise e => Raise e
  end.

Fixpoint mapM {A B} (f : A -> result B) (l : list A) : result (list B) :=
  match l with
  | [] => Ok []
  | x :: l' => y ← f x; ys ← mapM f l'; Ok (y :: ys)
  end.

(** Keeps the elements whose mask bit is set (boolean indexing). *)
Fixpoint select {A} (mask : list bool) (l : list A) : list A :=
  match mask, l with
  | b :: mask', x :: l' => if b then x :: select mask' l' else select mask' l'
  | _, _ => []
  end.

Module Frame.

(** A DataFrame: its column labels in order and its rows; each row lists
    its cells in column order.  Per-file frames carry pairwise distinct
    labels; a label is looked up at its first position. *)
Record frame := Frame { columns : list string; rows : list (list cell) }.

Fixpoint index_of (c : string) (cols : list string) : option nat :=
  match cols with
  | [] => None
  | c' :: rest => if bool_decide (c' = c) then Some 0%nat
                  else S <$> index_of c rest
  end.

(** [c in df.columns] *)
Definition has (df : frame) (c : string) : bool :=
  bool_decide (c ∈ columns df).

Definition at_pos (row : list cell) (j : nat) : cell := default NA (row !! j).

(** [row[c]]; the missing marker when the label is absent. *)
Definition get (cols : list string) (row : list cell) (c : string) : cell :=
  match index_of c cols with
  | Some j => at_pos row j
  | None => NA
  end.

(** [df[c]] as a list of cells. *)
Definition column (df : frame) (c : string) : result (list cell) :=
  if has df c then Ok (map (fun row => get (columns df) row c) (rows df))
  else Raise (KeyError c).

(** [df[c] = vals]: overwrite the column, or append it when absent. *)
Definition set_column (c : string) (vals : list cell) (df : frame) : frame :=
  match index_of c (columns df) with
  | Some j => Frame (columns df) (zip_with (fun row v => <[j := v]> row) (rows df) vals)
  | None => Frame (columns df ++ [c]) (zip_with (fun row v => row ++ [v]) (rows df) vals)
  end.

(** [df.empty] *)
Definition empty (df : frame) : bool :=
  bool_decide (columns df = []) || bool_decide (rows df = []).

(** Every row has one cell per label. *)
Definition wf (df : frame) : Prop :=
  Forall (fun row => length row = length (columns df)) (rows df).

(** The cells under the label [c] are timestamps or missing, as in a
    datetime64 column. *)
Definition datetime_column (df : frame) (c : string) : Prop :=
  Forall (fun row => match get (columns df) row c with
                     | NA | Stamp _ => True
                     | Text _ | Num _ => False
                     end) (rows df).

End Frame.

(** ** What is taken from pandas as given *)

(** [import pandas as pd]: the parsers behind [pd.to_datetime] and the
    string clean-up of one Scheduled Time cell (lines 371-379). *)
Record pandas := Pandas {
  parse_text : string -> option Date.datetime;
  parse_num : Z -> option Date.datetime;
  format_time : cell -> cell
}.

(** Externals that parse nothing and leave time cells as they are; used
    where a statement is evaluated on timestamps and missing cells only. *)
Definition no_parse : pandas :=
  Pandas (fun _ => None) (fun _ => None) (fun c => c).

(** [pd.to_datetime(x, errors='coerce')] on one cell. *)
Definition to_datetime (pd : pandas) (c : cell) : cell :=
  match c with
  | NA => NA
  | Stamp t => Stamp t
  | Text s => from_option Stamp NA (parse_text pd s)
  | Num z => from_option Stamp NA (parse_num pd z)
  end.

(** [.dt.date] on one cell. *)
Definition date_only (c : cell) : cell :=
  match c with
  | Stamp t => Stamp (Date.midnight (Date.year t) (Date.month t) (Date.day t))
  | c => c
  end.

(** ** TemporalFilter: [_apply_date_filters] *)

Module Temporal.
Import Date Frame.

(** Elementwise comparisons of a column with a timestamp: false on the
    missing marker, [TypeError] on a string or a number. *)
Definition cmp (op : datetime -> datetime -> bool) (c : cell) (t : datetime)
    : result bool :=
  match c with
  | NA => Ok false
  | Stamp x => Ok (op x t)
  | Text _ | Num _ => Raise TypeError
  end.

Definition gt := cmp (fun x t => ltb t x).
Definition lt := cmp (fun x t => ltb x t).
Definition le := cmp (fun x t => leb x t).
Definition ge := cmp (fun x t => leb t x).

(** [df[mask]] with the mask computed row by row. *)
Definition boolean_index (p : list cell -> result bool) (df : frame)
    : result frame :=
  mask ← mapM p (rows df);
  Ok (Frame (columns df) (select mask (rows df))).

Definition lower_cutoff : datetime := midnight 2000 1 1.

(** [pd.to_datetime(datetime.now().strftime('%Y-%m-01'))] *)
Definition upper_cutoff (now : datetime) : datetime :=
  midnight (year now) (month now) 1.

(** [(df[A] > lower_cutoff) & (df[A] < upper_cutoff)] on one row. *)
Definition arrived_mask (now : datetime) (cols : list string)
    (row : list cell) : result bool :=
  let c := get cols row "Arrived @ Warehouse" in
  a ← gt c lower_cutoff;
  b ← lt c (upper_cutoff now);
  Ok (a && b).

(** Lines 318-327. *)
Definition filter_arrived (now : datetime) (df : frame) : result frame :=
  if has df "Arrived @ Warehouse"
  then boolean_index (arrived_mask now (columns df)) df
  else Ok df.

Definition first_of_prev_month (today : datetime) : datetime :=
  if 1 <? month today then midnight (year today) (month today - 1) 1
  else midnight (year today - 1) 12 1.

Definition early_cutoff : datetime := midnight 2000 1 31.

(** [isna | (<= early_cutoff) | (>= first_of_prev_month)] on one row. *)
Definition ends_mask (now : datetime) (cols : list string)
    (row : list cell) : result bool :=
  let c := get cols row "Storage Ends" in
  a ← le c early_cutoff;
  b ← ge c (first_of_prev_month now);
  Ok (is_na c || a || b).

(** Lines 330-344. *)
Definition filter_storage_ends (now : datetime) (df : frame) : result frame :=
  if has df "Storage Ends"
  then boolean_index (ends_mask now (columns df)) df
  else Ok df.

Definition _apply_date_filters (now : datetime) (df : frame) : result frame :=
  df ← filter_arrived now df;
  filter_storage_ends now df.

End Temporal.

(** ** StoragePeriodResolver *)

Module Storage.
Import Date Frame.

(** The row lambda of lines 259-261, 268-270, 517 and 522:
    [x if pd.notnull(x) and first <= x <= last else dflt].  Comparing a
    [datetime] with a string or a number raises [TypeError]. *)
Definition pick (W : datetime * datetime) (dflt : datetime) (x : cell)
    : result cell :=
  match x with
  | NA => Ok (Stamp dflt)
  | Stamp t => Ok (if in_window W t then Stamp t else Stamp dflt)
  | Text _ | Num _ => Raise TypeError
  end.

(** [df[target] = df.apply(lambda row: pick(row[source]), axis=1)] *)
Definition assign_from (W : datetime * datetime) (dflt : datetime)
    (source target : string) (df : frame) : result frame :=
  vals ← mapM (fun row => pick W dflt (get (columns df) row source)) (rows df);
  Ok (set_column target vals df).

(** Lines 251-273 of [_transform_data]: the per-file resolution. *)
Definition adjust_storage (today : datetime) (df : frame) : result frame :=
  let W := reference_window today in
  df ← (if has df "Arrived @ Warehouse" && has df "Storage Starts"
        then assign_from W (fst W) "Arrived @ Warehouse" "Storage Starts" df
        else Ok df);
  if has df "Scheduled Date" && has df "Storage Ends"
  then assign_from W (snd W) "Scheduled Date" "Storage Ends" df
  else Ok df.

(** [df[c] = pd.to_datetime(df[c], errors='coerce')] *)
Definition coerce_column (pd : pandas) (c : string) (df : frame)
    : result frame :=
  vals ← column df c;
  Ok (set_column c (map (to_datetime pd) vals) df).

(** Lines 506-523 of [save_consolidated_report]: the resolution of the
    consolidated table. *)
Definition resolve (pd : pandas) (today : datetime) (df : frame)
    : result frame :=
  let W := reference_window today in
  df ← coerce_column pd "Arrived @ Warehouse" df;
  df ← coerce_column pd "Scheduled Date" df;
  df ← assign_from W (fst W) "Arrived @ Warehouse" "Storage Starts" df;
  assign_from W (snd W) "Scheduled Date" "Storage Ends" df.

End Storage.

(** ** SchemaReconciler: [_consolidate_dataframes] *)

Module Reconcile.
Import Frame.

Definition COLUMN_ORDER : list string :=
  ["Destination Store"; "Attention"; "PO FROM LOBLAW #";
   "Shipper Order #"; "Line Up #"; "Case #"; "Case Model #"; "Serial #";
   "Estimated Ship Date"; "Arrived @ Warehouse"; "Storage Starts";
   "Storage Ends"; "Scheduled Date"; "Scheduled Time"; "Warehouse Location";
   "Trailer or Warehouse"; "Original order #"; "Original Trailer #";
   "Touched / not Touched"; "Date Stripped"; "Damage Y / N";
   "Delivery Order #"; "Delivery Trailer #"; "# Days In Storage";
   "Square Footage of Case"; "Storage Charge"; "Extended Price";
   "Department"; "LH Gable"; "RH Gable"; "No Gable"].

Definition DATE_COLUMNS : list string :=
  ["Estimated Ship Date"; "Arrived @ Warehouse"; "Storage Starts";
   "Storage Ends"; "Scheduled Date"; "Date Stripped"].

(** Lines 423-425: the set of all labels. *)
Definition all_columns (data_frames : list frame) : gset string :=
  foldl (fun acc df => acc ∪ list_to_set (columns df)) ∅ data_frames.

(** Lines 430-432: [df[col] = pd.NA] for every missing label, in the
    iteration order of the set difference. *)
Definition widen (all : gset string) (df : frame) : frame :=
  foldl (fun df col => set_column col (replicate (length (rows df)) NA) df)
        df (elements (all ∖ list_to_set (columns df))).

(** Whether position [j] holds a value in some row. *)
Definition holds_value (df : frame) (j : nat) : bool :=
  existsb (fun row => negb (is_na (at_pos row j))) (rows df).

(** Some column labelled [c] holds a value in some row. *)
Definition holds_under (df : frame) (c : string) : Prop :=
  exists j, columns df !! j = Some c /\ holds_value df j = true.

(** [df.dropna(axis=1, how='all')] *)
Definition dropna_all (df : frame) : frame :=
  let mask := map (holds_value df) (seq 0 (length (columns df))) in
  Frame (select mask (columns df)) (map (select mask) (rows df)).

(** The labels of the frames in order of first appearance. *)
Definition union_columns (dfs : list frame) : list string :=
  foldl (fun acc df => acc ++ list_difference (columns df) acc) [] dfs.

(** A row re-indexed to the labels [all]. *)
Definition reindex (cols all : list string) (row : list cell) : list cell :=
  map (get cols row) all.

(** [pd.concat(dfs, ignore_index=True)]: frames with one and the same
    column index are stacked as they are; otherwise every frame is
    re-indexed to the union of the labels, which needs each frame's labels
    to be distinct. *)
Definition concat (dfs : list frame) : result frame :=
  match dfs with
  | [] => Raise (ValueError "No objects to concatenate")
  | df0 :: rest =>
      if forallb (fun df => bool_decide (columns df = columns df0)) rest
      then Ok (Frame (columns df0) (dfs ≫= rows))
      else if forallb (fun df => bool_decide (NoDup (columns df))) dfs
      then
        let all := union_columns dfs in
        Ok (Frame all (dfs ≫= (fun df => map (reindex (columns df) all) (rows df))))
      else Raise InvalidIndexError
  end.

(** [s.split('_')[0]] *)
Fixpoint before_underscore (s : string) : string :=
  match s with
  | EmptyString => EmptyString
  | String c s' => if bool_decide (c = "_"%char) then EmptyString
                   else String c (before_underscore s')
  end.

(** Line 441: [col.split('_')[0] if '_' in col else col] *)
Definition clean_name (col : string) : string :=
  if PyStr.contains "_" col then before_underscore col else col.

(** Lines 441-442. *)
Definition rename (df : frame) : frame :=
  Frame (map clean_name (columns df)) (rows df).

Definition occurrences (c : string) (cols : list string) : nat :=
  length (filter (fun c' => c' = c) cols).

(** Applies [f] to the cells under the label [c]. *)
Definition map_column (c : string) (f : cell -> cell) (df : frame) : frame :=
  match index_of c (columns df) with
  | Some j => Frame (columns df) (map (alter f j) (rows df))
  | None => df
  end.

(** Lines 364-367 for one label.  On a label carried by two columns
    [df[col]] is a frame and [pd.to_datetime] raises. *)
Definition format_date (pd : pandas) (df : frame) (col : string)
    : result frame :=
  if has df col then
    if bool_decide (occurrences col (columns df) = 1%nat)
    then Ok (map_column col (fun c => date_only (to_datetime pd c)) df)
    else Raise (ValueError "cannot assemble with duplicate keys")
  else Ok df.

(** [format_date_columns], lines 361-381. *)
Definition format_date_columns (pd : pandas) (df : frame) : result frame :=
  df ← foldl (fun acc col => df ← acc; format_date pd df col) (Ok df) DATE_COLUMNS;
  if has df "Scheduled Time" then
    if bool_decide (occurrences "Scheduled Time" (columns df) = 1%nat)
    then Ok (map_column "Scheduled Time" (format_time pd) df)
    else Raise AttributeError
  else Ok df.

(** The positions of the label [c], counted from [i]. *)
Fixpoint positions (i : nat) (c : string) (cols : list string) : list nat :=
  match cols with
  | [] => []
  | c' :: rest =>
      if bool_decide (c' = c) then i :: positions (S i) c rest
      else positions (S i) c rest
  end.

(** [df[labels]]: for each label, all the columns that carry it. *)
Definition take_columns (labels : list string) (df : frame) : frame :=
  let idx := labels ≫= (fun c => positions 0 c (columns df)) in
  Frame (map (fun j => default EmptyString (columns df !! j)) idx)
        (map (fun row => map (at_pos row) idx) (rows df)).

(** Lines 448-449. *)
Definition reorder (df : frame) : frame :=
  let columns_order := filter (fun col => col ∈ columns df) COLUMN_ORDER in
  take_columns columns_order df.

(** Lines 428-435: each frame widened and pruned. *)
Definition reindexed (data_frames : list frame) : list frame :=
  map (fun df => dropna_all (widen (all_columns data_frames) df)) data_frames.

Definition _consolidate_dataframes (pd : pandas) (data_frames : list frame)
    : result frame :=
  consolidated_df ← concat (reindexed data_frames);
  consolidated_df ← format_date_columns pd (rename consolidated_df);
  Ok (reorder consolidated_df).

End Reconcile.

(** ** Sheet titles *)

Module Sheets.

(** The characters of [INVALID_SHEET_CHARS] and of the class in line 471
    of GenerateMasterCSV.py: [ ] * / ? : and the backslash. *)
Definition invalid_char (c : ascii) : bool :=
  bool_decide (c ∈ ["["; "]"; "*"; "/"; "?"; ":"; "\"]%char).

(** [re.sub(INVALID_SHEET_CHARS, "-", s)] *)
Fixpoint replace_invalid (s : string) : string :=
  match s with
  | EmptyString => EmptyString
  | String c s' =>
      String (if invalid_char c then "-"%char else c) (replace_invalid s')
  end.

(** [re.sub] of line 471: the same characters removed. *)
Fixpoint remove_invalid (s : string) : string :=
  match s with
  | EmptyString => EmptyString
  | String c s' =>
      if invalid_char c then remove_invalid s' else String c (remove_invalid s')
  end.

Fixpoint lstrip_apostrophes (s : string) : string :=
  match s with
  | EmptyString => EmptyString
  | String c s' => if bool_decide (c = "'"%char) then lstrip_apostrophes s' else s
  end.

(** [s.strip("'")] *)
Definition strip_apostrophes (s : string) : string :=
  String.rev (lstrip_apostrophes (String.rev (lstrip_apostrophes s))).

(** [f" ({i})"] *)
Definition suffix (i : nat) : string := " (" +:+ PyStr.of_nat i +:+ ")".

(** [base_title[: 31 - len(suffix)] + suffix] *)
Definition candidate (base_title : string) (i : nat) : string :=
  PyStr.slice_to base_title (31 - Z.of_nat (String.length (suffix i)))
    +:+ suffix i.

(** The [while True] loop of [make_unique_title], run for at most [fuel]
    iterations from the counter [i]; [None] when the fuel runs out. *)
Fixpoint unique_loop (fuel : nat) (base_title : string)
    (existing : gset string) (i : nat) : option (string * gset string) :=
  match fuel with
  | O => None
  | S fuel' =>
      let cand := candidate base_title i in
      if bool_decide (cand ∈ existing)
      then unique_loop fuel' base_title existing (S i)
      else Some (cand, {[cand]} ∪ existing)
  end.

(** [make_unique_title] returns the title and the updated set.  The loop
    is given one more iteration than [existing] has elements. *)
Definition make_unique_title (base_title : string) (existing : gset string)
    : option (string * gset string) :=
  let title := if bool_decide (base_title = EmptyString) then "Sheet" else base_title in
  if bool_decide (title ∈ existing)
  then unique_loop (S (size existing)) base_title existing 2
  else Some (title, {[title]} ∪ existing).

(** Lines 35-41 of [sanitize_sheet_title]: the title before it is made
    unique. *)
Definition base_label (name : string) : string :=
  let s := PyStr.strip name in
  let s := replace_invalid s in
  let s := strip_apostrophes s in
  if bool_decide (s = EmptyString) then "Sheet" else PyStr.slice_to s 31.

Definition sanitize_sheet_title (name : string) (existing_titles : gset string)
    : option (string * gset string) :=
  make_unique_title (base_label name) existing_titles.

(** The titles given to the stores in turn (FormatCSV.py, lines 163-166). *)
Fixpoint assign_titles (stores : list string) (existing_titles : gset string)
    : option (list string * gset string) :=
  match stores with
  | [] => Some ([], existing_titles)
  | store :: rest =>
      '(title, existing_titles) ← sanitize_sheet_title store existing_titles;
      '(titles, existing_titles) ← assign_titles rest existing_titles;
      Some (title :: titles, existing_titles)
  end.

Definition is_digit (c : ascii) : bool :=
  let n := nat_of_ascii c in ((48 <=? n) && (n <=? 57))%nat.

(** [re.search(r'#\d+', s)]: the start of the first match, from [i]. *)
Fixpoint find_hash_digits (i : nat) (s : string) : option nat :=
  match s with
  | String "#" (String d _ as s') =>
      if is_digit d then Some i else find_hash_digits (S i) s'
  | String _ s' => find_hash_digits (S i) s'
  | EmptyString => None
  end.

(** [re.search(r'\s', s)]: the start of the first match, from [i]. *)
Fixpoint find_space (i : nat) (s : string) : option nat :=
  match s with
  | EmptyString => None
  | String c s' => if PyStr.is_space c then Some i else find_space (S i) s'
  end.

(** [s[start:]] *)
Fixpoint drop_chars (start : nat) (s : string) : string :=
  match start, s with
  | S n, String _ s' => drop_chars n s'
  | _, _ => s
  end.

(** GenerateMasterCSV.py, lines 492-502. *)
Definition _extract_simple_store (store_name : string) : string :=
  match find_hash_digits 0 store_name with
  | Some start_index =>
      match find_space 0 (drop_chars start_index store_name) with
      | Some k =>
          PyStr.strip (PyStr.slice_to store_name (Z.of_nat (start_index + k)))
      | None => PyStr.strip store_name
      end
  | None => PyStr.strip store_name
  end.

Definition two_digits (n : Z) : string :=
  if n <? 10 then "0" +:+ pretty n else pretty n.

(** [last_day_prev_month.strftime("%m.%y")] *)
Definition sheet_suffix (today : Date.datetime) : string :=
  let last := snd (Date.reference_window today) in
  two_digits (Date.month last) +:+ "." +:+ two_digits (Date.year last mod 100).

(** GenerateMasterCSV.py, lines 469-471: the title handed to
    [wb.create_sheet] for one store. *)
Definition sheet_name (today : Date.datetime) (store : string) : string :=
  let simple_store := _extract_simple_store store in
  PyStr.slice_to
    (remove_invalid (simple_store +:+ " " +:+ sheet_suffix today)) 31.

End Sheets.

(** ** ConsolidationDriver: [process_folders], [save_consolidated_report], [main] *)

Module Driver.
Import Frame.

(** [df is not None and not df.empty] on the outcome of [process_file]. *)
Definition usable (r : option frame) : bool :=
  match r with
  | Some df => negb (empty df)
  | None => false
  end.

Record tally := Tally {
  all_data_frames : list frame;
  processed_files : nat;
  skipped_files : nat
}.

(** Lines 407-412 for one file, given the outcome of [process_file]. *)
Definition count_file (t : tally) (r : option frame) : tally :=
  match r with
  | Some df =>
      if negb (empty df)
      then Tally (all_data_frames t ++ [df]) (S (processed_files t)) (skipped_files t)
      else Tally (all_data_frames t) (processed_files t) (S (skipped_files t))
  | None => Tally (all_data_frames t) (processed_files t) (S (skipped_files t))
  end.

(** Lines 397-412.  A folder is [None] when it does not exist, else the
    outcomes of [process_file] on its .xlsx files in listing order. *)
Definition scan (folders : list (option (list (option frame)))) : tally :=
  foldl (fun t folder =>
           match folder with
           | None => t
           | Some files => foldl count_file t files
           end) (Tally [] 0 0) folders.

(** The outcomes of [process_file] over the whole run, in processing
    order. *)
Definition outcomes (folders : list (option (list (option frame))))
    : list (option frame) :=
  folders ≫= (fun folder => default [] folder).

Definition no_data : error :=
  ValueError "No data was processed. Check your files and try again.".

Definition process_folders (pd : pandas)
    (folders : list (option (list (option frame)))) : result frame :=
  let t := scan folders in
  if bool_decide (all_data_frames t = []) then Raise no_data
  else Reconcile._consolidate_dataframes pd (all_data_frames t).

Definition columns_to_hide : list string :=
  ["Estimated Ship Date"; "Trailer or Warehouse"; "Original order #";
   "Original Trailer #"; "Touched / not Touched"; "Date Stripped";
   "Delivery Order #"; "Department"; "LH Gable"; "RH Gable"; "No Gable"].

(** [df.drop(columns=[...])] *)
Definition drop_columns (labels : list string) (df : frame) : frame :=
  let mask := map (fun c => bool_decide (c ∉ labels)) (columns df) in
  Frame (select mask (columns df)) (map (select mask) (rows df)).

(** The labels looked up in [col_indices] for every data row, lines
    555-560, in that order. *)
Definition formula_columns : list string :=
  ["Storage Starts"; "Storage Ends"; "# Days In Storage"; "Storage Charge";
   "Square Footage of Case"; "Extended Price"].

(** Lines 551-563: the formulas are written for every data row; a label
    missing from the header raises [KeyError]. *)
Definition inject_formulas (df : frame) : result unit :=
  match rows df with
  | [] => Ok tt
  | _ :: _ =>
      match filter (fun c => c ∉ columns df) formula_columns with
      | [] => Ok tt
      | c :: _ => Raise (KeyError c)
      end
  end.

(** [save_consolidated_report]: the table written to the output file, if
    any was written, and how the call ends. *)
Definition save_consolidated_report (pd : pandas) (today : Date.datetime)
    (df : frame) : option frame * result unit :=
  match Storage.resolve pd today df with
  | Raise e => (None, Raise e)
  | Ok df =>
      let df := drop_columns columns_to_hide df in
      (Some df, inject_formulas df)
  end.

(** [main]: the exit status and the table in the output file, if any. *)
Definition main (pd : pandas) (today : Date.datetime)
    (folders : list (option (list (option frame)))) : Z * option frame :=
  match process_folders pd folders with
  | Raise _ => (1, None)
  | Ok consolidated_data =>
      match save_consolidated_report pd today consolidated_data with
      | (written, Ok _) => (0, written)
      | (written, Raise _) => (1, written)
      end
  end.

End Driver.

(** ** The rules in the words of the specification *)

Module Spec.
Import Date.

(** Section 4.6, first predicate, on the Arrived @ Warehouse value of a
    record: a timestamp strictly between 2000-01-01 and the first day of
    the current month. *)
Definition strictly_between (now : datetime) (c : cell) : bool :=
  match c with
  | Stamp t => ltb Temporal.lower_cutoff t && ltb t (Temporal.upper_cutoff now)
  | _ => false
  end.

(** Section 4.5: the source value if non-null and inside the Reference
    Window, else the given day of the window. *)
Definition clamp (W : datetime * datetime) (dflt : datetime) (c : cell) : cell :=
  match c with
  | Stamp t => if in_window W t then Stamp t else Stamp dflt
  | _ => Stamp dflt
  end.

(** A cell that holds a timestamp inside the window. *)
Definition within (W : datetime * datetime) (c : cell) : Prop :=
  exists t, c = Stamp t /\ leb (fst W) t = true /\ leb t (snd W) = true.

End Spec.

(** ** HeaderNormalizer: the loop of [_process_headers] in two passes *)

Module HeaderNames.
Import Header.

(** The names before duplicate handling (lines 181-198), from index [i]
    with [prev_main_header = prev]. *)
Fixpoint candidates (i : nat) (cells : list (raw * raw)) (prev : option string)
    : list string :=
  match cells with
  | [] => []
  | (header, subheader) :: rest =>
      let '(h, prev') := candidate i header subheader prev in
      h :: candidates (S i) rest prev'
  end.

Definition header_candidates (header_row subheader_row : list raw) : list string :=
  candidates 0 (zip header_row subheader_row) None.

(** Duplicate handling (lines 200-207) over a list of names. *)
Fixpoint dedup_all (seen_headers : gmap string nat) (names : list string)
    : list string :=
  match names with
  | [] => []
  | h :: rest =>
      let '(h', seen) := dedup h seen_headers in
      h' :: dedup_all seen rest
  end.

(** The name duplicate handling gives to [c] when it starts from
    [seen_headers] and has met [k] names equal to [c] since. *)
Definition numbered_from (seen_headers : gmap string nat) (c : string) (k : nat)
    : string :=
  match seen_headers !! c with
  | None => numbered c k
  | Some n => suffixed c (n + 1 + k)
  end.

End HeaderNames.


(** ** TemporalFilter: the two masks of [_apply_date_filters] on one value *)

Module Kept.
Import Date Frame.

(** Lines 336-340 on one Storage Ends value: missing, at most 2000-01-31,
    or not before the first day of the previous month. *)
Definition storage_ends (now : datetime) (c : cell) : bool :=
  match c with
  | NA => true
  | Stamp t => leb t Temporal.early_cutoff || leb (Temporal.first_of_prev_month now) t
  | Text _ | Num _ => false
  end.

(** The rows that pass both filters; a filter whose column is absent is
    not applied. *)
Definition row (now : datetime) (cols : list string) (r : list cell) : bool :=
  (negb (bool_decide ("Arrived @ Warehouse" ∈ cols))
   || Spec.strictly_between now (get cols r "Arrived @ Warehouse"))
  && (negb (bool_decide ("Storage Ends" ∈ cols))
      || storage_ends now (get cols r "Storage Ends")).

End Kept.

(** ** StoragePeriodResolver: the resolved table cell by cell *)

Module Resolved.
Import Date Frame.

(** The cell under the label [c] after lines 510-523, computed from the
    row as it was before them. *)
Definition cell_of (pd : pandas) (W : datetime * datetime)
    (cols : list string) (row : list cell) (c : string) : cell :=
  if bool_decide (c = "Storage Starts")
  then Spec.clamp W (fst W) (to_datetime pd (get cols row "Arrived @ Warehouse"))
  else if bool_decide (c = "Storage Ends")
  then Spec.clamp W (snd W) (to_datetime pd (get cols row "Scheduled Date"))
  else if bool_decide (c = "Arrived @ Warehouse" \/ c = "Scheduled Date")
  then to_datetime pd (get cols row c)
  else get cols row c.

End Resolved.

(** ** SchemaReconciler: the formatted table cell by cell *)

Module Formatted.
Import Frame.

(** The cell under the label [c] after [format_date_columns], computed
    from the row as it was before. *)
Definition cell_of (pd : pandas) (cols : list string) (row : list cell)
    (c : string) : cell :=
  if bool_decide (c ∈ Reconcile.DATE_COLUMNS)
  then date_only (to_datetime pd (get cols row c))
  else if bool_decide (c = "Scheduled Time") then format_time pd (get cols row c)
  else get cols row c.

End Formatted.

(** ** SheetNamer: titles a workbook accepts *)

Module Titles.

(** No character of [INVALID_SHEET_CHARS] occurs in [s]. *)
Definition clean (s : string) : Prop :=
  Forall (fun c => Sheets.invalid_char c = false) (String.list_ascii_of_string s).

End Titles.

(** ** WorkbookReader: the row scan of [_extract_inventory_data] *)

Module Extract.

(** [all(cell is None for cell in row[:5])] *)
Definition blank_start (row : list cell) : bool := forallb is_na (take 5 row).

(** Lines 144-148: the rows from row 9 on, up to the first row whose first
    five cells are all empty. *)
Fixpoint data_rows (sheet_rows : list (list cell)) : list (list cell) :=
  match sheet_rows with
  | [] => []
  | row :: rest => if blank_start row then [] else row :: data_rows rest
  end.

End Extract.

(** ** FormatCSV.py: the rows copied to the store sheets *)

Module StoreSheets.
Import Frame.

(** The truth value of a cell value ([if store_value:]). *)
Definition truthy (c : cell) : bool :=
  match c with
  | NA => false
  | Stamp _ => true
  | Text s => negb (bool_decide (s = EmptyString))
  | Num z => negb (z =? 0)
  end.

(** Lines 158-162: the store values collected from the master rows, in
    order of first appearance.  The source keeps them in a set. *)
Fixpoint stores (store_column_index : nat) (master : list (list cell))
    : list cell :=
  match master with
  | [] => []
  | row :: rest =>
      let store_value := at_pos row store_column_index in
      (if truthy store_value then [store_value] else [])
      ++ filter (fun s => s <> store_value) (stores store_column_index rest)
  end.

(** Lines 195-198: the master rows appended to the sheet of [store]. *)
Definition copied (store_column_index : nat) (master : list (list cell))
    (store : cell) : list (list cell) :=
  List.filter (fun row => bool_decide (at_pos row store_column_index = store))
    master.

End StoreSheets.

(** ** HeaderNormalizer: [_fix_time_columns] *)

Module TimeColumns.
Import Frame.

(** [$]: the end of the string, or the position before a final newline. *)
Definition at_end (s : string) : bool :=
  bool_decide (s = EmptyString) || bool_decide (s = String "010" EmptyString).

(** [[AP]M$] *)
Definition ampm (s : string) : bool :=
  match s with
  | String a (String "M" rest) =>
      (bool_decide (a = "A"%char) || bool_decide (a = "P"%char)) && at_end rest
  | _ => false
  end.

(** [(?:\s?[AP]M)?$] *)
Definition meridiem_end (s : string) : bool :=
  at_end s || ampm s ||
  match s with
  | String c rest => PyStr.is_space c && ampm rest
  | EmptyString => false
  end.

(** [(?::\d{2})?(?:\s?[AP]M)?$] *)
Definition seconds_end (s : string) : bool :=
  meridiem_end s ||
  match s with
  | String ":" (String d1 (String d2 rest)) =>
      Sheets.is_digit d1 && Sheets.is_digit d2 && meridiem_end rest
  | _ => false
  end.

(** [:\d{2}(?::\d{2})?(?:\s?[AP]M)?$] *)
Definition minutes (s : string) : bool :=
  match s with
  | String ":" (String d1 (String d2 rest)) =>
      Sheets.is_digit d1 && Sheets.is_digit d2 && seconds_end rest
  | _ => false
  end.

(** [re.match(time_pattern, s)] for
    [^\d{1,2}:\d{2}(?::\d{2})?(?:\s?[AP]M)?$] on an ASCII string. *)
Definition time_match (s : string) : bool :=
  match s with
  | String d rest =>
      Sheets.is_digit d &&
      (minutes rest ||
       match rest with
       | String d' rest' => Sheets.is_digit d' && minutes rest'
       | EmptyString => false
       end)
  | EmptyString => false
  end.

(** [df.rename(columns={old: new}, inplace=True)] *)
Definition rename_label (old new : string) (df : frame) : frame :=
  Frame (map (fun c => if bool_decide (c = old) then new else c) (columns df))
        (rows df).

(** [df[col].astype(str).str.match(time_pattern).any()], with [str] the
    string form of a cell value.  [df[col]] raises [KeyError] on a label
    the frame lacks and is a frame, without [.str], on a label carried by
    several columns. *)
Definition any_time_value (str : cell -> string) (df : frame) (col : string)
    : result bool :=
  match Reconcile.occurrences col (columns df) with
  | 0%nat => Raise (KeyError col)
  | 1%nat =>
      Ok (existsb (fun row => time_match (str (get (columns df) row col)))
            (rows df))
  | _ => Raise AttributeError
  end.

Definition rename_if_time (str : cell -> string) (df : frame) (col : string)
    : result frame :=
  b ← any_time_value str df col;
  Ok (if b : bool then rename_label col "Scheduled Time" df else df).

(** Lines 215-219 for one label of the original header. *)
Definition fix_one (str : cell -> string) (df : frame) (col : string)
    : result frame :=
  if PyStr.contains "time" (PyStr.lower col)
     && negb (bool_decide (col = "Scheduled Time"))
  then rename_if_time str df col
  else Ok df.

(** Lines 226-238. *)
Definition _find_adjacent_time_column (str : cell -> string) (df : frame)
    : result frame :=
  match index_of "Scheduled Date" (columns df) with
  | Some date_col_idx =>
      match columns df !! (date_col_idx + 1)%nat with
      | Some next_col => rename_if_time str df next_col
      | None => Ok df
      end
  | None => Ok df
  end.

(** Lines 211-224.  The loop runs over the labels the frame had when it
    was entered. *)
Definition _fix_time_columns (str : cell -> string) (df : frame)
    : result frame :=
  df' ← foldl (fun acc col => df ← acc; fix_one str df col) (Ok df) (columns df);
  if has df' "Scheduled Date" && negb (has df' "Scheduled Time")
  then _find_adjacent_time_column str df'
  else Ok df'.

End TimeColumns.

(** ** SchemaReconciler: where the rows of the consolidated table come from *)

Module Origin.
Import Frame.

(** The rows handed to the consolidation, in the order in which they are
    stacked, each with the record set it belongs to. *)
Definition rows_of (data_frames : list frame) : list (frame * list cell) :=
  data_frames ≫= (fun df => map (fun row => (df, row)) (rows df)).

(** The record set has no column for [c]: none of its columns that hold a
    value, the ones line 434 keeps, is renamed [c] by line 441. *)
Definition lacks (df : frame) (c : string) : Prop :=
  forall c', Reconcile.holds_under df c' -> Reconcile.clean_name c' <> c.

End Origin.
(** * Properties *)

(** ** Exceptions, masks and frames *)

Section Generic.
Import Frame.

Lemma bind_Ok_inv {A B} (r : result A) (k : A -> result B) b :
  r ≫= k = Ok b -> exists a, r = Ok a /\ k a = Ok b.
Proof. destruct r as [a|e]; simpl; [eauto|done]. Qed.

Lemma bind_Ok {A B} (a : A) (k : A -> result B) : Ok a ≫= k = k a.
Proof. reflexivity. Qed.

Lemma mapM_ok {A B} (f : A -> result B) (g : A -> B) (l : list A) :
  Forall (fun x => f x = Ok (g x)) l -> mapM f l = Ok (map g l).
Proof.
  induction 1 as [|x l Hx _ IH]; simpl; [done|].
  rewrite Hx. simpl. rewrite IH. done.
Qed.

Lemma mapM_inv {A B} (f : A -> result B) (l : list A) : forall ys,
  mapM f l = Ok ys -> Forall2 (fun x y => f x = Ok y) l ys.
Proof.
  induction l as [|x l IH]; simpl; intros ys H.
  - injection H as <-. constructor.
  - destruct (f x) as [y|e] eqn:Hx; simpl in H; [|done].
    destruct (mapM f l) as [ys'|e] eqn:Hl; simpl in H; [|done].
    injection H as <-. constructor; auto.
Qed.

Lemma select_map {A} (p : A -> bool) (l : list A) :
  select (map p l) l = List.filter p l.
Proof.
  induction l as [|x l IH]; simpl; [done|].
  rewrite IH. by destruct (p x).
Qed.

Lemma has_true df c : has df c = true <-> c ∈ columns df.
Proof. unfold has. apply bool_decide_eq_true. Qed.

Lemma index_of_Some c cols j :
  index_of c cols = Some j ->
  cols !! j = Some c /\ forall i, (i < j)%nat -> cols !! i <> Some c.
Proof.
  revert j. induction cols as [|c' cols IH]; intros j; simpl; [done|].
  case_bool_decide as Hc.
  - intros [= <-]. split; [by subst|]. intros i Hi. lia.
  - destruct (index_of c cols) as [j'|]; simpl; [|done].
    intros [= <-]. destruct (IH j' eq_refl) as [H1 H2].
    split; [done|]. intros [|i] Hi; simpl.
    + congruence.
    + apply H2. lia.
Qed.

Lemma index_of_None c cols : index_of c cols = None <-> c ∉ cols.
Proof.
  induction cols as [|c' cols IH]; simpl.
  - split; [intros _; apply not_elem_of_nil|done].
  - case_bool_decide as Hc.
    + split; [done|]. intros H. exfalso. apply H. subst. left.
    + rewrite not_elem_of_cons, <- IH.
      destruct (index_of c cols); simpl.
      * split; [done|]. by intros [_ ?].
      * split; [|done]. intros _. split; [congruence|done].
Qed.

Lemma index_of_elem c cols : c ∈ cols -> exists j, index_of c cols = Some j.
Proof.
  intros H. destruct (index_of c cols) as [j|] eqn:E; [eauto|].
  apply index_of_None in E. done.
Qed.

End Generic.

Section FrameFacts.
Import Frame.

Lemma get_insert_eq cols row c j v :
  index_of c cols = Some j -> (j < length row)%nat ->
  get cols (<[j:=v]> row) c = v.
Proof.
  unfold get, at_pos. intros -> Hj.
  by rewrite list_lookup_insert_eq.
Qed.

Lemma get_insert_ne cols row c c' j v :
  index_of c cols = Some j -> c' <> c ->
  get cols (<[j:=v]> row) c' = get cols row c'.
Proof.
  unfold get, at_pos. intros Hj Hne.
  destruct (index_of c' cols) as [j'|] eqn:E; [|done].
  rewrite list_lookup_insert_ne; [done|].
  intros <-. apply index_of_Some in Hj as [H1 _].
  apply index_of_Some in E as [H2 _]. congruence.
Qed.

Lemma index_of_app_l c cols extra :
  c ∈ cols -> index_of c (cols ++ extra) = index_of c cols.
Proof.
  induction cols as [|c' cols IH]; simpl; intros H.
  - by apply elem_of_nil in H.
  - case_bool_decide; [done|].
    apply elem_of_cons in H as [->|H]; [done|]. by rewrite IH.
Qed.

Lemma index_of_app_new c cols :
  c ∉ cols -> index_of c (cols ++ [c]) = Some (length cols).
Proof.
  induction cols as [|c' cols IH]; simpl; intros H.
  - by rewrite bool_decide_eq_true_2.
  - apply not_elem_of_cons in H as [H1 H2].
    rewrite bool_decide_eq_false_2 by congruence. by rewrite IH.
Qed.

Lemma index_of_app_None c c' cols :
  c' ∉ cols -> c' <> c -> index_of c' (cols ++ [c]) = None.
Proof.
  intros H1 H2. apply index_of_None. rewrite elem_of_app, list_elem_of_singleton.
  tauto.
Qed.

Lemma get_app_eq cols row c v :
  c ∉ cols -> length row = length cols ->
  get (cols ++ [c]) (row ++ [v]) c = v.
Proof.
  intros Hc Hl. unfold get, at_pos. rewrite index_of_app_new by done.
  rewrite <- Hl. by rewrite list_lookup_middle.
Qed.

Lemma get_app_ne cols row c c' v :
  c' <> c -> length row = length cols ->
  get (cols ++ [c]) (row ++ [v]) c' = get cols row c'.
Proof.
  intros Hne Hl. unfold get, at_pos.
  destruct (decide (c' ∈ cols)) as [Hin|Hin].
  - rewrite index_of_app_l by done.
    destruct (index_of_elem _ _ Hin) as [j Hj]. rewrite Hj.
    apply index_of_Some in Hj as [Hj _]. apply lookup_lt_Some in Hj.
    rewrite lookup_app_l by lia. done.
  - rewrite index_of_app_None by done.
    apply index_of_None in Hin. by rewrite Hin.
Qed.

(** [set_column] with values computed from the rows. *)
Lemma set_column_map c (g : list cell -> cell) df :
  set_column c (map g (rows df)) df =
  match index_of c (columns df) with
  | Some j => Frame (columns df) (map (fun row => <[j := g row]> row) (rows df))
  | None => Frame (columns df ++ [c]) (map (fun row => row ++ [g row]) (rows df))
  end.
Proof.
  unfold set_column. destruct (index_of c (columns df)); f_equal.
  - induction (rows df); simpl; by f_equal.
  - induction (rows df); simpl; by f_equal.
Qed.

(** What [set_column] does to the labels and to each row. *)
Lemma set_column_spec c (g : list cell -> cell) df :
  wf df ->
  let df' := set_column c (map g (rows df)) df in
  wf df' /\
  (forall c', c' ∈ columns df' <-> c' = c \/ c' ∈ columns df) /\
  (c ∈ columns df -> columns df' = columns df) /\
  Forall2 (fun row row' =>
             get (columns df') row' c = g row /\
             forall c', c' <> c -> get (columns df') row' c' = get (columns df) row c')
          (rows df) (rows df').
Proof.
  intros Hwf df'. subst df'. rewrite set_column_map.
  destruct (index_of c (columns df)) as [j|] eqn:Hj; simpl.
  - pose proof (index_of_Some _ _ _ Hj) as [Hc _].
    split; [|split; [|split]].
    + unfold wf in *. simpl. rewrite Forall_map.
      eapply Forall_impl; [exact Hwf|]. intros row Hr. simpl.
      by rewrite length_insert.
    + intros c'. split; [tauto|]. intros [->|?]; [|done].
      by eapply list_elem_of_lookup_2.
    + done.
    + apply Forall2_fmap_r, Forall_Forall2_diag.
      eapply Forall_impl; [exact Hwf|]. intros row Hr. simpl in Hr. split.
      * apply get_insert_eq; [done|]. rewrite Hr. by eapply lookup_lt_Some.
      * intros c' Hne. by eapply get_insert_ne.
  - apply index_of_None in Hj.
    split; [|split; [|split]].
    + unfold wf in *. simpl. rewrite Forall_map.
      eapply Forall_impl; [exact Hwf|]. intros row Hr. simpl in *.
      rewrite !length_app. simpl. lia.
    + intros c'. rewrite elem_of_app, list_elem_of_singleton. tauto.
    + done.
    + apply Forall2_fmap_r, Forall_Forall2_diag.
      eapply Forall_impl; [exact Hwf|]. intros row Hr. simpl in Hr. split.
      * by apply get_app_eq.
      * intros c' Hne. by apply get_app_ne.
Qed.

(** Writing back the values a column already holds changes nothing. *)
Lemma set_column_same c df :
  wf df -> c ∈ columns df ->
  set_column c (map (fun row => get (columns df) row c) (rows df)) df = df.
Proof.
  intros Hwf Hc. rewrite set_column_map.
  destruct (index_of_elem _ _ Hc) as [j Hj]. rewrite Hj.
  destruct df as [cols rs]. simpl in *. f_equal.
  rewrite <- (map_id rs) at 2. apply map_ext_Forall.
  eapply Forall_impl; [exact Hwf|]. intros row Hr. simpl in *.
  apply list_insert_id. unfold get, at_pos. rewrite Hj.
  apply index_of_Some in Hj as [Hj _]. apply lookup_lt_Some in Hj.
  destruct (row !! j) eqn:E; [done|].
  apply lookup_ge_None in E. lia.
Qed.

End FrameFacts.
(** ** HeaderNormalizer *)

Section HeaderFacts.
Import Header.

Lemma step_prev i header subheader st :
  prev_main_header (snd (step i header subheader st)) =
  match header with
  | None => prev_main_header st
  | Some h => Some (PyStr.strip h)
  end.
Proof.
  unfold step, candidate, resolve_none.
  destruct header as [h|]; simpl.
  - destruct (dedup _ _); reflexivity.
  - destruct (_ && _); simpl; destruct (dedup _ _); reflexivity.
Qed.

Lemma state_after_prev cells : forall i st,
  prev_main_header (state_after i cells st) =
  last_primary (prev_main_header st) (cells.*1).
Proof.
  induction cells as [|[h s] cells IH]; intros i st; simpl; [done|].
  rewrite IH, step_prev. by destruct h.
Qed.

Lemma loop_lookup cells : forall i st j h s,
  cells !! j = Some (h, s) ->
  loop i cells st !! j =
  Some (fst (step (i + j) h s (state_after i (take j cells) st))).
Proof.
  induction cells as [|[h0 s0] cells IH]; intros i st j h s Hj; [done|].
  simpl. destruct (step i h0 s0 st) as [n st'] eqn:E.
  destruct j as [|j]; simpl in *.
  - simplify_eq. rewrite Nat.add_0_r, E. done.
  - rewrite (IH _ _ _ _ _ Hj), E. simpl. do 4 f_equal. lia.
Qed.

Lemma fst_take_zip {A B} (l : list A) : forall (k : list B) i,
  (i <= length k)%nat -> (take i (zip l k)).*1 = take i l.
Proof.
  induction l as [|a l IH]; intros [|b k] [|i] Hi; simpl in *; try done; try lia.
  f_equal. apply IH. lia.
Qed.

Lemma dedup_numbered h seen : exists k, fst (dedup h seen) = numbered h k.
Proof.
  unfold dedup. destruct (seen !! h) as [n|].
  - by exists (S n).
  - by exists O.
Qed.

Lemma unnamed_not_appt i sub :
  split_appt ("Unnamed_" +:+ PyStr.of_nat i) sub = "Unnamed_" +:+ PyStr.of_nat i.
Proof.
  unfold split_appt. rewrite bool_decide_eq_false_2; [done|].
  cbv [String.append]. discriminate.
Qed.

Lemma candidate_continuation i sub :
  fst (candidate i None sub (Some "Scheduled APPT")) =
  if any_time (subheader_str sub) then "Scheduled Time"
  else "Unnamed_" +:+ PyStr.of_nat i.
Proof.
  unfold candidate, resolve_none.
  rewrite bool_decide_eq_true_2 by done. simpl.
  destruct (any_time (subheader_str sub)); simpl.
  - reflexivity.
  - apply unnamed_not_appt.
Qed.

(** C4, as amended.  At a position [i] whose primary header cell is empty
    while the most recently seen primary header is "Scheduled APPT", the
    name is "Scheduled Time" when the subheader contains one of "time",
    "tme", "tim", and "Unnamed_<i>" in every other case, also when the
    subheader contains "date"; duplicate handling then leaves that name or
    appends a counter to it. *)
Theorem C4_continuation_of_appt (header_row subheader_row : list raw)
    (i : nat) (sub : raw) :
  header_row !! i = Some None ->
  subheader_row !! i = Some sub ->
  last_primary None (take i header_row) = Some "Scheduled APPT" ->
  let name := if any_time (subheader_str sub) then "Scheduled Time"
              else "Unnamed_" +:+ PyStr.of_nat i in
  fst (candidate i None sub (Some "Scheduled APPT")) = name /\
  exists k, _process_headers header_row subheader_row !! i = Some (numbered name k).
Proof.
  intros Hh Hs Hprev name. split; [apply candidate_continuation|].
  unfold _process_headers.
  assert (Hz : zip header_row subheader_row !! i = Some (None, sub)).
  { apply lookup_zip_with_Some. eauto. }
  rewrite (loop_lookup _ _ _ _ _ _ Hz). simpl.
  set (st := state_after _ _ _).
  assert (Hp : prev_main_header st = Some "Scheduled APPT").
  { subst st. rewrite state_after_prev. simpl.
    rewrite <- Hprev. f_equal.
    apply fst_take_zip. apply lookup_lt_Some in Hs. lia. }
  unfold step. rewrite Hp.
  pose proof (candidate_continuation i sub) as Hc.
  destruct (candidate i None sub _) as [h prev]. simpl in Hc. subst h.
  destruct (dedup_numbered name (seen_headers st)) as [k Hk].
  exists k. destruct (dedup _ _). simpl in Hk. by subst.
Qed.

Lemma C4_continuation_of_appt_witness :
  fst (candidate 1 None (Some "Tme") (Some "Scheduled APPT")) = "Scheduled Time" /\
  exists k,
    _process_headers [Some "Scheduled APPT"; None] [Some "Date"; Some "Tme"]
      !! 1%nat = Some (numbered "Scheduled Time" k).
Proof.
  apply (C4_continuation_of_appt
           [Some "Scheduled APPT"; None] [Some "Date"; Some "Tme"] 1 (Some "Tme"));
    reflexivity.
Defined.

(** C4, counterexample.  Position 1 has an empty primary header, the last
    primary header seen is "Scheduled APPT" and the subheader "Date"
    contains "date", yet the name is "Unnamed_1", not "Scheduled Date". *)
Lemma C4_date_continuation_unnamed :
  [Some "Scheduled APPT"; None] !! 1%nat = Some (@None string) /\
  last_primary None (take 1 [Some "Scheduled APPT"; None]) = Some "Scheduled APPT" /\
  PyStr.contains "date" (subheader_str (Some "Date")) = true /\
  _process_headers [Some "Scheduled APPT"; None] [Some "Time"; Some "Date"]
    !! 1%nat = Some "Unnamed_1" /\
  _process_headers [Some "Scheduled APPT"; None] [Some "Time"; Some "Date"]
    !! 1%nat <> Some "Scheduled Date".
Proof. repeat split; try (vm_compute; reflexivity). vm_compute. discriminate. Qed.

(** The two examples of the header rules: three equal headers, and the
    merged "Scheduled APPT" cell over a date and a time column. *)
Example headers_foo :
  _process_headers [Some "Foo"; Some "Foo"; Some "Foo"] [None; None; None]
  = ["Foo"; "Foo_1"; "Foo_2"].
Proof. vm_compute. reflexivity. Qed.

Example headers_appt :
  _process_headers [Some "Scheduled APPT"; None] [Some "Date"; Some "Tme"]
  = ["Scheduled Date"; "Scheduled Time"].
Proof. vm_compute. reflexivity. Qed.

(** C5, the failing input.  A header cell that reads "Foo_1" after two
    cells "Foo" is not in [seen_headers] and is kept as it is, so the name
    "Foo_1" is produced twice. *)
Theorem C5_suffixed_literal_repeated :
  _process_headers [Some "Foo"; Some "Foo"; Some "Foo_1"] [None; None; None]
  = ["Foo"; "Foo_1"; "Foo_1"] /\
  ~ NoDup (_process_headers [Some "Foo"; Some "Foo"; Some "Foo_1"]
             [None; None; None]).
Proof.
  assert (H : _process_headers [Some "Foo"; Some "Foo"; Some "Foo_1"]
                [None; None; None] = ["Foo"; "Foo_1"; "Foo_1"])
    by (vm_compute; reflexivity).
  split; [exact H|]. rewrite H. intros Hnd.
  apply NoDup_cons in Hnd as [_ Hnd]. apply NoDup_cons in Hnd as [Hin _].
  apply Hin. left.
Qed.

End HeaderFacts.

(** ** TemporalFilter *)

Section TemporalFacts.
Import Date Frame Temporal.

Lemma arrived_mask_ok now cols row :
  match get cols row "Arrived @ Warehouse" with
  | NA | Stamp _ => True
  | _ => False
  end ->
  arrived_mask now cols row
  = Ok (Spec.strictly_between now (get cols row "Arrived @ Warehouse")).
Proof.
  unfold arrived_mask. destruct (get cols row _); simpl; done.
Qed.

Lemma strictly_between_iff now c :
  Spec.strictly_between now c = true <->
  exists t, c = Stamp t /\ ltb lower_cutoff t = true /\ ltb t (upper_cutoff now) = true.
Proof.
  destruct c as [|t|s|z]; simpl.
  - split; [done|]. by intros (t & ? & _).
  - rewrite andb_true_iff. split.
    + intros [? ?]. by exists t.
    + intros (t' & [= <-] & ? & ?). done.
  - split; [done|]. by intros (t & ? & _).
  - split; [done|]. by intros (t & ? & _).
Qed.

(** C3, as amended.  On a record set with a datetime column
    Arrived @ Warehouse the filter keeps, in order, exactly the records
    whose Arrived @ Warehouse value is a timestamp strictly between
    2000-01-01 and the first day of the current month; a record whose value
    is null is dropped, and so is one whose value is exactly 2000-01-01. *)
Theorem C3_arrived_filter (now : datetime) (df : frame) :
  has df "Arrived @ Warehouse" = true ->
  datetime_column df "Arrived @ Warehouse" ->
  filter_arrived now df
  = Ok (Frame (columns df)
          (List.filter
             (fun row => Spec.strictly_between now
                           (get (columns df) row "Arrived @ Warehouse"))
             (rows df))) /\
  (forall c, Spec.strictly_between now c = true <->
             exists t, c = Stamp t /\ ltb lower_cutoff t = true /\
                       ltb t (upper_cutoff now) = true) /\
  Spec.strictly_between now NA = false /\
  Spec.strictly_between now (Stamp (midnight 2000 1 1)) = false.
Proof.
  intros Hhas Hcol. split; [|split; [apply strictly_between_iff|split; reflexivity]].
  unfold filter_arrived, boolean_index. rewrite Hhas.
  rewrite (mapM_ok _ (fun row => Spec.strictly_between now
                         (get (columns df) row "Arrived @ Warehouse"))).
  - simpl. by rewrite select_map.
  - eapply Forall_impl; [exact Hcol|]. intros row H. by apply arrived_mask_ok.
Qed.

Lemma C3_arrived_filter_witness :
  filter_arrived (DateTime 2026 11 3 0)
    (Frame ["Case #"; "Arrived @ Warehouse"]
       [[Text "A1"; NA];
        [Text "A2"; Stamp (midnight 2000 1 1)];
        [Text "A3"; Stamp (midnight 2026 10 5)];
        [Text "A4"; Stamp (midnight 2026 11 1)]])
  = Ok (Frame ["Case #"; "Arrived @ Warehouse"]
          [[Text "A3"; Stamp (midnight 2026 10 5)]]).
Proof.
  refine (proj1 (C3_arrived_filter (DateTime 2026 11 3 0)
           (Frame ["Case #"; "Arrived @ Warehouse"]
              [[Text "A1"; NA];
               [Text "A2"; Stamp (midnight 2000 1 1)];
               [Text "A3"; Stamp (midnight 2026 10 5)];
               [Text "A4"; Stamp (midnight 2026 11 1)]]) _ _)).
  - reflexivity.
  - repeat constructor.
Defined.

(** C3, counterexample.  A record whose Arrived @ Warehouse is null is
    dropped by the filter, where the claim keeps it. *)
Lemma C3_null_arrival_dropped :
  filter_arrived (DateTime 2026 11 3 0)
    (Frame ["Case #"; "Arrived @ Warehouse"] [[Text "A1"; NA]])
  = Ok (Frame ["Case #"; "Arrived @ Warehouse"] []).
Proof. vm_compute. reflexivity. Qed.

(** The Storage Ends predicate: the value 2000-01-31 and the null value
    are kept, a value before the previous month is dropped. *)
Example storage_ends_sentinel_kept :
  _apply_date_filters (DateTime 2026 11 3 0)
    (Frame ["Storage Ends"]
       [[Stamp (midnight 2000 1 31)]; [NA];
        [Stamp (midnight 2026 9 30)]; [Stamp (midnight 2026 10 1)]])
  = Ok (Frame ["Storage Ends"]
          [[Stamp (midnight 2000 1 31)]; [NA]; [Stamp (midnight 2026 10 1)]]).
Proof. vm_compute. reflexivity. Qed.

End TemporalFacts.

(** ** The Reference Window *)

Section DateFacts.
Import Date.

Lemma compare_refl a : compare a a = Eq.
Proof. unfold compare. by rewrite !Z.compare_refl. Qed.

Lemma leb_refl a : leb a a = true.
Proof. unfold leb. by rewrite compare_refl. Qed.

Lemma days_in_month_ge y m : 28 <= days_in_month y m.
Proof.
  unfold days_in_month.
  repeat (match goal with
          | |- context [match ?x with _ => _ end] => destruct x
          end; try lia).
Qed.

(** The window runs from the first to the last day of the month before
    [today]'s. *)
Lemma reference_window_prev_month today :
  reference_window today =
  if 1 <? month today
  then (midnight (year today) (month today - 1) 1,
        midnight (year today) (month today - 1)
          (days_in_month (year today) (month today - 1)))
  else (midnight (year today - 1) 12 1, midnight (year today - 1) 12 31).
Proof.
  unfold reference_window, minus_one_day, midnight. simpl.
  destruct (1 <? month today); reflexivity.
Qed.

Lemma leb_same_month y m d1 d2 t1 t2 :
  d1 < d2 -> leb (DateTime y m d1 t1) (DateTime y m d2 t2) = true.
Proof.
  intros H. unfold leb, compare. cbn [year month day tod].
  rewrite !Z.compare_refl. apply Z.compare_lt_iff in H. by rewrite H.
Qed.

Lemma window_ordered today :
  leb (fst (reference_window today)) (snd (reference_window today)) = true.
Proof.
  rewrite reference_window_prev_month.
  pose proof (days_in_month_ge (year today) (month today - 1)).
  destruct (1 <? month today); cbn [fst snd]; apply leb_same_month; lia.
Qed.

End DateFacts.

(** ** StoragePeriodResolver *)

Section StorageFacts.
Import Date Frame Storage.

Lemma Forall2_compose {A B C} (R1 : A -> B -> Prop) (R2 : B -> C -> Prop) l1 :
  forall l2 l3, Forall2 R1 l1 l2 -> Forall2 R2 l2 l3 ->
  Forall2 (fun x z => exists y, R1 x y /\ R2 y z) l1 l3.
Proof.
  induction l1 as [|x l1 IH]; intros l2 l3 H1 H2.
  - inversion H1; subst. inversion H2; subst. constructor.
  - inversion H1; subst. inversion H2; subst. constructor; eauto.
Qed.

Lemma Forall2_and_l {A B} (P : A -> Prop) (R : A -> B -> Prop) l k :
  Forall P l -> Forall2 R l k -> Forall2 (fun x y => P x /\ R x y) l k.
Proof.
  intros HP HR. induction HR; inversion HP; subst; constructor; auto.
Qed.

Lemma Forall2_eq_map {A B} (g : A -> B) l k :
  Forall2 (fun x y => y = g x) l k -> k = map g l.
Proof. induction 1; simpl; congruence. Qed.

Lemma Forall2_map_diag {A B} (R : A -> B -> Prop) (g : A -> B) l :
  Forall2 R l (map g l) -> Forall (fun x => R x (g x)) l.
Proof.
  induction l as [|x l IH]; simpl; intros H; [constructor|].
  inversion H; subst. constructor; auto.
Qed.

Lemma pick_clamp W d x y : pick W d x = Ok y -> y = Spec.clamp W d x.
Proof.
  destruct x as [|t|s|z]; simpl; try done.
  - by intros [= <-].
  - intros [= <-]. by destruct (in_window W t).
Qed.

Lemma pick_date W d x :
  match x with NA | Stamp _ => True | _ => False end ->
  pick W d x = Ok (Spec.clamp W d x).
Proof. destruct x as [|t|s|z]; simpl; try done; by destruct (in_window W t). Qed.

Lemma to_datetime_date pd c :
  match to_datetime pd c with NA | Stamp _ => True | _ => False end.
Proof.
  destruct c as [|t|s|z]; simpl; try done.
  - by destruct (parse_text pd s).
  - by destruct (parse_num pd z).
Qed.

Lemma to_datetime_idem pd c :
  to_datetime pd (to_datetime pd c) = to_datetime pd c.
Proof.
  pose proof (to_datetime_date pd c) as H.
  by destruct (to_datetime pd c).
Qed.

Lemma clamp_within today dflt x :
  let W := reference_window today in
  dflt = fst W \/ dflt = snd W ->
  Spec.within W (Spec.clamp W dflt x).
Proof.
  intros W Hd. pose proof (window_ordered today) as Hord. fold W in Hord.
  assert (Hdflt : Spec.within W (Stamp dflt)).
  { exists dflt. destruct Hd as [-> | ->]; auto using leb_refl. }
  unfold Spec.clamp. destruct x as [|t|s|z]; try done.
  destruct (in_window W t) eqn:E; [|done].
  unfold in_window in E. apply andb_true_iff in E as [? ?]. by exists t.
Qed.

(** What a successful [assign_from] did. *)
Lemma assign_from_ok W d src tgt df df' :
  assign_from W d src tgt df = Ok df' ->
  Forall (fun row => pick W d (get (columns df) row src)
                     = Ok (Spec.clamp W d (get (columns df) row src))) (rows df) /\
  df' = set_column tgt
          (map (fun row => Spec.clamp W d (get (columns df) row src)) (rows df)) df.
Proof.
  unfold assign_from. intros H.
  destruct (mapM _ (rows df)) as [vals|e] eqn:E; simpl in H; [|done].
  injection H as <-. apply mapM_inv in E.
  assert (Hv : vals = map (fun row => Spec.clamp W d (get (columns df) row src)) (rows df)).
  { apply Forall2_eq_map. eapply Forall2_impl; [exact E|].
    intros row v Hp. simpl in Hp. by apply pick_clamp in Hp. }
  split; [|by rewrite Hv].
  subst vals. by apply Forall2_map_diag in E.
Qed.

Lemma Forall2_right {A B} (R : A -> B -> Prop) (Q : B -> Prop) l k :
  Forall2 R l k -> (forall x y, R x y -> Q y) -> Forall Q k.
Proof. induction 1; intros HQ; constructor; eauto. Qed.

Lemma assign_from_inv W d src tgt df df' :
  wf df -> assign_from W d src tgt df = Ok df' ->
  wf df' /\
  (forall c', c' ∈ columns df' <-> c' = tgt \/ c' ∈ columns df) /\
  (tgt ∈ columns df -> columns df' = columns df) /\
  Forall2 (fun row row' =>
             pick W d (get (columns df) row src)
             = Ok (Spec.clamp W d (get (columns df) row src)) /\
             get (columns df') row' tgt = Spec.clamp W d (get (columns df) row src) /\
             forall c', c' <> tgt -> get (columns df') row' c' = get (columns df) row c')
          (rows df) (rows df').
Proof.
  intros Hwf H. apply assign_from_ok in H as [HF ->].
  destruct (set_column_spec tgt
              (fun row => Spec.clamp W d (get (columns df) row src)) df Hwf)
    as (Hwf' & Hmem & Hcols & F2).
  repeat split; try done.
  - by apply Hmem.
  - by apply Hmem.
  - eapply Forall2_impl; [exact (Forall2_and_l _ _ _ _ HF F2)|].
    simpl. tauto.
Qed.

Lemma assign_from_fix W d src tgt df :
  wf df -> tgt ∈ columns df ->
  Forall (fun row => pick W d (get (columns df) row src)
                     = Ok (get (columns df) row tgt)) (rows df) ->
  assign_from W d src tgt df = Ok df.
Proof.
  intros Hwf Htgt HF. unfold assign_from.
  rewrite (mapM_ok _ (fun row => get (columns df) row tgt)) by done.
  simpl. by rewrite set_column_same.
Qed.

Lemma coerce_column_inv pd c df df' :
  wf df -> coerce_column pd c df = Ok df' ->
  c ∈ columns df /\ wf df' /\ columns df' = columns df /\
  Forall2 (fun row row' =>
             get (columns df') row' c = to_datetime pd (get (columns df) row c) /\
             forall c', c' <> c -> get (columns df') row' c' = get (columns df) row c')
          (rows df) (rows df').
Proof.
  intros Hwf. unfold coerce_column, column.
  destruct (has df c) eqn:Hc; simpl; [|done].
  intros [= <-]. apply has_true in Hc. rewrite map_map.
  destruct (set_column_spec c
              (fun row => to_datetime pd (get (columns df) row c)) df Hwf)
    as (Hwf' & Hmem & Hcols & F2).
  auto.
Qed.

Lemma coerce_column_fix pd c df :
  wf df -> c ∈ columns df ->
  Forall (fun row => to_datetime pd (get (columns df) row c)
                     = get (columns df) row c) (rows df) ->
  coerce_column pd c df = Ok df.
Proof.
  intros Hwf Hc HF. unfold coerce_column, column.
  apply has_true in Hc as Hc'. rewrite Hc'. simpl. rewrite map_map.
  rewrite (map_ext_Forall _ (fun row => get (columns df) row c)) by done.
  by rewrite set_column_same.
Qed.

Local Abbreviation A := "Arrived @ Warehouse".
Local Abbreviation SS := "Storage Starts".
Local Abbreviation SD := "Scheduled Date".
Local Abbreviation SE := "Storage Ends".

(** One guarded block of [adjust_storage]. *)
Lemma guarded_assign_inv (guard : bool) W d src tgt df df' :
  wf df -> (guard = true -> tgt ∈ columns df) ->
  (if guard then assign_from W d src tgt df else Ok df) = Ok df' ->
  wf df' /\ columns df' = columns df /\
  Forall2 (fun row row' =>
             (guard = true ->
              pick W d (get (columns df) row src)
              = Ok (Spec.clamp W d (get (columns df) row src)) /\
              get (columns df) row' tgt = Spec.clamp W d (get (columns df) row src)) /\
             forall c', c' <> tgt -> get (columns df) row' c' = get (columns df) row c')
          (rows df) (rows df').
Proof.
  intros Hwf Hg H. destruct guard.
  - apply assign_from_inv in H as (Hwf' & _ & Hcols & F); [|done].
    specialize (Hcols (Hg eq_refl)). rewrite Hcols in F.
    repeat split; try done.
    eapply Forall2_impl; [exact F|]. simpl. tauto.
  - injection H as <-. repeat split; try done.
    apply Forall_Forall2_diag, Forall_true. intros row. split; [done|auto].
Qed.

Lemma has_and_elem df c1 c2 :
  has df c1 && has df c2 = true -> c2 ∈ columns df.
Proof. intros H. apply andb_true_iff in H as [_ H]. by apply has_true. Qed.

Lemma adjust_storage_inv today df df' :
  let W := reference_window today in
  wf df -> adjust_storage today df = Ok df' ->
  wf df' /\ columns df' = columns df /\
  Forall2 (fun row row' =>
             (has df A && has df SS = true ->
              pick W (fst W) (get (columns df) row A)
              = Ok (get (columns df) row' SS) /\
              get (columns df) row' SS = Spec.clamp W (fst W) (get (columns df) row A)) /\
             (has df SD && has df SE = true ->
              pick W (snd W) (get (columns df) row SD)
              = Ok (get (columns df) row' SE) /\
              get (columns df) row' SE = Spec.clamp W (snd W) (get (columns df) row SD)) /\
             get (columns df) row' A = get (columns df) row A /\
             get (columns df) row' SD = get (columns df) row SD)
          (rows df) (rows df').
Proof.
  intros W Hwf H. unfold adjust_storage in H. fold W in H.
  destruct (if has df A && has df SS then _ else _) as [df1|e] eqn:E1;
    simpl in H; [|done].
  apply guarded_assign_inv in E1 as (Hwf1 & Hc1 & F1);
    [|done|apply has_and_elem].
  assert (Hhas : forall c, has df1 c = has df c).
  { intros c. unfold has. by rewrite Hc1. }
  rewrite !Hhas in H.
  apply guarded_assign_inv in H as (Hwf2 & Hc2 & F2);
    [|done|rewrite <- !Hhas; apply has_and_elem].
  rewrite Hc1 in Hc2, F2.
  repeat split; try done.
  eapply Forall2_impl; [exact (Forall2_compose _ _ _ _ _ F1 F2)|].
  intros row row' (row1 & [G1 O1] & [G2 O2]). simpl in *.
  repeat split.
  - destruct (G1 H) as [-> _]. f_equal. rewrite O2 by done. symmetry.
    by apply G1.
  - rewrite O2 by done. by apply G1.
  - destruct (G2 H) as [Hp Hg]. rewrite <- (O1 SD) by done. rewrite Hp.
    by rewrite Hg.
  - destruct (G2 H) as [Hp Hg]. rewrite <- (O1 SD) by done. done.
  - rewrite O2, O1 by done. done.
  - rewrite O2, O1 by done. done.
Qed.

Lemma guarded_assign_fix (guard : bool) W d src tgt df :
  wf df -> (guard = true -> tgt ∈ columns df) ->
  Forall (fun row => guard = true ->
                     pick W d (get (columns df) row src)
                     = Ok (get (columns df) row tgt)) (rows df) ->
  (if guard then assign_from W d src tgt df else Ok df) = Ok df.
Proof.
  intros Hwf Hg HF. destruct guard; [|done].
  apply assign_from_fix; auto.
  eapply Forall_impl; [exact HF|]. auto.
Qed.

Lemma adjust_storage_fix today df df' :
  wf df -> adjust_storage today df = Ok df' -> adjust_storage today df' = Ok df'.
Proof.
  intros Hwf H. apply adjust_storage_inv in H as (Hwf' & Hc & F); [|done].
  assert (Hhas : forall c, has df' c = has df c).
  { intros c. unfold has. by rewrite Hc. }
  unfold adjust_storage. rewrite !Hhas.
  rewrite guarded_assign_fix; simpl; rewrite ?Hhas.
  - apply guarded_assign_fix; [done|rewrite Hc; apply has_and_elem|].
    rewrite Hc. eapply Forall2_right; [exact F|].
    intros row row' (_ & G2 & _ & HSD) Hg. simpl in *.
    rewrite HSD. by apply G2.
  - done.
  - rewrite Hc. apply has_and_elem.
  - rewrite Hc. eapply Forall2_right; [exact F|].
    intros row row' (G1 & _ & HA & _) Hg. simpl in *.
    rewrite HA. by apply G1.
Qed.

Lemma adjust_storage_total today df :
  datetime_column df A -> datetime_column df SD ->
  wf df -> exists df', adjust_storage today df = Ok df'.
Proof.
  intros HA HSD Hwf. unfold adjust_storage.
  set (W := reference_window today).
  assert (Hstep : forall g d src tgt df0,
            datetime_column df0 src ->
            exists df1, (if g : bool then assign_from W d src tgt df0 else Ok df0) = Ok df1).
  { intros g d src tgt df0 Hcol. destruct g; [|eauto].
    unfold assign_from.
    rewrite (mapM_ok _ (fun row => Spec.clamp W d (get (columns df0) row src))).
    - simpl. eauto.
    - eapply Forall_impl; [exact Hcol|]. intros row Hr. by apply pick_date. }
  destruct (Hstep (has df A && has df SS) (fst W) A SS df HA) as [df1 E1].
  rewrite E1. simpl.
  apply guarded_assign_inv in E1 as (Hwf1 & Hc1 & F1); [|done|apply has_and_elem].
  apply Hstep. unfold datetime_column. rewrite Hc1.
  eapply Forall2_right; [exact (Forall2_and_l _ _ _ _ HSD F1)|].
  intros row row1 (Hr & _ & O1). simpl in *. by rewrite O1.
Qed.

Lemma resolve_inv pd today df df' :
  let W := reference_window today in
  wf df -> resolve pd today df = Ok df' ->
  A ∈ columns df /\ SD ∈ columns df /\ wf df' /\
  (forall c, c ∈ columns df' <-> c = SS \/ c = SE \/ c ∈ columns df) /\
  Forall2 (fun row row' =>
             get (columns df') row' A = to_datetime pd (get (columns df) row A) /\
             get (columns df') row' SD = to_datetime pd (get (columns df) row SD) /\
             pick W (fst W) (get (columns df') row' A) = Ok (get (columns df') row' SS) /\
             pick W (snd W) (get (columns df') row' SD) = Ok (get (columns df') row' SE))
          (rows df) (rows df').
Proof.
  intros W Hwf H. unfold resolve in H. fold W in H. clearbody W.
  apply bind_Ok_inv in H as (df1 & E1 & H).
  apply bind_Ok_inv in H as (df2 & E2 & H).
  apply bind_Ok_inv in H as (df3 & E3 & H).
  apply coerce_column_inv in E1 as (HA & Hwf1 & Hc1 & F1); [|done].
  apply coerce_column_inv in E2 as (HSD & Hwf2 & Hc2 & F2); [|done].
  apply assign_from_inv in E3 as (Hwf3 & Hm3 & _ & F3); [|done].
  apply assign_from_inv in H as (Hwf4 & Hm4 & _ & F4); [|done].
  rewrite Hc1 in HSD. rewrite Hc2, Hc1 in Hm3. rewrite Hc2, ?Hc1 in F2, F3.
  rewrite Hc1 in F1.
  repeat split; try done.
  - intros Hc. apply Hm4 in Hc as [->|Hc]; [auto|].
    apply Hm3 in Hc as [->|Hc]; auto.
  - intros Hc. apply Hm4. rewrite Hm3. tauto.
  - pose proof (Forall2_compose _ _ _ _ _ F1
                  (Forall2_compose _ _ _ _ _ F2
                     (Forall2_compose _ _ _ _ _ F3 F4))) as F.
    eapply Forall2_impl; [exact F|].
    intros row row' (r1 & [G1 O1] & r2 & [G2 O2] & r3 & (P3 & G3 & O3) & (P4 & G4 & O4)).
    simpl in *.
    assert (HA' : get (columns df') row' A = to_datetime pd (get (columns df) row A)).
    { rewrite O4, O3, O2 by done. done. }
    assert (HSD' : get (columns df') row' SD = to_datetime pd (get (columns df) row SD)).
    { rewrite O4, O3 by done. rewrite G2. by rewrite O1. }
    repeat split; try done.
    + rewrite HA'. rewrite O4 by done. rewrite G3.
      rewrite O2 in P3 |- * by done. rewrite G1 in P3 |- *. done.
    + rewrite HSD'. rewrite G4. rewrite O3 in P4 |- * by done.
      rewrite G2 in P4 |- *. rewrite O1 in P4 |- * by done. done.
Qed.

Lemma resolve_fix pd today df df' :
  wf df -> resolve pd today df = Ok df' -> resolve pd today df' = Ok df'.
Proof.
  intros Hwf H. apply resolve_inv in H as (HA & HSD & Hwf' & Hm & F); [|done].
  assert (HA' : A ∈ columns df') by (apply Hm; auto).
  assert (HSD' : SD ∈ columns df') by (apply Hm; auto).
  assert (HSS' : SS ∈ columns df') by (apply Hm; auto).
  assert (HSE' : SE ∈ columns df') by (apply Hm; auto).
  unfold resolve. set (W := reference_window today) in *. clearbody W.
  rewrite coerce_column_fix, bind_Ok; [|done|done|].
  - rewrite coerce_column_fix, bind_Ok; [|done|done|].
    + rewrite assign_from_fix, bind_Ok; [|done|done|].
      * apply assign_from_fix; [done|done|].
        eapply Forall2_right; [exact F|]. simpl. tauto.
      * eapply Forall2_right; [exact F|]. simpl. tauto.
    + eapply Forall2_right; [exact F|]. simpl.
      intros row row' (_ & -> & _). apply to_datetime_idem.
  - eapply Forall2_right; [exact F|]. simpl.
    intros row row' (-> & _). apply to_datetime_idem.
Qed.

Lemma coerce_column_total pd c df :
  c ∈ columns df -> exists df', coerce_column pd c df = Ok df'.
Proof.
  intros Hc. unfold coerce_column, column.
  apply has_true in Hc. rewrite Hc. simpl. eauto.
Qed.

Lemma assign_from_total W d src tgt df :
  datetime_column df src -> exists df', assign_from W d src tgt df = Ok df'.
Proof.
  intros Hcol. unfold assign_from.
  rewrite (mapM_ok _ (fun row => Spec.clamp W d (get (columns df) row src))).
  - simpl. eauto.
  - eapply Forall_impl; [exact Hcol|]. intros row Hr. by apply pick_date.
Qed.

Lemma resolve_total pd today df :
  wf df -> A ∈ columns df -> SD ∈ columns df ->
  exists df', resolve pd today df = Ok df'.
Proof.
  intros Hwf HA HSD. unfold resolve.
  set (W := reference_window today). clearbody W.
  destruct (coerce_column_total pd A df HA) as [df1 E1]. rewrite E1, bind_Ok.
  apply coerce_column_inv in E1 as (_ & Hwf1 & Hc1 & F1); [|done].
  rewrite <- Hc1 in HSD.
  destruct (coerce_column_total pd SD df1 HSD) as [df2 E2]. rewrite E2, bind_Ok.
  apply coerce_column_inv in E2 as (_ & Hwf2 & Hc2 & F2); [|done].
  assert (H2 : datetime_column df2 A).
  { unfold datetime_column.
    eapply Forall2_right; [exact (Forall2_compose _ _ _ _ _ F1 F2)|].
    intros row r2 (r1 & [G1 _] & [_ O2]). simpl in *.
    rewrite O2 by done. rewrite G1. apply to_datetime_date. }
  destruct (assign_from_total W (fst W) A SS df2 H2) as [df3 E3].
  rewrite E3, bind_Ok.
  apply assign_from_inv in E3 as (Hwf3 & _ & _ & F3); [|done].
  apply assign_from_total. unfold datetime_column.
  eapply Forall2_right; [exact (Forall2_compose _ _ _ _ _ F2 F3)|].
  intros r1 r3 (r2 & [G2 _] & (_ & _ & O3)). simpl in *.
  rewrite O3 by done. rewrite G2. apply to_datetime_date.
Qed.

(** C1, as amended.  The window runs from the first to the last day of
    the month before the current one.  Per file, Storage Starts is set from
    Arrived @ Warehouse in a record set that has both columns, and Storage
    Ends from Scheduled Date in one that has both of these: to the source
    value when it is non-null and inside the window, else to the first
    (resp. last) day of the window.  On the consolidated table, which must
    have the columns Arrived @ Warehouse and Scheduled Date, both rules are
    applied to the source values coerced to timestamps, and Storage Starts
    and Storage Ends are created when absent. *)
Theorem C1_storage_period (pd : pandas) (today : datetime) (df : frame) :
  wf df ->
  let W := reference_window today in
  W = (if 1 <? month today
       then (midnight (year today) (month today - 1) 1,
             midnight (year today) (month today - 1)
               (days_in_month (year today) (month today - 1)))
       else (midnight (year today - 1) 12 1, midnight (year today - 1) 12 31)) /\
  (datetime_column df "Arrived @ Warehouse" ->
   datetime_column df "Scheduled Date" ->
   exists df', adjust_storage today df = Ok df' /\ columns df' = columns df /\
     Forall2 (fun row row' =>
                (has df "Arrived @ Warehouse" && has df "Storage Starts" = true ->
                 get (columns df) row' "Storage Starts"
                 = Spec.clamp W (fst W) (get (columns df) row "Arrived @ Warehouse")) /\
                (has df "Scheduled Date" && has df "Storage Ends" = true ->
                 get (columns df) row' "Storage Ends"
                 = Spec.clamp W (snd W) (get (columns df) row "Scheduled Date")))
             (rows df) (rows df')) /\
  (has df "Arrived @ Warehouse" && has df "Scheduled Date" = true ->
   exists df', resolve pd today df = Ok df' /\
     Forall2 (fun row row' =>
                get (columns df') row' "Storage Starts"
                = Spec.clamp W (fst W)
                    (to_datetime pd (get (columns df) row "Arrived @ Warehouse")) /\
                get (columns df') row' "Storage Ends"
                = Spec.clamp W (snd W)
                    (to_datetime pd (get (columns df) row "Scheduled Date")))
             (rows df) (rows df')).
Proof.
  intros Hwf W. split; [apply reference_window_prev_month|]. split.
  - intros HA HSD.
    destruct (adjust_storage_total today df HA HSD Hwf) as [df' E].
    exists df'. split; [done|].
    apply adjust_storage_inv in E as (_ & Hc & F); [|done].
    split; [done|]. eapply Forall2_impl; [exact F|].
    intros row row' (G1 & G2 & _). fold W in G1, G2. split; intros Hg.
    + by apply G1.
    + by apply G2.
  - intros Hg. apply andb_true_iff in Hg as [HA HSD].
    apply has_true in HA, HSD.
    destruct (resolve_total pd today df Hwf HA HSD) as [df' E].
    exists df'. split; [done|].
    apply resolve_inv in E as (_ & _ & _ & _ & F); [|done].
    eapply Forall2_impl; [exact F|].
    intros row row' (<- & <- & P1 & P2). fold W in P1, P2.
    apply pick_clamp in P1, P2. done.
Qed.

Lemma C1_storage_period_witness :
  exists df',
    resolve no_parse (DateTime 2026 11 3 0)
      (Frame ["Arrived @ Warehouse"; "Scheduled Date"]
         [[Stamp (midnight 2026 10 15); Stamp (midnight 2026 11 20)]]) = Ok df' /\
    Forall2 (fun row row' =>
               get (columns df') row' "Storage Starts"
               = Spec.clamp (reference_window (DateTime 2026 11 3 0))
                   (fst (reference_window (DateTime 2026 11 3 0)))
                   (to_datetime no_parse
                      (get ["Arrived @ Warehouse"; "Scheduled Date"] row
                         "Arrived @ Warehouse")) /\
               get (columns df') row' "Storage Ends"
               = Spec.clamp (reference_window (DateTime 2026 11 3 0))
                   (snd (reference_window (DateTime 2026 11 3 0)))
                   (to_datetime no_parse
                      (get ["Arrived @ Warehouse"; "Scheduled Date"] row
                         "Scheduled Date")))
            [[Stamp (midnight 2026 10 15); Stamp (midnight 2026 11 20)]]
            (rows df').
Proof.
  refine (proj2 (proj2 (C1_storage_period no_parse (DateTime 2026 11 3 0)
            (Frame ["Arrived @ Warehouse"; "Scheduled Date"]
               [[Stamp (midnight 2026 10 15); Stamp (midnight 2026 11 20)]]) _)) _).
  - repeat constructor.
  - reflexivity.
Defined.

(** The end-to-end scenario of the specification: an arrival inside the
    window and a scheduled date outside it. *)
Example resolve_scenario :
  resolve no_parse (DateTime 2026 11 3 0)
    (Frame ["Arrived @ Warehouse"; "Scheduled Date"]
       [[Stamp (midnight 2026 10 15); Stamp (midnight 2026 11 20)]])
  = Ok (Frame ["Arrived @ Warehouse"; "Scheduled Date"; "Storage Starts"; "Storage Ends"]
          [[Stamp (midnight 2026 10 15); Stamp (midnight 2026 11 20);
            Stamp (midnight 2026 10 15); Stamp (midnight 2026 10 31)]]).
Proof. vm_compute. reflexivity. Qed.

(** Per file, a Scheduled Date that is neither null nor a timestamp makes
    the comparison with the window raise. *)
Example adjust_storage_text_raises :
  adjust_storage (DateTime 2026 11 3 0)
    (Frame ["Scheduled Date"; "Storage Ends"] [[Text "TBD"; NA]])
  = Raise TypeError.
Proof. vm_compute. reflexivity. Qed.

(** C1, counterexample.  A per-file record set has the column
    Arrived @ Warehouse, with a value inside the window, but no column
    Storage Starts: the per-file resolution leaves it as it is, and no
    record has a Storage Starts value. *)
Lemma C1_arrived_without_storage_starts :
  has (Frame ["Case #"; "Arrived @ Warehouse"]
         [[Text "A1"; Stamp (midnight 2026 10 15)]]) "Arrived @ Warehouse" = true /\
  in_window (reference_window (DateTime 2026 11 3 0)) (midnight 2026 10 15) = true /\
  adjust_storage (DateTime 2026 11 3 0)
    (Frame ["Case #"; "Arrived @ Warehouse"]
       [[Text "A1"; Stamp (midnight 2026 10 15)]])
  = Ok (Frame ["Case #"; "Arrived @ Warehouse"]
          [[Text "A1"; Stamp (midnight 2026 10 15)]]) /\
  get ["Case #"; "Arrived @ Warehouse"] [Text "A1"; Stamp (midnight 2026 10 15)]
    "Storage Starts" <> Stamp (midnight 2026 10 15).
Proof. repeat split; try (vm_compute; reflexivity). vm_compute. discriminate. Qed.

(** C2, as amended.  Under one clock reading each of the two resolutions
    is idempotent: applied to its own result, the per-file resolution
    returns that result, and so does the resolution of the consolidated
    table; when the first application raises, so does the composition. *)
Theorem C2_resolution_idempotent (pd : pandas) (today : datetime) (df : frame) :
  wf df ->
  adjust_storage today df ≫= adjust_storage today = adjust_storage today df /\
  resolve pd today df ≫= resolve pd today = resolve pd today df.
Proof.
  intros Hwf. split.
  - destruct (adjust_storage today df) as [df'|e] eqn:E; [|done].
    rewrite bind_Ok. by eapply adjust_storage_fix.
  - destruct (resolve pd today df) as [df'|e] eqn:E; [|done].
    rewrite bind_Ok. by eapply resolve_fix.
Qed.

Lemma C2_resolution_idempotent_witness :
  adjust_storage (DateTime 2026 11 3 0)
    (Frame ["Arrived @ Warehouse"; "Storage Starts"; "Scheduled Date"; "Storage Ends"]
       [[Stamp (midnight 2026 9 15); NA; Stamp (midnight 2026 10 20); NA]])
    ≫= adjust_storage (DateTime 2026 11 3 0)
  = adjust_storage (DateTime 2026 11 3 0)
      (Frame ["Arrived @ Warehouse"; "Storage Starts"; "Scheduled Date"; "Storage Ends"]
         [[Stamp (midnight 2026 9 15); NA; Stamp (midnight 2026 10 20); NA]]) /\
  resolve no_parse (DateTime 2026 11 3 0)
    (Frame ["Arrived @ Warehouse"; "Storage Starts"; "Scheduled Date"; "Storage Ends"]
       [[Stamp (midnight 2026 9 15); NA; Stamp (midnight 2026 10 20); NA]])
    ≫= resolve no_parse (DateTime 2026 11 3 0)
  = resolve no_parse (DateTime 2026 11 3 0)
      (Frame ["Arrived @ Warehouse"; "Storage Starts"; "Scheduled Date"; "Storage Ends"]
         [[Stamp (midnight 2026 9 15); NA; Stamp (midnight 2026 10 20); NA]]).
Proof.
  apply (C2_resolution_idempotent no_parse (DateTime 2026 11 3 0)
           (Frame ["Arrived @ Warehouse"; "Storage Starts"; "Scheduled Date"; "Storage Ends"]
              [[Stamp (midnight 2026 9 15); NA; Stamp (midnight 2026 10 20); NA]])).
  repeat constructor.
Defined.

(** C2, counterexample.  The second application of the rule in the
    pipeline is not a no-op on a resolved table.  An arrival on
    2026-10-31 at 14:30 is after the last day of the window, which is a
    midnight, so that the per-file resolution sets Storage Starts to
    2026-10-01; consolidation cuts the arrival to its date, and the
    resolution of the consolidated table then sets Storage Starts to
    2026-10-31. *)
Lemma C2_second_application_changes :
  adjust_storage (DateTime 2026 11 3 0)
    (Frame [A; SS; SD; SE]
       [[Stamp (DateTime 2026 10 31 52200000000); NA;
         Stamp (midnight 2026 10 20); NA]])
  = Ok (Frame [A; SS; SD; SE]
          [[Stamp (DateTime 2026 10 31 52200000000); Stamp (midnight 2026 10 1);
            Stamp (midnight 2026 10 20); Stamp (midnight 2026 10 20)]]) /\
  Reconcile._consolidate_dataframes no_parse
    [Frame [A; SS; SD; SE]
       [[Stamp (DateTime 2026 10 31 52200000000); Stamp (midnight 2026 10 1);
         Stamp (midnight 2026 10 20); Stamp (midnight 2026 10 20)]]]
  = Ok (Frame [A; SS; SE; SD]
          [[Stamp (midnight 2026 10 31); Stamp (midnight 2026 10 1);
            Stamp (midnight 2026 10 20); Stamp (midnight 2026 10 20)]]) /\
  resolve no_parse (DateTime 2026 11 3 0)
    (Frame [A; SS; SE; SD]
       [[Stamp (midnight 2026 10 31); Stamp (midnight 2026 10 1);
         Stamp (midnight 2026 10 20); Stamp (midnight 2026 10 20)]])
  = Ok (Frame [A; SS; SE; SD]
          [[Stamp (midnight 2026 10 31); Stamp (midnight 2026 10 31);
            Stamp (midnight 2026 10 20); Stamp (midnight 2026 10 20)]]) /\
  Stamp (midnight 2026 10 31) <> Stamp (midnight 2026 10 1).
Proof. repeat split; try (vm_compute; reflexivity). discriminate. Qed.

Lemma guarded_assign_other (guard : bool) W d src tgt df df' :
  wf df -> (guard = true -> tgt ∈ columns df) ->
  (if guard then assign_from W d src tgt df else Ok df) = Ok df' ->
  wf df' /\ columns df' = columns df /\
  Forall2 (fun row row' =>
             forall c, (c = tgt -> guard = false) ->
                       get (columns df) row' c = get (columns df) row c)
          (rows df) (rows df').
Proof.
  intros Hwf Hg H. destruct guard.
  - apply (guarded_assign_inv true) in H as (Hwf' & Hc & F); [|done|done].
    repeat split; try done.
    eapply Forall2_impl; [exact F|]. intros row row' [_ O] c Hne.
    apply O. intros ->. by specialize (Hne eq_refl).
  - injection H as <-. repeat split; try done.
    apply Forall_Forall2_diag, Forall_true. done.
Qed.

Lemma adjust_storage_other today df df' :
  wf df -> adjust_storage today df = Ok df' ->
  wf df' /\ columns df' = columns df /\
  Forall2 (fun row row' =>
             forall c, (c = SS -> has df A && has df SS = false) ->
                       (c = SE -> has df SD && has df SE = false) ->
                       get (columns df) row' c = get (columns df) row c)
          (rows df) (rows df').
Proof.
  intros Hwf H. unfold adjust_storage in H.
  set (W := reference_window today) in *. clearbody W.
  apply bind_Ok_inv in H as (df1 & E1 & H).
  apply guarded_assign_other in E1 as (Hwf1 & Hc1 & F1);
    [|done|apply has_and_elem].
  assert (Hhas : forall c, has df1 c = has df c).
  { intros c. unfold has. by rewrite Hc1. }
  rewrite !Hhas in H.
  apply guarded_assign_other in H as (Hwf2 & Hc2 & F2);
    [|done|rewrite <- !Hhas; apply has_and_elem].
  rewrite Hc1 in Hc2, F2. repeat split; try done.
  eapply Forall2_impl; [exact (Forall2_compose _ _ _ _ _ F1 F2)|].
  intros row row' (row1 & O1 & O2) c H1 H2. simpl in *.
  rewrite O2 by done. by apply O1.
Qed.

(** C10, as amended.  After the resolution of the consolidated table
    every record has its Storage Starts and Storage Ends inside the
    Reference Window, whatever the source dates were.  After the per-file
    resolution the same holds for Storage Starts in a record set that has
    Arrived @ Warehouse and Storage Starts, and for Storage Ends in one that
    has Scheduled Date and Storage Ends; in a record set that lacks one of
    the two columns of a rule the target is left as it was.  In both cases
    the records are those of the input, in order.  Storage Ends can
    nevertheless precede Storage Starts, and the value of the Days In
    Storage formula is then negative. *)
Theorem C10_within_window (pd : pandas) (today : datetime) (df df' : frame) :
  wf df ->
  let W := reference_window today in
  (resolve pd today df = Ok df' ->
   Forall2 (fun row row' =>
              Spec.within W (get (columns df') row' "Storage Starts") /\
              Spec.within W (get (columns df') row' "Storage Ends"))
     (rows df) (rows df')) /\
  (adjust_storage today df = Ok df' ->
   Forall2 (fun row row' =>
              (if has df "Arrived @ Warehouse" && has df "Storage Starts"
               then Spec.within W (get (columns df') row' "Storage Starts")
               else get (columns df') row' "Storage Starts"
                    = get (columns df) row "Storage Starts") /\
              (if has df "Scheduled Date" && has df "Storage Ends"
               then Spec.within W (get (columns df') row' "Storage Ends")
               else get (columns df') row' "Storage Ends"
                    = get (columns df) row "Storage Ends"))
     (rows df) (rows df')) /\
  (exists s e,
     resolve pd (DateTime 2026 11 3 0)
       (Frame ["Arrived @ Warehouse"; "Scheduled Date"]
          [[Stamp (midnight 2026 10 20); Stamp (midnight 2026 10 5)]])
     = Ok (Frame ["Arrived @ Warehouse"; "Scheduled Date";
                  "Storage Starts"; "Storage Ends"]
             [[Stamp (midnight 2026 10 20); Stamp (midnight 2026 10 5);
               Stamp s; Stamp e]]) /\
     ltb e s = true /\ days_in_storage s e < 0).
Proof.
  intros Hwf W. split; [|split].
  - intros E. apply resolve_inv in E as (_ & _ & _ & _ & F); [|done].
    eapply Forall2_impl; [exact F|].
    intros row row' (_ & _ & P1 & P2). fold W in P1, P2.
    apply pick_clamp in P1, P2. rewrite P1, P2.
    split; apply clamp_within; auto.
  - intros E. pose proof E as E'.
    apply adjust_storage_inv in E as (_ & Hc & F); [|done].
    apply adjust_storage_other in E' as (_ & _ & F'); [|done].
    rewrite Hc. clear Hc.
    assert (F2 : Forall2 (fun row row' =>
                   ((has df A && has df SS = true ->
                     get (columns df) row' SS
                     = Spec.clamp W (fst W) (get (columns df) row A)) /\
                    (has df SD && has df SE = true ->
                     get (columns df) row' SE
                     = Spec.clamp W (snd W) (get (columns df) row SD))) /\
                   forall c, (c = SS -> has df A && has df SS = false) ->
                             (c = SE -> has df SD && has df SE = false) ->
                             get (columns df) row' c = get (columns df) row c)
                  (rows df) (rows df')).
    { clear -F F'. revert F'. induction F as [|row row' rs rs' Hr _ IH];
        intros F'; inversion F'; subst; constructor; [|by apply IH].
      destruct Hr as (G1 & G2 & _). fold W in G1, G2.
      split; [split; intros Hg; [by apply G1|by apply G2]|done]. }
    eapply Forall2_impl; [exact F2|].
    intros row row' [[G1 G2] O]. split.
    + destruct (has df A && has df SS) eqn:Hg.
      * rewrite G1 by done. apply clamp_within; auto.
      * apply O; [done|]. intros [=].
    + destruct (has df SD && has df SE) eqn:Hg.
      * rewrite G2 by done. apply clamp_within; auto.
      * apply O; [intros [=]|done].
  - exists (midnight 2026 10 20), (midnight 2026 10 5).
    split; [|split]; vm_compute; reflexivity.
Qed.

Lemma C10_within_window_witness :
  Forall2 (fun row row' =>
             Spec.within (reference_window (DateTime 2026 11 3 0))
               (get ["Arrived @ Warehouse"; "Scheduled Date";
                     "Storage Starts"; "Storage Ends"] row' "Storage Starts") /\
             Spec.within (reference_window (DateTime 2026 11 3 0))
               (get ["Arrived @ Warehouse"; "Scheduled Date";
                     "Storage Starts"; "Storage Ends"] row' "Storage Ends"))
    [[Stamp (midnight 2019 3 9); NA]]
    [[Stamp (midnight 2019 3 9); NA;
      Stamp (midnight 2026 10 1); Stamp (midnight 2026 10 31)]].
Proof.
  refine (proj1 (C10_within_window no_parse (DateTime 2026 11 3 0)
            (Frame ["Arrived @ Warehouse"; "Scheduled Date"]
               [[Stamp (midnight 2019 3 9); NA]])
            (Frame ["Arrived @ Warehouse"; "Scheduled Date";
                    "Storage Starts"; "Storage Ends"]
               [[Stamp (midnight 2019 3 9); NA;
                 Stamp (midnight 2026 10 1); Stamp (midnight 2026 10 31)]]) _) _).
  - repeat constructor.
  - vm_compute. reflexivity.
Defined.

(** C10, counterexample.  A record set with Storage Starts and without
    Arrived @ Warehouse leaves the per-file resolution as it entered it:
    its Storage Starts of 2019-03-09 is outside the Reference Window of a
    run in November 2026. *)
Lemma C10_unguarded_value_kept :
  adjust_storage (DateTime 2026 11 3 0)
    (Frame ["Case #"; "Storage Starts"] [[Text "A1"; Stamp (midnight 2019 3 9)]])
  = Ok (Frame ["Case #"; "Storage Starts"]
          [[Text "A1"; Stamp (midnight 2019 3 9)]]) /\
  in_window (reference_window (DateTime 2026 11 3 0)) (midnight 2019 3 9) = false.
Proof. split; vm_compute; reflexivity. Qed.

End StorageFacts.

(** ** SchemaReconciler *)

Section ReconcileFacts.
Import Frame Reconcile.

Lemma select_elem {A} (x : A) mask : forall l,
  x ∈ select mask l <-> exists j, mask !! j = Some true /\ l !! j = Some x.
Proof.
  induction mask as [|b mask IH]; intros l; simpl.
  - rewrite elem_of_nil. split; [done|]. by intros (j & ? & _).
  - destruct l as [|y l].
    + rewrite elem_of_nil. split; [done|]. by intros (j & _ & ?).
    + destruct b.
      * rewrite elem_of_cons, IH. split.
        -- intros [-> | (j & ? & ?)]; [by exists 0%nat|by exists (S j)].
        -- intros ([|j] & Hm & Hl); simpl in *; [left; congruence|right; eauto].
      * rewrite IH. split.
        -- intros (j & ? & ?). by exists (S j).
        -- intros ([|j] & Hm & Hl); simpl in *; [done|eauto].
Qed.

(** A label survives the pruning iff one of the columns that carry it
    holds a value. *)
Lemma dropna_all_columns df c :
  c ∈ columns (dropna_all df) <->
  exists j, columns df !! j = Some c /\ holds_value df j = true.
Proof.
  unfold dropna_all. simpl. rewrite select_elem. split.
  - intros (j & Hm & Hc). exists j. split; [done|].
    rewrite list_lookup_fmap in Hm.
    destruct (seq 0 (length (columns df)) !! j) as [k|] eqn:E; [|done].
    apply lookup_seq in E as [-> _]. simpl in Hm. congruence.
  - intros (j & Hc & Hv). exists j. split; [|done].
    rewrite list_lookup_fmap, lookup_seq_lt; [simpl; by rewrite Hv|].
    by eapply lookup_lt_Some.
Qed.

(** Appending a column of missing markers. *)
Lemma set_column_fresh c df :
  c ∉ columns df ->
  set_column c (replicate (length (rows df)) NA) df
  = Frame (columns df ++ [c]) (map (fun row => row ++ [NA]) (rows df)).
Proof.
  intros Hc.
  assert (Hr : replicate (length (rows df)) NA = map (fun _ => NA) (rows df)).
  { induction (rows df); simpl; by f_equal. }
  rewrite Hr, set_column_map.
  apply index_of_None in Hc. by rewrite Hc.
Qed.

Lemma widen_fold extra : forall df,
  NoDup extra -> (forall c, c ∈ extra -> c ∉ columns df) ->
  let df' := foldl (fun df col => set_column col (replicate (length (rows df)) NA) df)
               df extra in
  columns df' = columns df ++ extra /\
  rows df' = map (fun row => row ++ replicate (length extra) NA) (rows df).
Proof.
  induction extra as [|c extra IH]; intros df Hnd Hfresh; simpl.
  - rewrite app_nil_r. split; [done|].
    rewrite <- (map_id (rows df)) at 1. apply map_ext. intros row.
    by rewrite app_nil_r.
  - apply NoDup_cons in Hnd as [Hc Hnd].
    rewrite set_column_fresh by (apply Hfresh; left).
    edestruct (IH (Frame (columns df ++ [c]) (map (fun row => row ++ [NA]) (rows df))))
      as [H1 H2]; [done| |].
    + intros c' Hc'. simpl. rewrite elem_of_app, list_elem_of_singleton.
      intros [? | ->]; [|done]. eapply Hfresh; [right; exact Hc'|done].
    + simpl in *. rewrite H1, H2. split.
      * by rewrite <- app_assoc.
      * rewrite map_map. apply map_ext. intros row. by rewrite <- app_assoc.
Qed.

Lemma widen_spec all df :
  exists extra,
    columns (widen all df) = columns df ++ extra /\
    rows (widen all df)
    = map (fun row => row ++ replicate (length extra) NA) (rows df).
Proof.
  exists (elements (all ∖ list_to_set (columns df))).
  apply widen_fold.
  - apply NoDup_elements.
  - intros c Hc Hin. apply elem_of_elements, elem_of_difference in Hc as [_ Hc].
    apply Hc. by apply elem_of_list_to_set.
Qed.

Lemma at_pos_padded row n j :
  at_pos (row ++ replicate n NA) j = at_pos row j.
Proof.
  unfold at_pos. destruct (decide (j < length row)%nat) as [Hj|Hj].
  - by rewrite lookup_app_l.
  - rewrite lookup_app_r by lia.
    rewrite (lookup_ge_None_2 row j) by lia. simpl.
    destruct (replicate n NA !! (j - length row)%nat) as [x|] eqn:E; [|done].
    apply lookup_replicate in E as [-> _]. done.
Qed.

Lemma holds_value_widen all df j :
  holds_value (widen all df) j = holds_value df j.
Proof.
  destruct (widen_spec all df) as (extra & _ & Hr).
  unfold holds_value. rewrite Hr. clear Hr.
  induction (rows df) as [|row rs IH]; simpl; [done|].
  by rewrite at_pos_padded, IH.
Qed.

(** A position that holds a value lies inside the rows, hence, in a
    well-formed frame, under one of its labels. *)
Lemma holds_value_lt df j :
  wf df -> holds_value df j = true -> (j < length (columns df))%nat.
Proof.
  unfold wf, holds_value. intros Hwf H.
  apply existsb_exists in H as (row & Hin & Hv).
  rewrite Forall_forall in Hwf. apply list_elem_of_In in Hin.
  specialize (Hwf row Hin). simpl in Hwf.
  unfold at_pos in Hv. destruct (row !! j) eqn:E; [|done].
  apply lookup_lt_Some in E. lia.
Qed.

(** Widening followed by pruning keeps exactly the labels under which the
    frame itself holds a value. *)
Lemma reindexed_columns all df c :
  wf df ->
  c ∈ columns (dropna_all (widen all df)) <-> holds_under df c.
Proof.
  intros Hwf. rewrite dropna_all_columns. unfold holds_under.
  destruct (widen_spec all df) as (extra & Hc & _).
  split; intros (j & Hj & Hv); exists j; rewrite holds_value_widen in *.
  - split; [|done]. pose proof (holds_value_lt df j Hwf Hv).
    rewrite Hc, lookup_app_l in Hj; done.
  - split; [|done]. rewrite Hc. apply lookup_app_l_Some. done.
Qed.

Lemma union_columns_fold dfs : forall acc c,
  c ∈ foldl (fun acc df => acc ++ list_difference (columns df) acc) acc dfs <->
  c ∈ acc \/ exists df, df ∈ dfs /\ c ∈ columns df.
Proof.
  induction dfs as [|df dfs IH]; intros acc c; simpl.
  - split; [auto|]. intros [? | (df & Hin & _)]; [done|].
    by apply elem_of_nil in Hin.
  - rewrite IH, elem_of_app, list_elem_of_difference. split.
    + intros [[? | [? _]] | (df' & ? & ?)]; [auto| |].
      * right. exists df. split; [left|done].
      * right. exists df'. split; [by right|done].
    + intros [? | (df' & Hin & Hc)]; [auto|].
      apply elem_of_cons in Hin as [-> |Hin].
      * left. destruct (decide (c ∈ acc)); auto.
      * right. eauto.
Qed.

Lemma concat_columns dfs T c :
  concat dfs = Ok T ->
  c ∈ columns T <-> exists df, df ∈ dfs /\ c ∈ columns df.
Proof.
  unfold concat. destruct dfs as [|df0 rest]; [done|].
  destruct (forallb _ rest) eqn:Hall.
  - intros [= <-]. simpl. split.
    + intros Hc. exists df0. split; [left|done].
    + intros (df & Hin & Hc). apply elem_of_cons in Hin as [-> |Hin]; [done|].
      rewrite forallb_forall in Hall. apply list_elem_of_In in Hin.
      specialize (Hall df Hin). apply bool_decide_eq_true in Hall.
      by rewrite <- Hall.
  - destruct (forallb _ (df0 :: rest)); [|done].
    intros [= <-]. simpl. unfold union_columns.
    rewrite union_columns_fold, elem_of_nil. tauto.
Qed.

Lemma map_column_columns c f df : columns (map_column c f df) = columns df.
Proof. unfold map_column. by destruct (index_of c (columns df)). Qed.

Lemma format_date_columns_ok pd df col df' :
  format_date pd df col = Ok df' -> columns df' = columns df.
Proof.
  unfold format_date. destruct (has df col); [|by intros [= <-]].
  case_bool_decide; [|done]. intros [= <-]. apply map_column_columns.
Qed.

Lemma format_dates_fold pd cols : forall acc df',
  foldl (fun acc col => df ← acc; format_date pd df col) acc cols = Ok df' ->
  exists df, acc = Ok df /\ columns df' = columns df.
Proof.
  induction cols as [|col cols IH]; intros acc df' H; simpl in H.
  - eauto.
  - apply IH in H as (df1 & H & Hc).
    apply bind_Ok_inv in H as (df & -> & H).
    apply format_date_columns_ok in H. exists df. split; [done|congruence].
Qed.

Lemma format_date_columns_labels pd df df' :
  format_date_columns pd df = Ok df' -> columns df' = columns df.
Proof.
  unfold format_date_columns. intros H.
  apply bind_Ok_inv in H as (df1 & H1 & H).
  apply format_dates_fold in H1 as (df0 & [= <-] & Hc).
  destruct (has df1 "Scheduled Time"); [|injection H as <-; done].
  case_bool_decide; [|done]. injection H as <-.
  by rewrite map_column_columns.
Qed.

Lemma positions_spec c cols : forall i j,
  j ∈ positions i c cols <-> (i <= j)%nat /\ cols !! (j - i)%nat = Some c.
Proof.
  induction cols as [|c' cols IH]; intros i j; simpl.
  - rewrite elem_of_nil. split; [done|]. by intros [_ ?].
  - assert (Hrec : j ∈ positions (S i) c cols <->
                   (i < j)%nat /\ (c' :: cols) !! (j - i)%nat = Some c).
    { rewrite IH. split.
      - intros [Hle Hl]. split; [lia|].
        replace (j - i)%nat with (S (j - S i)) by lia. done.
      - intros [Hlt Hl]. split; [lia|].
        replace (j - i)%nat with (S (j - S i)) in Hl by lia. done. }
    case_bool_decide as Hc.
    + rewrite elem_of_cons, Hrec. split.
      * intros [-> |[Hlt Hl]]; [|split; [lia|done]].
        split; [lia|]. rewrite Nat.sub_diag. simpl. by subst.
      * intros [Hle Hl]. destruct (decide (j = i)) as [-> |Hne]; [by left|].
        right. split; [lia|done].
    + rewrite Hrec. split.
      * intros [Hlt Hl]. split; [lia|done].
      * intros [Hle Hl]. split; [|done].
        destruct (decide (j = i)) as [-> |Hne]; [|lia].
        rewrite Nat.sub_diag in Hl. simpl in Hl. congruence.
Qed.

Lemma take_columns_labels labels df c :
  c ∈ columns (take_columns labels df) <-> c ∈ labels /\ c ∈ columns df.
Proof.
  unfold take_columns. simpl.
  rewrite list_elem_of_fmap. split.
  - intros (j & -> & Hj). apply list_elem_of_bind in Hj as (c' & Hj & Hc').
    apply positions_spec in Hj as [_ Hj]. rewrite Nat.sub_0_r in Hj.
    rewrite Hj. simpl. split; [done|]. by eapply list_elem_of_lookup_2.
  - intros [Hl Hc]. apply list_elem_of_lookup_1 in Hc as [j Hj].
    exists j. rewrite Hj. split; [done|].
    apply list_elem_of_bind. exists c. split; [|done].
    apply positions_spec. rewrite Nat.sub_0_r. split; [lia|done].
Qed.

Lemma reorder_columns df c :
  c ∈ columns (reorder df) <-> c ∈ COLUMN_ORDER /\ c ∈ columns df.
Proof.
  unfold reorder. rewrite take_columns_labels, list_elem_of_filter. tauto.
Qed.

Lemma get_reindex cols all row c :
  c ∈ all -> get all (reindex cols all row) c = get cols row c.
Proof.
  intros Hc. destruct (index_of_elem _ _ Hc) as [j Hj].
  unfold get at 1. rewrite Hj. unfold reindex, at_pos.
  apply index_of_Some in Hj as [Hj _].
  by rewrite list_lookup_fmap, Hj.
Qed.

Lemma Forall2_bind_same {X Y Z} (R : Y -> Z -> Prop) (f : X -> list Y)
    (g : X -> list Z) (l : list X) :
  Forall (fun x => Forall2 R (f x) (g x)) l -> Forall2 R (l ≫= f) (l ≫= g).
Proof.
  induction 1 as [|x l Hx _ IH]; [constructor|].
  rewrite !bind_cons. by apply Forall2_app.
Qed.

Lemma Forall2_const {X Y} (P : X -> Prop) (l : list X) (k : list Y) :
  Forall P l -> length l = length k -> Forall2 (fun x _ => P x) l k.
Proof.
  intros H. revert k. induction H as [|x l Hx _ IH]; intros [|y k] Hl;
    simpl in *; try done; constructor; auto.
Qed.

(** Pruning keeps the number of rows. *)
Lemma reindexed_length all df :
  length (rows (dropna_all (widen all df))) = length (rows df).
Proof.
  unfold dropna_all. cbn [rows]. rewrite length_map.
  destruct (widen_spec all df) as (extra & _ & ->). by rewrite length_map.
Qed.

(** The rows of the pruned record sets line up with the rows of the record
    sets. *)
Lemma rows_of_reindexed (P : frame -> Prop) all dfs :
  Forall P dfs ->
  Forall2 (fun o o' => P o.1 /\ o'.1 = dropna_all (widen all o.1))
    (Origin.rows_of dfs)
    (Origin.rows_of (map (fun df => dropna_all (widen all df)) dfs)).
Proof.
  unfold Origin.rows_of. induction 1 as [|df dfs Hdf _ IH]; [constructor|].
  rewrite fmap_cons, !bind_cons. apply Forall2_app; [|done].
  apply Forall2_fmap.
  eapply Forall2_impl;
    [apply (Forall2_const (fun _ => True));
     [by apply Forall_true|by rewrite reindexed_length]|].
  intros row row' _. done.
Qed.

(** After the concatenation a row holds the missing marker at every
    position whose label its record set does not have. *)
Lemma concat_lacking dfs C :
  concat dfs = Ok C ->
  Forall2 (fun o row => forall q u, columns C !! q = Some u ->
                                    u ∉ columns o.1 -> at_pos row q = NA)
    (Origin.rows_of dfs) (rows C).
Proof.
  unfold concat, Origin.rows_of. destruct dfs as [|df0 rest]; [done|].
  destruct (forallb _ rest) eqn:Hall.
  - intros [= <-]. cbn [rows columns].
    apply (Forall2_bind_same _ _ rows). apply Forall_forall. intros df Hin.
    apply Forall2_fmap_l, Forall_Forall2_diag, Forall_true.
    intros row q u Hq Hu. exfalso. apply Hu. cbn [fst].
    apply list_elem_of_lookup_2 in Hq.
    apply elem_of_cons in Hin as [-> |Hin]; [done|].
    rewrite forallb_forall in Hall. apply list_elem_of_In in Hin.
    specialize (Hall df Hin). apply bool_decide_eq_true in Hall.
    by rewrite Hall.
  - destruct (forallb _ (df0 :: rest)); [|done].
    intros [= <-]. cbn [rows columns].
    apply (Forall2_bind_same _ _
             (fun df => map (reindex (columns df) (union_columns (df0 :: rest)))
                          (rows df))).
    apply Forall_true. intros df.
    apply Forall2_fmap, Forall_Forall2_diag, Forall_true.
    intros row q u Hq Hu. cbn [fst] in Hu.
    unfold at_pos, reindex. rewrite list_lookup_fmap, Hq. simpl.
    unfold get. apply index_of_None in Hu. by rewrite Hu.
Qed.

(** A missing marker stays one under [map_column], unless the function
    applied to its column rewrites it. *)
Lemma map_column_NA c0 f df :
  Forall2 (fun row row' =>
             forall q c, columns df !! q = Some c -> (c = c0 -> f NA = NA) ->
                         at_pos row q = NA -> at_pos row' q = NA)
    (rows df) (rows (map_column c0 f df)).
Proof.
  unfold map_column. destruct (index_of c0 (columns df)) as [j|] eqn:Hj.
  - cbn [rows]. apply Forall2_fmap_r, Forall_Forall2_diag, Forall_true.
    intros row q c Hq Hf Hna. unfold at_pos in *.
    destruct (decide (q = j)) as [-> |Hne].
    + apply index_of_Some in Hj as [Hj _].
      assert (c = c0) as -> by congruence.
      rewrite list_lookup_alter_eq.
      destruct (row !! j) as [x|]; simpl in *; [|done].
      subst x. by apply Hf.
    + by rewrite list_lookup_alter_ne.
  - apply Forall_Forall2_diag, Forall_true. auto.
Qed.

Lemma format_date_NA pd df col df' :
  format_date pd df col = Ok df' ->
  Forall2 (fun row row' =>
             forall q c, columns df !! q = Some c ->
                         at_pos row q = NA -> at_pos row' q = NA)
    (rows df) (rows df').
Proof.
  unfold format_date. destruct (has df col).
  - case_bool_decide; [|done]. intros [= <-].
    eapply Forall2_impl; [apply map_column_NA|].
    intros row row' Hr q c Hq. by apply (Hr q c).
  - intros [= <-]. apply Forall_Forall2_diag, Forall_true. auto.
Qed.

Lemma format_dates_fold_NA pd labels : forall df df',
  foldl (fun acc col => df ← acc; format_date pd df col) (Ok df) labels = Ok df' ->
  Forall2 (fun row row' =>
             forall q c, columns df !! q = Some c ->
                         at_pos row q = NA -> at_pos row' q = NA)
    (rows df) (rows df').
Proof.
  induction labels as [|col labels IH]; intros df df' H; simpl in H.
  - injection H as <-. apply Forall_Forall2_diag, Forall_true. auto.
  - destruct (format_dates_fold _ _ _ _ H) as (df1 & E1 & _).
    rewrite E1 in H. simpl in E1.
    pose proof (format_date_columns_ok _ _ _ _ E1) as Hc.
    apply format_date_NA in E1. apply IH in H. rewrite Hc in H.
    eapply Forall2_impl; [exact (Forall2_compose _ _ _ _ _ E1 H)|].
    intros row row' (r1 & H1 & H2) q c Hq Hna. simpl in *.
    apply (H2 q c Hq), (H1 q c Hq), Hna.
Qed.

(** [format_date_columns] leaves the missing marker where it is, except
    under Scheduled Time. *)
Lemma format_date_columns_NA pd df df' :
  format_date_columns pd df = Ok df' ->
  Forall2 (fun row row' =>
             forall q c, columns df !! q = Some c -> c <> "Scheduled Time" ->
                         at_pos row q = NA -> at_pos row' q = NA)
    (rows df) (rows df').
Proof.
  unfold format_date_columns. intros H.
  apply bind_Ok_inv in H as (df1 & H1 & H).
  pose proof (format_dates_fold _ _ _ _ H1) as (df0 & [= <-] & Hc).
  apply format_dates_fold_NA in H1.
  assert (F : Forall2 (fun row row' =>
                forall q c, columns df !! q = Some c -> c <> "Scheduled Time" ->
                            at_pos row q = NA -> at_pos row' q = NA)
                (rows df1) (rows df')).
  { destruct (has df1 "Scheduled Time").
    - case_bool_decide; [|done]. injection H as <-.
      eapply Forall2_impl; [apply map_column_NA|].
      intros row row' Hr q c Hq Hne. apply (Hr q c); [by rewrite Hc|done].
    - injection H as <-. apply Forall_Forall2_diag, Forall_true. auto. }
  eapply Forall2_impl; [exact (Forall2_compose _ _ _ _ _ H1 F)|].
  intros row row' (r1 & G1 & G2) q c Hq Hne Hna. simpl in *.
  apply (G2 q c Hq Hne), (G1 q c Hq), Hna.
Qed.

(** Every position of the re-ordered table shows one position of the
    table it was taken from, label and cells. *)
Lemma reorder_positions df :
  exists idx : list nat,
    (forall p c, columns (reorder df) !! p = Some c ->
                 exists q, idx !! p = Some q /\ columns df !! q = Some c) /\
    Forall2 (fun row row' => forall p q, idx !! p = Some q ->
                                         at_pos row' p = at_pos row q)
      (rows df) (rows (reorder df)).
Proof.
  unfold reorder, take_columns. cbn [columns rows].
  set (idx := _ ≫= _). exists idx. split.
  - intros p c Hp. rewrite list_lookup_fmap in Hp.
    destruct (idx !! p) as [q|] eqn:Eq; [|done].
    exists q. split; [done|]. simpl in Hp. injection Hp as Hp.
    apply list_elem_of_lookup_2 in Eq. subst idx.
    apply list_elem_of_bind in Eq as (c' & Hq & _).
    apply positions_spec in Hq as [_ Hq]. rewrite Nat.sub_0_r in Hq.
    rewrite Hq in Hp |- *. simpl in Hp. by subst.
  - apply Forall2_fmap_r, Forall_Forall2_diag, Forall_true.
    intros row p q Hp. unfold at_pos at 1.
    by rewrite list_lookup_fmap, Hp.
Qed.

(** C6, as amended.  A label is a column of the consolidated table iff
    it belongs to COLUMN_ORDER and some input record set holds a non-missing
    value under a column whose label, cut at its first underscore, is that
    label.  The rows of the table are those of the record sets, in order,
    and each of them carries the missing marker at every column of the
    table, other than Scheduled Time, for which its own record set has no
    column holding a value. *)
Theorem C6_surviving_columns (pd : pandas) (data_frames : list frame)
    (T : frame) (c : string) :
  Forall wf data_frames ->
  _consolidate_dataframes pd data_frames = Ok T ->
  (c ∈ columns T <->
   c ∈ COLUMN_ORDER /\
   exists df c', df ∈ data_frames /\ clean_name c' = c /\ holds_under df c') /\
  Forall2 (fun o row' =>
             forall p c0, columns T !! p = Some c0 -> c0 <> "Scheduled Time" ->
                          Origin.lacks o.1 c0 -> at_pos row' p = NA)
    (Origin.rows_of data_frames) (rows T).
Proof.
  intros Hwf H. split.
  - unfold _consolidate_dataframes in H.
    apply bind_Ok_inv in H as (T1 & H1 & H).
    apply bind_Ok_inv in H as (T2 & H2 & H). injection H as <-.
    apply format_date_columns_labels in H2. simpl in H2.
    rewrite reorder_columns, H2, list_elem_of_fmap.
    split; intros [HCO Hc]; (split; [done|]).
    + destruct Hc as (c' & -> & Hc').
      apply (concat_columns _ _ _ H1) in Hc' as (df1 & Hin & Hc').
      unfold reindexed in Hin. apply list_elem_of_fmap in Hin as (df & -> & Hin).
      exists df, c'. repeat split; [done|].
      apply reindexed_columns in Hc'; [done|].
      rewrite Forall_forall in Hwf. by apply Hwf.
    + destruct Hc as (df & c' & Hin & <- & Hc').
      exists c'. split; [done|].
      apply (concat_columns _ _ _ H1).
      exists (dropna_all (widen (all_columns data_frames) df)). split.
      * unfold reindexed. apply list_elem_of_fmap. eauto.
      * apply reindexed_columns; [|done].
        rewrite Forall_forall in Hwf. by apply Hwf.
  - unfold _consolidate_dataframes in H.
    apply bind_Ok_inv in H as (C & HC & H).
    apply bind_Ok_inv in H as (F & HF & H). injection H as <-.
    pose proof (format_date_columns_labels _ _ _ HF) as Hlab.
    apply format_date_columns_NA in HF. apply concat_lacking in HC.
    cbn [rename columns rows] in HF, Hlab.
    destruct (reorder_positions F) as (idx & Hidx & FT).
    pose proof (rows_of_reindexed wf (all_columns data_frames) data_frames Hwf)
      as FO.
    eapply Forall2_impl;
      [exact (Forall2_compose _ _ _ _ _ FO
                (Forall2_compose _ _ _ _ _ HC
                   (Forall2_compose _ _ _ _ _ HF FT)))|].
    intros o rowT (o' & [Hwfo Ho'] & rowC & GC & rowF & GF & GT) p c0 Hp Hne Hl.
    simpl in *.
    destruct (Hidx p c0 Hp) as (q & Hq & HqF).
    rewrite (GT p q Hq).
    rewrite Hlab, list_lookup_fmap in HqF.
    destruct (columns C !! q) as [u|] eqn:Hu; [|done].
    simpl in HqF. injection HqF as HqF.
    apply (GF q c0); [by rewrite list_lookup_fmap, Hu; simpl; f_equal|done|].
    apply (GC q u Hu). rewrite Ho'. intros Hin.
    apply reindexed_columns in Hin; [|done]. by apply (Hl u).
Qed.

Lemma C6_surviving_columns_witness :
  ("Serial #" ∈ ["Case #"; "Serial #"] <->
   "Serial #" ∈ COLUMN_ORDER /\
   exists df c',
     df ∈ [Frame ["Case #"; "Serial #"; "Line Up #"] [[Text "A1"; NA; NA]];
           Frame ["Case #"; "Serial #"] [[Text "B1"; Text "S9"]]] /\
     clean_name c' = "Serial #" /\ holds_under df c') /\
  Forall2 (fun o row' =>
             forall p c0, ["Case #"; "Serial #"] !! p = Some c0 ->
                          c0 <> "Scheduled Time" ->
                          Origin.lacks o.1 c0 -> at_pos row' p = NA)
    (Origin.rows_of
       [Frame ["Case #"; "Serial #"; "Line Up #"] [[Text "A1"; NA; NA]];
        Frame ["Case #"; "Serial #"] [[Text "B1"; Text "S9"]]])
    [[Text "A1"; NA]; [Text "B1"; Text "S9"]].
Proof.
  refine (C6_surviving_columns no_parse
            [Frame ["Case #"; "Serial #"; "Line Up #"] [[Text "A1"; NA; NA]];
             Frame ["Case #"; "Serial #"] [[Text "B1"; Text "S9"]]]
            (Frame ["Case #"; "Serial #"] [[Text "A1"; NA]; [Text "B1"; Text "S9"]])
            "Serial #" _ _).
  - repeat constructor.
  - vm_compute. reflexivity.
Defined.

(** C6, counterexample.  File A has the column X all missing, file B has
    it with one value, and the consolidated table has no column X: X is not
    in COLUMN_ORDER. *)
Lemma C6_unlisted_column_absent :
  holds_under (Frame ["Case #"; "X"] [[Text "B1"; Text "v"]]) "X" /\
  _consolidate_dataframes no_parse
    [Frame ["Case #"; "X"] [[Text "A1"; NA]];
     Frame ["Case #"; "X"] [[Text "B1"; Text "v"]]]
  = Ok (Frame ["Case #"] [[Text "A1"]; [Text "B1"]]) /\
  "X" ∉ ["Case #"].
Proof.
  split; [|split].
  - exists 1%nat. split; reflexivity.
  - vm_compute. reflexivity.
  - rewrite list_elem_of_singleton. discriminate.
Qed.

(** Under Scheduled Time the missing marker of a widened row does not
    survive: the time clean-up of [format_date_columns] turns it into a
    string. *)
Example scheduled_time_marker_rewritten :
  _consolidate_dataframes
    (Pandas (fun _ => None) (fun _ => None)
       (fun c => match c with NA => Text "NAN" | _ => c end))
    [Frame ["Case #"; "Scheduled Time"] [[Text "A1"; Text "9:05"]];
     Frame ["Case #"] [[Text "B1"]]]
  = Ok (Frame ["Case #"; "Scheduled Time"]
          [[Text "A1"; Text "9:05"]; [Text "B1"; Text "NAN"]]).
Proof. vm_compute. reflexivity. Qed.

Lemma append_cons c s t : String c s +:+ t = String c (s +:+ t).
Proof. reflexivity. Qed.

Lemma contains_underscore_cons c s :
  PyStr.contains "_" (String c s) = bool_decide (c = "_"%char) || PyStr.contains "_" s.
Proof.
  change (PyStr.contains "_" (String c s))
    with (String.prefix "_" (String c s) || PyStr.contains "_" s).
  f_equal. cbn [String.prefix].
  destruct (ascii_dec "_" c) as [E|E]; symmetry.
  - destruct s; by apply bool_decide_eq_true_2.
  - apply bool_decide_eq_false_2. congruence.
Qed.

Lemma before_underscore_app base rest :
  PyStr.contains "_" base = false ->
  before_underscore (base +:+ "_" +:+ rest) = base /\
  PyStr.contains "_" (base +:+ "_" +:+ rest) = true.
Proof.
  induction base as [|c base IH]; intros H.
  - change (EmptyString +:+ "_" +:+ rest) with (String "_" rest).
    rewrite contains_underscore_cons. split; reflexivity.
  - rewrite contains_underscore_cons in H. apply orb_false_iff in H as [Hc Hb].
    destruct (IH Hb) as [IH1 IH2].
    rewrite append_cons, contains_underscore_cons, IH2, orb_true_r.
    split; [|done]. simpl. rewrite Hc. by rewrite IH1.
Qed.

Lemma occurrences_cons c c' cols :
  occurrences c (c' :: cols)
  = ((if bool_decide (c' = c) then 1 else 0) + occurrences c cols)%nat.
Proof.
  unfold occurrences. rewrite filter_cons.
  case_decide; case_bool_decide; simpl; done.
Qed.

Lemma occurrences_app c l1 l2 :
  occurrences c (l1 ++ l2) = (occurrences c l1 + occurrences c l2)%nat.
Proof. unfold occurrences. by rewrite filter_app, length_app. Qed.

Lemma occurrences_replicate c c' n :
  occurrences c (replicate n c') = if bool_decide (c' = c) then n else 0%nat.
Proof.
  induction n as [|n IH]; simpl.
  - by case_bool_decide.
  - rewrite occurrences_cons, IH. by case_bool_decide.
Qed.

Lemma occurrences_absent c cols : c ∉ cols -> occurrences c cols = 0%nat.
Proof.
  induction cols as [|c' cols IH]; intros H; [done|].
  apply not_elem_of_cons in H as [H1 H2].
  rewrite occurrences_cons, IH by done.
  by rewrite bool_decide_eq_false_2 by congruence.
Qed.

Lemma positions_length c cols : forall i,
  length (positions i c cols) = occurrences c cols.
Proof.
  induction cols as [|c' cols IH]; intros i; [done|].
  simpl. rewrite occurrences_cons.
  case_bool_decide; simpl; by rewrite IH.
Qed.

Lemma positions_labels c cols :
  map (fun j => default EmptyString (cols !! j)) (positions 0 c cols)
  = replicate (occurrences c cols) c.
Proof.
  rewrite <- (positions_length c cols 0).
  assert (H : Forall (fun j => cols !! j = Some c) (positions 0 c cols)).
  { apply Forall_forall. intros j Hj. apply positions_spec in Hj as [_ Hj].
    by rewrite Nat.sub_0_r in Hj. }
  induction H as [|j l Hj _ IH]; simpl; [done|].
  by rewrite Hj, IH.
Qed.

Lemma take_columns_columns labels df :
  columns (take_columns labels df)
  = labels ≫= (fun c => replicate (occurrences c (columns df)) c).
Proof.
  unfold take_columns. simpl.
  induction labels as [|c labels IH]; [done|].
  rewrite !bind_cons, map_app, IH. by rewrite positions_labels.
Qed.

Lemma occurrences_bind c cols labels :
  NoDup labels ->
  occurrences c (labels ≫= (fun c' => replicate (occurrences c' cols) c'))
  = if bool_decide (c ∈ labels) then occurrences c cols else 0%nat.
Proof.
  induction 1 as [|c' labels Hc' _ IH]; [done|].
  rewrite bind_cons, occurrences_app, occurrences_replicate, IH.
  destruct (decide (c' = c)) as [->|Hne].
  - rewrite (bool_decide_eq_true_2 (c = c)) by done.
    rewrite (bool_decide_eq_true_2 (c ∈ c :: labels)) by left.
    rewrite (bool_decide_eq_false_2 (c ∈ labels)) by done. lia.
  - rewrite (bool_decide_eq_false_2 (c' = c)) by done. simpl.
    rewrite (bool_decide_ext (c ∈ c' :: labels) (c ∈ labels)); [done|].
    rewrite elem_of_cons. split; [intros [?|?]; [congruence|done]|auto].
Qed.

Lemma COLUMN_ORDER_NoDup : NoDup COLUMN_ORDER.
Proof. apply (bool_decide_unpack _). vm_compute. reflexivity. Qed.

(** Re-ordering keeps every column that carries a listed label. *)
Lemma reorder_occurrences df c :
  c ∈ COLUMN_ORDER ->
  occurrences c (columns (reorder df)) = occurrences c (columns df).
Proof.
  intros HCO. unfold reorder. rewrite take_columns_columns, occurrences_bind.
  - case_bool_decide as H; [done|]. symmetry. apply occurrences_absent.
    intros Hc. apply H. apply list_elem_of_filter. done.
  - apply NoDup_filter, COLUMN_ORDER_NoDup.
Qed.

Lemma occurrences_map c cols :
  occurrences c (map clean_name cols)
  = length (filter (fun c' => clean_name c' = c) cols).
Proof.
  induction cols as [|c' cols IH]; [done|].
  simpl. rewrite occurrences_cons, filter_cons, IH.
  case_bool_decide; case_decide; simpl; done.
Qed.

(** C7, as amended.  Every label that contains an underscore is cut at
    its first underscore, whatever follows it, and a label without an
    underscore is kept; so a suffixed label base_n collapses to base when
    base has no underscore.  The renaming changes labels only and nothing is
    merged: under each label of COLUMN_ORDER the table keeps as many columns
    as there are columns whose cut label it is. *)
Theorem C7_cut_at_first_underscore (base rest col c : string) (df : frame) :
  PyStr.contains "_" base = false ->
  PyStr.contains "_" col = false ->
  c ∈ COLUMN_ORDER ->
  clean_name (base +:+ "_" +:+ rest) = base /\
  clean_name col = col /\
  rows (rename df) = rows df /\
  occurrences c (columns (reorder (rename df)))
  = length (filter (fun c' => clean_name c' = c) (columns df)).
Proof.
  intros Hbase Hcol HCO. repeat split.
  - unfold clean_name. destruct (before_underscore_app base rest Hbase) as [H1 H2].
    by rewrite H2.
  - unfold clean_name. by rewrite Hcol.
  - rewrite reorder_occurrences by done. apply occurrences_map.
Qed.

Lemma C7_cut_at_first_underscore_witness :
  clean_name ("Case #" +:+ "_" +:+ "1") = "Case #" /\
  clean_name "Line Up #" = "Line Up #" /\
  rows (rename (Frame ["Case #"; "Case #_1"] [[Text "a"; Text "b"]]))
  = rows (Frame ["Case #"; "Case #_1"] [[Text "a"; Text "b"]]) /\
  occurrences "Case #"
    (columns (reorder (rename (Frame ["Case #"; "Case #_1"] [[Text "a"; Text "b"]]))))
  = length (filter (fun c' => clean_name c' = "Case #") ["Case #"; "Case #_1"]).
Proof.
  apply (C7_cut_at_first_underscore "Case #" "1" "Line Up #" "Case #"
           (Frame ["Case #"; "Case #_1"] [[Text "a"; Text "b"]])).
  - reflexivity.
  - reflexivity.
  - apply (bool_decide_unpack _). vm_compute. reflexivity.
Defined.

(** C7, counterexample.  A label whose underscore is no duplicate
    suffix is changed all the same, and a row with values under Case # and
    under Case #_1 keeps both, in two columns labelled Case #: no value is
    chosen over the other. *)
Lemma C7_not_only_suffixes_no_merge :
  clean_name "Serial_No" = "Serial" /\
  _consolidate_dataframes no_parse
    [Frame ["Case #"; "Case #_1"] [[Text "a"; Text "b"]]]
  = Ok (Frame ["Case #"; "Case #"] [[Text "a"; Text "b"]]).
Proof. split; vm_compute; reflexivity. Qed.

End ReconcileFacts.

(** ** Sheet titles *)

Section SheetFacts.
Import Sheets.

Local Abbreviation chars := String.list_ascii_of_string.

Lemma chars_app a b : chars (a +:+ b) = chars a ++ chars b.
Proof. induction a as [|c a IH]; [done|]. simpl. by rewrite <- IH. Qed.

Lemma chars_inj a b : chars a = chars b -> a = b.
Proof.
  intros H. rewrite <- (String.string_of_list_ascii_of_string a),
    <- (String.string_of_list_ascii_of_string b). by rewrite H.
Qed.

Lemma length_app_string a b :
  String.length (a +:+ b) = (String.length a + String.length b)%nat.
Proof. induction a as [|c a IH]; [done|]. simpl. by rewrite <- IH. Qed.

Lemma length_substring n s :
  (String.length (String.substring 0 n s) <= n)%nat.
Proof.
  revert s. induction n as [|n IH]; intros [|c s]; simpl; try lia.
  specialize (IH s). lia.
Qed.

(** The decimal print of a number is made of digits: it has no
    parenthesis. *)
Lemma pretty_N_char_paren x : pretty_N_char x <> "("%char.
Proof.
  unfold pretty_N_char.
  repeat (match goal with
          | |- context [match ?y with _ => _ end] => destruct y
          end; try discriminate).
Qed.

Lemma pretty_N_go_paren x : forall s,
  "("%char ∉ chars s -> "("%char ∉ chars (pretty_N_go x s).
Proof.
  induction (N.lt_wf_0 x) as [x _ IH]; intros s Hs.
  destruct (decide (x = 0)%N) as [->|Hx].
  - by rewrite pretty_N_go_0.
  - rewrite pretty_N_go_step by lia. apply IH.
    + apply N.div_lt; lia.
    + simpl. apply not_elem_of_cons. split; [|done].
      intros E. by apply (pretty_N_char_paren (x `mod` 10)%N).
Qed.

Lemma pretty_nat_paren (i : nat) : "("%char ∉ chars (PyStr.of_nat i).
Proof.
  unfold PyStr.of_nat, pretty, pretty_nat, pretty, pretty_N.
  case_decide.
  - simpl. rewrite list_elem_of_singleton. discriminate.
  - apply pretty_N_go_paren. simpl. apply not_elem_of_nil.
Qed.

Lemma pretty_N_go_length k : forall x s,
  (x < 10 ^ N.of_nat k)%N ->
  (String.length (pretty_N_go x s) <= String.length s + k)%nat.
Proof.
  induction k as [|k IH]; intros x s Hx.
  - assert (x = 0%N) as -> by (simpl in Hx; lia).
    rewrite pretty_N_go_0. lia.
  - destruct (decide (x = 0)%N) as [->|Hne].
    + rewrite pretty_N_go_0. lia.
    + rewrite pretty_N_go_step by lia.
      etrans; [apply IH|simpl; lia].
      rewrite Nat2N.inj_succ, N.pow_succ_r' in Hx.
      apply N.Div0.div_lt_upper_bound. lia.
Qed.

Lemma pretty_nat_length (i : nat) :
  (N.of_nat i < 10 ^ 28)%N -> (String.length (PyStr.of_nat i) <= 28)%nat.
Proof.
  intros Hi. unfold PyStr.of_nat, pretty, pretty_nat, pretty, pretty_N.
  case_decide; [simpl; lia|].
  change 28%nat with (String.length EmptyString + 28)%nat.
  by apply pretty_N_go_length.
Qed.

Lemma app_cons_inj {A} (x : A) l1 : forall l2 r1 r2,
  x ∉ l1 -> x ∉ l2 -> l1 ++ x :: r1 = l2 ++ x :: r2 -> l1 = l2.
Proof.
  induction l1 as [|a l1 IH]; intros [|b l2] r1 r2 H1 H2 E; simpl in *.
  - done.
  - injection E as -> _. exfalso. apply H2. left.
  - injection E as -> _. exfalso. apply H1. left.
  - injection E as -> E. f_equal.
    apply not_elem_of_cons in H1 as [_ H1], H2 as [_ H2]. eauto.
Qed.

Lemma suffix_chars i :
  chars (suffix i) = [" "; "("]%char ++ chars (PyStr.of_nat i) ++ [")"%char].
Proof. unfold suffix. by rewrite !chars_app. Qed.

(** Two counters give two candidates. *)
Lemma candidate_inj base i j : candidate base i = candidate base j -> i = j.
Proof.
  unfold candidate. intros E. apply (f_equal chars) in E.
  rewrite !chars_app, !suffix_chars in E.
  apply (f_equal (@rev ascii)) in E.
  rewrite !rev_app_distr in E. simpl in E.
  rewrite <- !app_assoc in E. simpl in E. injection E as E.
  apply app_cons_inj in E.
  - apply (f_equal (@rev ascii)) in E. rewrite !rev_involutive in E.
    apply chars_inj in E. unfold PyStr.of_nat in E.
    by apply (inj pretty) in E.
  - intros Hin. apply list_elem_of_In in Hin. rewrite <- in_rev in Hin.
    apply list_elem_of_In in Hin. by apply pretty_nat_paren in Hin.
  - intros Hin. apply list_elem_of_In in Hin. rewrite <- in_rev in Hin.
    apply list_elem_of_In in Hin. by apply pretty_nat_paren in Hin.
Qed.

Lemma candidate_length base i :
  (N.of_nat i < 10 ^ 28)%N -> (String.length (candidate base i) <= 31)%nat.
Proof.
  intros Hi. unfold candidate. rewrite length_app_string.
  assert (Hs : (String.length (suffix i) <= 31)%nat).
  { unfold suffix. rewrite !length_app_string. simpl.
    pose proof (pretty_nat_length i Hi). lia. }
  unfold PyStr.slice_to.
  destruct (0 <=? 31 - Z.of_nat (String.length (suffix i))) eqn:E; [|lia].
  pose proof (length_substring
                (Z.to_nat (31 - Z.of_nat (String.length (suffix i)))) base).
  lia.
Qed.

Lemma unique_loop_found fuel : forall base (E : gset string) i k,
  (i <= k < i + fuel)%nat ->
  candidate base k ∉ E ->
  (forall j, (i <= j < k)%nat -> candidate base j ∈ E) ->
  unique_loop fuel base E i = Some (candidate base k, {[candidate base k]} ∪ E).
Proof.
  induction fuel as [|fuel IH]; intros base E i k Hk Hfree Hbusy; [lia|].
  simpl. destruct (decide (k = i)) as [->|Hne].
  - by rewrite bool_decide_eq_false_2.
  - rewrite bool_decide_eq_true_2 by (apply Hbusy; lia).
    apply IH; [lia|done|]. intros j Hj. apply Hbusy. lia.
Qed.

Lemma search_candidate base (E : gset string) i n :
  (forall j, (i <= j < i + n)%nat -> candidate base j ∈ E) \/
  exists k, (i <= k < i + n)%nat /\ (candidate base k ∉ E) /\
            forall j, (i <= j < k)%nat -> candidate base j ∈ E.
Proof.
  induction n as [|n IH].
  - left. intros j Hj. lia.
  - destruct IH as [Hall|(k & Hk & Hfree & Hbusy)].
    + destruct (decide (candidate base (i + n) ∈ E)) as [Hin|Hout].
      * left. intros j Hj. destruct (decide (j = i + n)%nat) as [->|?]; [done|].
        apply Hall. lia.
      * right. exists (i + n)%nat. split; [lia|]. split; [done|].
        intros j Hj. apply Hall. lia.
    + right. exists k. split; [lia|done].
Qed.

(** Among one more candidates than [existing] has titles, one is free. *)
Lemma free_candidate base (E : gset string) i :
  exists k, (i <= k < i + S (size E))%nat /\ (candidate base k ∉ E) /\
            forall j, (i <= j < k)%nat -> candidate base j ∈ E.
Proof.
  destruct (search_candidate base E i (S (size E))) as [Hall|H]; [|done].
  exfalso.
  assert (Hnd : NoDup (candidate base <$> seq i (S (size E)))).
  { apply NoDup_fmap_2_strong; [|apply NoDup_seq].
    intros j1 j2 _ _. apply candidate_inj. }
  assert (Hsub : candidate base <$> seq i (S (size E)) ⊆+ elements E).
  { apply NoDup_submseteq; [done|]. intros t Ht.
    apply list_elem_of_fmap in Ht as (j & -> & Hj).
    apply elem_of_seq in Hj. apply elem_of_elements, Hall. lia. }
  apply submseteq_length in Hsub.
  rewrite length_fmap, length_seq in Hsub.
  unfold size, set_size in Hsub. simpl in Hsub. lia.
Qed.

Lemma make_unique_title_spec base (E : gset string) :
  exists t, make_unique_title base E = Some (t, {[t]} ∪ E) /\ (t ∉ E) /\
            ((String.length base <= 31)%nat ->
             (N.of_nat (size E) + 2 < 10 ^ 28)%N ->
             (String.length t <= 31)%nat).
Proof.
  unfold make_unique_title.
  set (title := if bool_decide (base = EmptyString) then "Sheet" else base).
  case_bool_decide as Hin.
  - destruct (free_candidate base E 2) as (k & Hk & Hfree & Hbusy).
    exists (candidate base k). split; [|split; [done|]].
    + by apply unique_loop_found.
    + intros _ Hsize. apply candidate_length. lia.
  - exists title. split; [done|]. split; [done|].
    intros Hlen _. subst title. case_bool_decide; [simpl; lia|done].
Qed.

Lemma base_label_length name : (String.length (base_label name) <= 31)%nat.
Proof.
  unfold base_label. case_bool_decide; [simpl; lia|].
  unfold PyStr.slice_to. simpl. apply length_substring.
Qed.

Lemma base_label_nonempty name : base_label name <> EmptyString.
Proof.
  unfold base_label. case_bool_decide as H; [done|].
  destruct (Sheets.strip_apostrophes _) as [|c s]; [done|]. done.
Qed.

Lemma assign_titles_spec stores : forall (E : gset string),
  (N.of_nat (size E + length stores) + 2 < 10 ^ 28)%N ->
  exists titles E',
    assign_titles stores E = Some (titles, E') /\
    length titles = length stores /\
    NoDup titles /\
    Forall (fun t => (String.length t <= 31)%nat /\ t ∉ E) titles /\
    E ⊆ E'.
Proof.
  induction stores as [|store rest IH]; intros E Hsize.
  - exists [], E. split; [done|]. split; [done|]. split; [apply NoDup_nil_2|].
    split; [constructor|done].
  - destruct (make_unique_title_spec (base_label store) E) as (t & Ht & Hfree & Hlen).
    assert (Hs : size ({[t]} ∪ E) = S (size E)).
    { rewrite size_union by set_solver. by rewrite size_singleton. }
    destruct (IH ({[t]} ∪ E)) as (titles & E' & Hrest & Hl & Hnd & HF & Hsub).
    { rewrite Hs. simpl in Hsize. lia. }
    exists (t :: titles), E'. split; [|split; [|split; [|split]]].
    + simpl. unfold sanitize_sheet_title. rewrite Ht. simpl. by rewrite Hrest.
    + simpl. by rewrite Hl.
    + constructor; [|done]. intros Hin.
      rewrite Forall_forall in HF. destruct (HF t Hin) as [_ Hout].
      apply Hout. apply elem_of_union_l. by apply elem_of_singleton.
    + constructor.
      * split; [|done]. apply Hlen; [apply base_label_length|].
        simpl in Hsize. lia.
      * eapply Forall_impl; [exact HF|]. intros t' [? Hout]. split; [done|].
        intros Hin. apply Hout. by apply elem_of_union_r.
    + intros t' Hin. apply Hsub. by apply elem_of_union_r.
Qed.

Lemma second_title base (E : gset string) :
  base <> EmptyString -> base ∉ E -> candidate base 2 ∉ ({[base]} ∪ E : gset string) ->
  make_unique_title base E = Some (base, {[base]} ∪ E) /\
  make_unique_title base ({[base]} ∪ E)
  = Some (candidate base 2, {[candidate base 2]} ∪ ({[base]} ∪ E)).
Proof.
  intros Hne Hfree H2. unfold make_unique_title.
  rewrite (bool_decide_eq_false_2 (base = EmptyString)) by done.
  rewrite (bool_decide_eq_false_2 (base ∈ E)) by done. split; [done|].
  rewrite bool_decide_eq_true_2 by set_solver.
  simpl. by rewrite bool_decide_eq_false_2.
Qed.

(** C8, as amended.  The titles FormatCSV gives to the stores in turn are
    pairwise distinct, differ from the titles the workbook already has, and
    are at most 31 characters long (for fewer than 10^28 titles).  When two
    stores have the same sanitized label, that label is free and its form
    with " (2)" is free too, the first store gets the label and the second
    the label cut to 27 characters followed by " (2)". *)
Theorem C8_sheet_titles (stores : list string) (existing : gset string)
    (store1 store2 : string) :
  (N.of_nat (size existing + length stores) + 2 < 10 ^ 28)%N ->
  base_label store1 = base_label store2 ->
  base_label store1 ∉ existing ->
  candidate (base_label store1) 2 ∉ ({[base_label store1]} ∪ existing : gset string) ->
  (exists titles existing',
     assign_titles stores existing = Some (titles, existing') /\
     length titles = length stores /\
     NoDup titles /\
     Forall (fun t => (String.length t <= 31)%nat /\ t ∉ existing) titles) /\
  (exists existing',
     assign_titles [store1; store2] existing
     = Some ([base_label store1;
              PyStr.slice_to (base_label store1) 27 +:+ " (2)"], existing')).
Proof.
  intros Hsize Hsame Hfree H2. split.
  - destruct (assign_titles_spec stores existing Hsize)
      as (titles & E' & H & Hl & Hnd & HF & _).
    exists titles, E'. done.
  - destruct (second_title (base_label store1) existing
                (base_label_nonempty store1) Hfree H2) as [E1 E2].
    eexists. simpl. unfold sanitize_sheet_title.
    rewrite E1. simpl. rewrite <- Hsame, E2. simpl. reflexivity.
Qed.

Lemma C8_sheet_titles_witness :
  (exists titles existing',
     assign_titles ["A/B"; "A:B"] {["Master"]} = Some (titles, existing') /\
     length titles = length ["A/B"; "A:B"] /\
     NoDup titles /\
     Forall (fun t => (String.length t <= 31)%nat /\ t ∉ ({["Master"]} : gset string))
       titles) /\
  (exists existing',
     assign_titles ["A/B"; "A:B"] {["Master"]}
     = Some ([base_label "A/B";
              PyStr.slice_to (base_label "A/B") 27 +:+ " (2)"], existing')).
Proof.
  apply (C8_sheet_titles ["A/B"; "A:B"] {["Master"]} "A/B" "A:B").
  - vm_compute. reflexivity.
  - vm_compute. reflexivity.
  - apply (bool_decide_unpack _). vm_compute. reflexivity.
  - apply (bool_decide_unpack _). vm_compute. reflexivity.
Defined.

(** Two stores whose names share their first 31 characters. *)
Example titles_long_names :
  fst <$> assign_titles
            ["0123456789012345678901234567890123";
             "0123456789012345678901234567890xyz"] {["Master"]}
  = Some ["0123456789012345678901234567890";
          "012345678901234567890123456 (2)"].
Proof. vm_compute. reflexivity. Qed.

(** C8, counterexample.  The sheet names that GenerateMasterCSV derives
    for two different stores with the same short label are equal: nothing
    is appended there.  In FormatCSV the second of two stores with the
    label X gets " (3)" when the title "X (2)" is taken by a third store. *)
Lemma C8_names_not_told_apart :
  "Store #45 North" <> "Store #45 South" /\
  sheet_name (Date.DateTime 2026 11 3 0) "Store #45 North" = "Store #45 10.26" /\
  sheet_name (Date.DateTime 2026 11 3 0) "Store #45 South" = "Store #45 10.26" /\
  base_label "X" = base_label " X" /\
  fst <$> assign_titles ["X (2)"; "X"; " X"] {["Master"]}
  = Some ["X (2)"; "X"; "X (3)"].
Proof. repeat split; try discriminate; vm_compute; reflexivity. Qed.

End SheetFacts.

(** ** ConsolidationDriver *)

Section DriverFacts.
Import Frame Driver.

Lemma count_file_frames t r :
  all_data_frames (count_file t r)
  = all_data_frames t ++ (if usable r then option_list r else []).
Proof.
  unfold count_file, usable. destruct r as [df|]; simpl.
  - destruct (empty df); simpl; by rewrite ?app_nil_r.
  - by rewrite app_nil_r.
Qed.

Lemma count_files_frames files : forall t,
  all_data_frames (foldl count_file t files) = [] <->
  all_data_frames t = [] /\ Forall (fun r => usable r = false) files.
Proof.
  induction files as [|r files IH]; intros t; simpl.
  - split; [intros H; split; [done|constructor]|tauto].
  - rewrite IH, count_file_frames, Forall_cons. split.
    + intros [H HF]. apply app_eq_nil in H as [H1 H2].
      repeat split; try done. destruct (usable r) eqn:E; [|done].
      destruct r; simpl in *; done.
    + intros (H1 & H2 & HF). rewrite H1, H2. done.
Qed.

Lemma scan_fold folders : forall t,
  all_data_frames
    (foldl (fun t folder =>
              match folder with
              | None => t
              | Some files => foldl count_file t files
              end) t folders) = [] <->
  all_data_frames t = [] /\ Forall (fun r => usable r = false) (outcomes folders).
Proof.
  induction folders as [|folder folders IH]; intros t; simpl.
  - split; [intros H; split; [done|constructor]|tauto].
  - rewrite IH.
    change (outcomes (folder :: folders))
      with (default [] folder ++ outcomes folders).
    rewrite Forall_app.
    destruct folder as [files|]; simpl.
    + rewrite count_files_frames. tauto.
    + rewrite Forall_nil. tauto.
Qed.

(** No frame is collected iff no file gave a usable record set. *)
Lemma scan_empty folders :
  all_data_frames (scan folders) = [] <->
  Forall (fun r => usable r = false) (outcomes folders).
Proof. unfold scan. rewrite scan_fold. simpl. tauto. Qed.

Lemma format_dates_raise pd cols : forall acc e,
  foldl (fun acc col => df ← acc; Reconcile.format_date pd df col) acc cols = Raise e ->
  acc = Raise e \/ e = ValueError "cannot assemble with duplicate keys".
Proof.
  induction cols as [|col cols IH]; intros acc e H; simpl in H; [auto|].
  apply IH in H as [H|H]; [|auto].
  destruct acc as [df|e']; simpl in H; [|auto].
  right. unfold Reconcile.format_date in H.
  destruct (has df col); [|done]. case_bool_decide; [done|]. congruence.
Qed.

Lemma consolidate_not_no_data pd dfs :
  Reconcile._consolidate_dataframes pd dfs <> Raise no_data.
Proof.
  unfold Reconcile._consolidate_dataframes. intros H.
  destruct (Reconcile.concat _) as [T1|e] eqn:E1; simpl in H.
  - destruct (Reconcile.format_date_columns pd _) as [T2|e] eqn:E2; simpl in H; [done|].
    injection H as ->. unfold Reconcile.format_date_columns in E2.
    destruct (foldl _ _ _) as [df1|e] eqn:E3; simpl in E2.
    + destruct (has df1 "Scheduled Time"); [|done].
      case_bool_decide; done.
    + injection E2 as ->. apply format_dates_raise in E3 as [?|?]; done.
  - injection H as ->. unfold Reconcile.concat in E1.
    destruct (Reconcile.reindexed dfs) as [|df0 rest]; [done|].
    destruct (forallb _ rest); [done|]. destruct (forallb _ _); done.
Qed.

(** C9, as amended.  The run ends with the no-data error iff no file
    yields a usable record set, and then it returns the failure status
    without having written an output file.  When some file yields a usable
    record set the run returns the success status iff consolidation and the
    saving of the report both complete without an exception, however many
    files were skipped. *)
Theorem C9_run_outcome (pd : pandas) (today : Date.datetime)
    (folders : list (option (list (option frame)))) :
  (process_folders pd folders = Raise no_data <->
   Forall (fun r => usable r = false) (outcomes folders)) /\
  (Forall (fun r => usable r = false) (outcomes folders) ->
   main pd today folders = (1, None)) /\
  (Exists (fun r => usable r = true) (outcomes folders) ->
   (fst (main pd today folders) = 0 <->
    exists T, process_folders pd folders = Ok T /\
              snd (save_consolidated_report pd today T) = Ok tt)).
Proof.
  assert (H1 : process_folders pd folders = Raise no_data <->
               Forall (fun r => usable r = false) (outcomes folders)).
  { rewrite <- scan_empty. unfold process_folders.
    case_bool_decide as E; [tauto|]. split; [|done].
    intros H. by apply consolidate_not_no_data in H. }
  split; [done|]. split.
  - intros H. apply H1 in H. unfold main. by rewrite H.
  - intros _. unfold main.
    destruct (process_folders pd folders) as [T|e]; simpl.
    + destruct (save_consolidated_report pd today T) as [w [[]|e]] eqn:Es; simpl.
      * split; [|done]. intros _. exists T. by rewrite Es.
      * split; [done|]. intros (T' & [= <-] & H). rewrite Es in H. done.
    + split; [done|]. by intros (T & ? & _).
Qed.

Lemma C9_run_outcome_witness :
  main no_parse (Date.DateTime 2026 11 3 0) [Some [None; None]; None] = (1, None).
Proof.
  apply (proj1 (proj2 (C9_run_outcome no_parse (Date.DateTime 2026 11 3 0)
                         [Some [None; None]; None]))).
  repeat constructor.
Defined.

(** A run over one good file, with two files skipped. *)
Example run_succeeds :
  fst (main no_parse (Date.DateTime 2026 11 3 0)
         [None;
          Some [None;
                Some (Frame ["Case #"; "Arrived @ Warehouse"; "Scheduled Date";
                             "# Days In Storage"; "Square Footage of Case";
                             "Storage Charge"; "Extended Price"]
                        [[Text "A1"; Stamp (Date.midnight 2026 10 15);
                          Stamp (Date.midnight 2026 11 20);
                          Num 1; Num 12; Num 3; Num 0]]);
                None]]) = 0.
Proof. vm_compute. reflexivity. Qed.

(** A run that fails after the table has been written: no file has a
    value under # Days In Storage, so the formulas cannot be placed. *)
Example run_fails_after_writing :
  main no_parse (Date.DateTime 2026 11 3 0)
    [Some [Some (Frame ["Case #"; "Arrived @ Warehouse"; "Scheduled Date"]
                   [[Text "A1"; Stamp (Date.midnight 2026 10 15);
                     Stamp (Date.midnight 2026 10 20)]])]]
  = (1, Some (Frame ["Case #"; "Arrived @ Warehouse"; "Scheduled Date";
                     "Storage Starts"; "Storage Ends"]
                [[Text "A1"; Stamp (Date.midnight 2026 10 15);
                  Stamp (Date.midnight 2026 10 20);
                  Stamp (Date.midnight 2026 10 15);
                  Stamp (Date.midnight 2026 10 20)]])).
Proof. vm_compute. reflexivity. Qed.

(** C9, counterexample.  One file is processed successfully, but no
    file has a column Scheduled Date: the saving of the report raises
    KeyError and the run returns the failure status. *)
Lemma C9_usable_file_failed_run :
  usable (Some (Frame ["Case #"; "Arrived @ Warehouse"]
                  [[Text "A1"; Stamp (Date.midnight 2026 10 15)]])) = true /\
  process_folders no_parse
    [Some [Some (Frame ["Case #"; "Arrived @ Warehouse"]
                   [[Text "A1"; Stamp (Date.midnight 2026 10 15)]])]]
  = Ok (Frame ["Case #"; "Arrived @ Warehouse"]
          [[Text "A1"; Stamp (Date.midnight 2026 10 15)]]) /\
  main no_parse (Date.DateTime 2026 11 3 0)
    [Some [Some (Frame ["Case #"; "Arrived @ Warehouse"]
                   [[Text "A1"; Stamp (Date.midnight 2026 10 15)]])]]
  = (1, None).
Proof. repeat split; vm_compute; reflexivity. Qed.

End DriverFacts.

(** ** HeaderNormalizer: lengths, numbering and distinct names *)

Section HeaderMore.
Import Header HeaderNames.

Lemma loop_two_passes cells : forall i st,
  loop i cells st
  = dedup_all (seen_headers st) (candidates i cells (prev_main_header st)).
Proof.
  induction cells as [|[h s] cells IH]; intros i st; [done|].
  simpl. unfold step.
  destruct (candidate i h s (prev_main_header st)) as [c prev].
  simpl. destruct (dedup c (seen_headers st)) as [c' seen].
  f_equal. apply IH.
Qed.

Lemma process_headers_two_passes header_row subheader_row :
  _process_headers header_row subheader_row
  = dedup_all ∅ (header_candidates header_row subheader_row).
Proof. apply loop_two_passes. Qed.

Lemma dedup_all_length names : forall seen,
  length (dedup_all seen names) = length names.
Proof.
  induction names as [|h names IH]; intros seen; [done|].
  simpl. destruct (dedup h seen). simpl. by rewrite IH.
Qed.

Lemma candidates_length cells : forall i prev,
  length (candidates i cells prev) = length cells.
Proof.
  induction cells as [|[h s] cells IH]; intros i prev; [done|].
  simpl. destruct (candidate i h s prev). simpl. by rewrite IH.
Qed.

(** X1.  One name per position of the shorter of the two rows. *)
Theorem process_headers_length (header_row subheader_row : list raw) :
  length (_process_headers header_row subheader_row)
  = Nat.min (length header_row) (length subheader_row).
Proof.
  rewrite process_headers_two_passes, dedup_all_length.
  unfold header_candidates. by rewrite candidates_length, length_zip_with.
Qed.

Lemma dedup_all_lookup names : forall seen i c,
  names !! i = Some c ->
  dedup_all seen names !! i
  = Some (numbered_from seen c (Reconcile.occurrences c (take i names))).
Proof.
  induction names as [|h names IH]; intros seen i c Hi; [done|].
  simpl. unfold dedup, numbered_from.
  destruct i as [|i]; simpl in *.
  - injection Hi as ->. destruct (seen !! c) as [n|]; simpl; [|done].
    change (Reconcile.occurrences c []) with 0%nat.
    by replace (n + 1 + 0)%nat with (S n) by lia.
  - rewrite occurrences_cons.
    destruct (seen !! h) as [n|] eqn:Hh; simpl; rewrite (IH _ _ _ Hi);
      f_equal; unfold numbered_from;
      (case_bool_decide as E; [subst h; rewrite lookup_insert_eq, Hh
                              |rewrite lookup_insert_ne by done; done]).
    + by replace (S n + 1 + Reconcile.occurrences c (take i names))%nat
        with (n + 1 + (1 + Reconcile.occurrences c (take i names)))%nat by lia.
    + done.
Qed.

Lemma numbered_from_empty c k : numbered_from ∅ c k = numbered c k.
Proof. unfold numbered_from. by rewrite lookup_empty. Qed.

(** X2.  The name at a position is the candidate of that position, followed by
    [_k] when [k > 0] earlier positions have the same candidate. *)
Theorem process_headers_numbering (header_row subheader_row : list raw)
    (i : nat) (c : string) :
  header_candidates header_row subheader_row !! i = Some c ->
  _process_headers header_row subheader_row !! i
  = Some (numbered c
            (Reconcile.occurrences c
               (take i (header_candidates header_row subheader_row)))).
Proof.
  intros Hi. rewrite process_headers_two_passes.
  by rewrite (dedup_all_lookup _ _ _ _ Hi), numbered_from_empty.
Qed.

Lemma process_headers_numbering_witness :
  _process_headers [Some "Case"; None; Some " Case "; Some "Case"] [None; None; None; None]
    !! 3%nat
  = Some (numbered "Case"
            (Reconcile.occurrences "Case"
               (take 3 (header_candidates [Some "Case"; None; Some " Case "; Some "Case"]
                          [None; None; None; None])))).
Proof.
  apply (process_headers_numbering
           [Some "Case"; None; Some " Case "; Some "Case"] [None; None; None; None]
           3 "Case").
  reflexivity.
Defined.

Local Abbreviation chars := String.list_ascii_of_string.

Lemma pretty_N_char_digit x : Sheets.is_digit (pretty_N_char x) = true.
Proof.
  unfold pretty_N_char.
  repeat (match goal with
          | |- context [match ?y with _ => _ end] => destruct y
          end; try reflexivity).
Qed.

Lemma pretty_N_go_digits x : forall s,
  Forall (fun a => Sheets.is_digit a = true) (chars s) ->
  Forall (fun a => Sheets.is_digit a = true) (chars (pretty_N_go x s)).
Proof.
  induction (N.lt_wf_0 x) as [x _ IH]; intros s Hs.
  destruct (decide (x = 0)%N) as [->|Hx].
  - by rewrite pretty_N_go_0.
  - rewrite pretty_N_go_step by lia. apply IH.
    + apply N.div_lt; lia.
    + simpl. constructor; [apply pretty_N_char_digit|done].
Qed.

(** [str(i)] consists of decimal digits. *)
Lemma of_nat_digits (i : nat) :
  Forall (fun a => Sheets.is_digit a = true) (chars (PyStr.of_nat i)).
Proof.
  unfold PyStr.of_nat, pretty, pretty_nat, pretty, pretty_N.
  case_decide.
  - repeat constructor.
  - apply pretty_N_go_digits. constructor.
Qed.

Lemma of_nat_no_underscore (i : nat) : "_"%char ∉ chars (PyStr.of_nat i).
Proof.
  intros Hin. pose proof (of_nat_digits i) as H.
  rewrite Forall_forall in H. by apply H in Hin.
Qed.

Lemma suffixed_inj c1 k1 c2 k2 :
  suffixed c1 k1 = suffixed c2 k2 -> c1 = c2 /\ k1 = k2.
Proof.
  unfold suffixed. intros E. apply (f_equal chars) in E.
  rewrite !chars_app in E. simpl in E.
  apply (f_equal (@rev ascii)) in E.
  rewrite !rev_app_distr in E. simpl in E. rewrite <- !app_assoc in E. simpl in E.
  assert (Hno : forall k, "_"%char ∉ rev (chars (PyStr.of_nat k))).
  { intros k Hin. apply list_elem_of_In in Hin. rewrite <- in_rev in Hin.
    apply list_elem_of_In in Hin. by apply of_nat_no_underscore in Hin. }
  pose proof (app_cons_inj _ _ _ _ _ (Hno k1) (Hno k2) E) as Hd.
  rewrite Hd in E. apply app_inv_head in E. injection E as E.
  apply (f_equal (@rev ascii)) in E, Hd. rewrite !rev_involutive in E, Hd.
  apply chars_inj in E, Hd. split; [done|].
  unfold PyStr.of_nat in Hd. by apply (inj pretty) in Hd.
Qed.

Lemma occurrences_take_le c (names : list string) i j :
  (i <= j)%nat ->
  (Reconcile.occurrences c (take i names) <= Reconcile.occurrences c (take j names))%nat.
Proof.
  intros Hij. rewrite <- (take_drop i (take j names)).
  rewrite take_take, Nat.min_l by done. rewrite occurrences_app. lia.
Qed.

Lemma occurrences_take_lt c (names : list string) i j :
  (i < j)%nat -> names !! i = Some c ->
  (Reconcile.occurrences c (take i names) < Reconcile.occurrences c (take j names))%nat.
Proof.
  intros Hij Hi.
  pose proof (occurrences_take_le c names (S i) j Hij) as Hle.
  rewrite (take_S_r _ _ _ Hi), occurrences_app in Hle.
  rewrite occurrences_cons, bool_decide_eq_true_2 in Hle by done. lia.
Qed.

Lemma numbered_eq (names : list string) c1 c2 k1 k2 :
  (forall c k, c ∈ names -> (0 < k)%nat -> suffixed c k ∉ names) ->
  c1 ∈ names -> c2 ∈ names ->
  numbered c1 k1 = numbered c2 k2 -> c1 = c2 /\ k1 = k2.
Proof.
  intros Hfree H1 H2 E. destruct k1 as [|k1], k2 as [|k2]; simpl in E.
  - done.
  - subst c1. exfalso. by apply (Hfree c2 (S k2)); [|lia|].
  - subst c2. exfalso. by apply (Hfree c1 (S k1)); [|lia|].
  - by apply suffixed_inj.
Qed.

(** X3.  The names are pairwise distinct when no candidate reads like another
    candidate followed by [_k]. *)
Theorem process_headers_distinct (header_row subheader_row : list raw) :
  (forall c k, c ∈ header_candidates header_row subheader_row -> (0 < k)%nat ->
               suffixed c k ∉ header_candidates header_row subheader_row) ->
  NoDup (_process_headers header_row subheader_row).
Proof.
  intros Hfree. set (names := header_candidates header_row subheader_row) in *.
  assert (Hlen : length (_process_headers header_row subheader_row) = length names).
  { rewrite process_headers_two_passes. apply dedup_all_length. }
  assert (Hord : forall i j x, (i < j)%nat ->
            _process_headers header_row subheader_row !! i = Some x ->
            _process_headers header_row subheader_row !! j = Some x -> False).
  { intros i j x Hij Hi Hj.
    destruct (names !! i) as [ci|] eqn:Ei.
    2:{ apply lookup_ge_None in Ei. apply lookup_lt_Some in Hi. lia. }
    destruct (names !! j) as [cj|] eqn:Ej.
    2:{ apply lookup_ge_None in Ej. apply lookup_lt_Some in Hj. lia. }
    rewrite process_headers_two_passes in Hi, Hj. fold names in Hi, Hj.
    rewrite (dedup_all_lookup _ _ _ _ Ei), numbered_from_empty in Hi.
    rewrite (dedup_all_lookup _ _ _ _ Ej), numbered_from_empty in Hj.
    injection Hi as Hi. injection Hj as Hj.
    rewrite <- Hj in Hi.
    apply (numbered_eq names) in Hi as [-> Hk]; [|done|..].
    - pose proof (occurrences_take_lt cj names i j Hij Ei). lia.
    - by eapply list_elem_of_lookup_2.
    - by eapply list_elem_of_lookup_2. }
  apply NoDup_alt. intros i j x Hi Hj.
  destruct (Nat.lt_trichotomy i j) as [Hlt|[->|Hgt]]; [|done|].
  - exfalso. by eapply Hord.
  - exfalso. by eapply (Hord j i).
Qed.

Lemma suffixed_underscore c k : "_"%char ∈ chars (suffixed c k).
Proof.
  unfold suffixed. rewrite !chars_app. simpl.
  apply elem_of_app. right. left.
Qed.

Lemma process_headers_distinct_witness :
  NoDup (_process_headers [Some "Case"; Some "Case"; Some "Scheduled APPT"; None]
           [None; None; Some "Date"; Some "Time"]).
Proof.
  apply process_headers_distinct.
  intros c k _ _ Hin.
  assert (Hnames : header_candidates
                     [Some "Case"; Some "Case"; Some "Scheduled APPT"; None]
                     [None; None; Some "Date"; Some "Time"]
                   = ["Case"; "Case"; "Scheduled Date"; "Scheduled Time"])
    by (vm_compute; reflexivity).
  rewrite Hnames in Hin. pose proof (suffixed_underscore c k) as Hu.
  repeat (apply elem_of_cons in Hin as [Hin|Hin]);
    try (apply elem_of_nil in Hin; done);
    rewrite Hin in Hu; simpl in Hu;
    repeat (apply elem_of_cons in Hu as [Hu|Hu]; [discriminate|]);
    by apply elem_of_nil in Hu.
Defined.

Lemma candidate_prev i h s prev :
  snd (candidate i h s prev)
  = match h with None => prev | Some t => Some (PyStr.strip t) end.
Proof.
  unfold candidate, resolve_none. destruct h as [t|]; [done|].
  by destruct (_ && _).
Qed.

Lemma candidates_lookup cells : forall i prev j h s,
  cells !! j = Some (h, s) ->
  candidates i cells prev !! j
  = Some (fst (candidate (i + j) h s (last_primary prev (take j cells).*1))).
Proof.
  induction cells as [|[h0 s0] cells IH]; intros i prev j h s Hj; [done|].
  simpl. pose proof (candidate_prev i h0 s0 prev) as Hp.
  destruct (candidate i h0 s0 prev) as [c prev'] eqn:E. simpl in Hp.
  destruct j as [|j]; simpl in *.
  - injection Hj as <- <-. by rewrite Nat.add_0_r, E.
  - rewrite (IH _ _ _ _ _ Hj), Hp.
    replace (S i + j)%nat with (i + S j)%nat by lia. by destruct h0.
Qed.

(** X4.  The name of every position before duplicate handling, in closed form:
    the state carried by the loop is the last non-empty primary header to
    the left.  A non-empty primary header gives its stripped text, except
    that "Scheduled APPT" is split by its subheader, "date" being looked for
    first; an empty one gives "Scheduled Time" inside a "Scheduled APPT"
    group with a time subheader and "Unnamed_<i>" in every other case. *)
Theorem header_candidates_cases (header_row subheader_row : list raw)
    (i : nat) (h s : raw) :
  header_row !! i = Some h ->
  subheader_row !! i = Some s ->
  header_candidates header_row subheader_row !! i
  = Some match h with
         | Some t =>
             if bool_decide (PyStr.strip t = "Scheduled APPT") then
               if PyStr.contains "date" (subheader_str s) then "Scheduled Date"
               else if any_time (subheader_str s) then "Scheduled Time"
               else "Scheduled APPT"
             else PyStr.strip t
         | None =>
             if bool_decide (last_primary None (take i header_row)
                             = Some "Scheduled APPT")
                && any_time (subheader_str s)
             then "Scheduled Time"
             else "Unnamed_" +:+ PyStr.of_nat i
         end.
Proof.
  intros Hh Hs. unfold header_candidates.
  assert (Hz : zip header_row subheader_row !! i = Some (h, s)).
  { apply lookup_zip_with_Some. eauto. }
  rewrite (candidates_lookup _ _ _ _ _ _ Hz). simpl. f_equal.
  rewrite fst_take_zip by (apply lookup_lt_Some in Hs; lia).
  unfold candidate, resolve_none. destruct h as [t|]; simpl.
  - unfold split_appt. case_bool_decide as E; [|done].
    rewrite E. by repeat case_match.
  - destruct (_ && _); simpl; [done|]. apply unnamed_not_appt.
Qed.

Lemma header_candidates_cases_witness :
  header_candidates [Some "PO"; Some " Scheduled APPT"; None; None]
    [None; Some "Date/Time"; Some "TIME "; Some "Date"] !! 1%nat
  = Some "Scheduled Date".
Proof.
  apply (header_candidates_cases [Some "PO"; Some " Scheduled APPT"; None; None]
           [None; Some "Date/Time"; Some "TIME "; Some "Date"] 1
           (Some " Scheduled APPT") (Some "Date/Time")); reflexivity.
Defined.

End HeaderMore.

(** ** TemporalFilter: both filters *)

Section TemporalMore.
Import Date Frame Temporal.

Lemma ends_mask_ok now cols row :
  match get cols row "Storage Ends" with
  | NA | Stamp _ => True
  | _ => False
  end ->
  ends_mask now cols row = Ok (Kept.storage_ends now (get cols row "Storage Ends")).
Proof.
  unfold ends_mask. destruct (get cols row _); simpl; done.
Qed.

Lemma filter_filter_and {X} (p q : X -> bool) (l : list X) :
  List.filter q (List.filter p l) = List.filter (fun x => p x && q x) l.
Proof.
  induction l as [|x l IH]; simpl; [done|].
  destruct (p x); simpl; [|done]. destruct (q x); by rewrite IH.
Qed.

Lemma Forall_list_filter {X} (P : X -> Prop) (p : X -> bool) (l : list X) :
  Forall P l -> Forall P (List.filter p l).
Proof.
  induction 1 as [|x l Hx _ IH]; simpl; [constructor|].
  destruct (p x); [by constructor|done].
Qed.

Lemma boolean_index_ok (p : list cell -> result bool) (q : list cell -> bool) df :
  Forall (fun row => p row = Ok (q row)) (rows df) ->
  boolean_index p df = Ok (Frame (columns df) (List.filter q (rows df))).
Proof.
  intros H. unfold boolean_index. rewrite (mapM_ok _ q) by done.
  simpl. by rewrite select_map.
Qed.

(** X5.  [_apply_date_filters] on a record set whose Arrived @ Warehouse and
    Storage Ends cells are timestamps or missing: the labels are kept, and
    the rows that remain are, in their order, those that satisfy the
    arrival predicate (when the column exists) and the Storage Ends
    predicate (when that column exists).  No row is changed or added. *)
Theorem apply_date_filters_rows (now : datetime) (df : frame) :
  datetime_column df "Arrived @ Warehouse" ->
  datetime_column df "Storage Ends" ->
  _apply_date_filters now df
  = Ok (Frame (columns df) (List.filter (Kept.row now (columns df)) (rows df))).
Proof.
  intros HA HE. unfold _apply_date_filters, filter_arrived, filter_storage_ends.
  unfold Kept.row, has.
  destruct (bool_decide ("Arrived @ Warehouse" ∈ columns df)); simpl.
  - rewrite (boolean_index_ok _ (fun row => Spec.strictly_between now
               (get (columns df) row "Arrived @ Warehouse"))).
    2:{ eapply Forall_impl; [exact HA|]. intros row H. by apply arrived_mask_ok. }
    rewrite bind_Ok. cbn [columns rows].
    destruct (bool_decide ("Storage Ends" ∈ columns df)); simpl.
    + rewrite (boolean_index_ok _ (fun row => Kept.storage_ends now
                 (get (columns df) row "Storage Ends"))).
      * cbn [columns rows]. by rewrite filter_filter_and.
      * cbn [columns rows]. apply Forall_list_filter.
        eapply Forall_impl; [exact HE|]. intros row H. by apply ends_mask_ok.
    + do 2 f_equal. apply filter_ext. intros row. by rewrite andb_true_r.
  - destruct (bool_decide ("Storage Ends" ∈ columns df)); simpl.
    + rewrite (boolean_index_ok _ (fun row => Kept.storage_ends now
                 (get (columns df) row "Storage Ends"))); [done|].
      eapply Forall_impl; [exact HE|]. intros row H. by apply ends_mask_ok.
    + destruct df as [cols rs]. simpl. f_equal. f_equal.
      clear HA HE. induction rs as [|r rs IH]; [done|]. cbn. by rewrite <- IH.
Qed.

Lemma apply_date_filters_rows_witness :
  _apply_date_filters (DateTime 2026 11 3 0)
    (Frame ["Arrived @ Warehouse"; "Storage Ends"]
       [[Stamp (midnight 2026 10 5); Stamp (midnight 2026 9 30)];
        [Stamp (midnight 2026 10 6); NA];
        [NA; Stamp (midnight 2026 10 9)];
        [Stamp (midnight 2026 9 7); Stamp (midnight 2000 1 31)]])
  = Ok (Frame ["Arrived @ Warehouse"; "Storage Ends"]
          [[Stamp (midnight 2026 10 6); NA];
           [Stamp (midnight 2026 9 7); Stamp (midnight 2000 1 31)]]).
Proof.
  apply (apply_date_filters_rows (DateTime 2026 11 3 0)
           (Frame ["Arrived @ Warehouse"; "Storage Ends"]
              [[Stamp (midnight 2026 10 5); Stamp (midnight 2026 9 30)];
               [Stamp (midnight 2026 10 6); NA];
               [NA; Stamp (midnight 2026 10 9)];
               [Stamp (midnight 2026 9 7); Stamp (midnight 2000 1 31)]]));
    repeat constructor.
Defined.

(** *** Chronological order *)

Lemma ltb_spec a b :
  ltb a b = true <->
  year a < year b \/
  year a = year b /\
  (month a < month b \/
   month a = month b /\
   (day a < day b \/ day a = day b /\ tod a < tod b)).
Proof.
  unfold ltb, compare.
  destruct (Z.compare_spec (year a) (year b));
    [destruct (Z.compare_spec (month a) (month b));
     [destruct (Z.compare_spec (day a) (day b));
      [destruct (Z.compare_spec (tod a) (tod b))|..]|..]|..];
    (split; [intros ?; try done; lia | intros ?; try done; exfalso; lia]).
Qed.

Lemma leb_spec a b :
  leb a b = true <->
  year a < year b \/
  year a = year b /\
  (month a < month b \/
   month a = month b /\
   (day a < day b \/ day a = day b /\ tod a <= tod b)).
Proof.
  unfold leb, compare.
  destruct (Z.compare_spec (year a) (year b));
    [destruct (Z.compare_spec (month a) (month b));
     [destruct (Z.compare_spec (day a) (day b));
      [destruct (Z.compare_spec (tod a) (tod b))|..]|..]|..];
    (split; [intros ?; try done; lia | intros ?; try done; exfalso; lia]).
Qed.

Lemma in_month y m d1 d2 t :
  leb (midnight y m d1) t = true -> leb t (midnight y m d2) = true ->
  year t = y /\ month t = m /\ d1 <= day t <= d2.
Proof.
  rewrite !leb_spec. unfold midnight. cbn [year month day tod]. lia.
Qed.

Lemma in_window_month today t :
  in_window (reference_window today) t = true ->
  let first := fst (reference_window today) in
  year t = year first /\ month t = month first /\
  1 <= day t <= days_in_month (year first) (month first).
Proof.
  rewrite reference_window_prev_month. unfold in_window.
  intros H. apply andb_true_iff in H as [H1 H2].
  destruct (1 <? month today); cbn [fst snd] in *;
    apply (in_month _ _ _ _ _ H1 H2).
Qed.

(** X6.  The two temporal filters and the Reference Window agree: a timestamp
    inside the window of the month before [today]'s satisfies the Storage
    Ends predicate, whose cutoff is the first day of the window, and, in any
    run after the year 2000, the arrival predicate as well. *)
Theorem window_passes_filters (today t : datetime) :
  2000 < year today ->
  in_window (reference_window today) t = true ->
  first_of_prev_month today = fst (reference_window today) /\
  Spec.strictly_between today (Stamp t) = true /\
  Kept.storage_ends today (Stamp t) = true.
Proof.
  intros Hy H.
  assert (E : first_of_prev_month today = fst (reference_window today)).
  { rewrite reference_window_prev_month. unfold first_of_prev_month.
    by destruct (1 <? month today). }
  split; [done|].
  unfold Kept.storage_ends, Spec.strictly_between. rewrite E.
  unfold in_window in H. apply andb_true_iff in H as [H1 H2].
  rewrite H1, orb_true_r. split; [|done].
  revert H1 H2. rewrite reference_window_prev_month.
  rewrite andb_true_iff, !ltb_spec, !leb_spec.
  unfold lower_cutoff, upper_cutoff, midnight.
  destruct (1 <? month today) eqn:Hm; cbn [fst snd year month day tod];
    [apply Z.ltb_lt in Hm | apply Z.ltb_ge in Hm]; lia.
Qed.

Lemma window_passes_filters_witness :
  first_of_prev_month (DateTime 2026 1 15 0)
  = fst (reference_window (DateTime 2026 1 15 0)) /\
  Spec.strictly_between (DateTime 2026 1 15 0) (Stamp (DateTime 2025 12 31 0)) = true /\
  Kept.storage_ends (DateTime 2026 1 15 0) (Stamp (DateTime 2025 12 31 0)) = true.
Proof.
  apply (window_passes_filters (DateTime 2026 1 15 0) (DateTime 2025 12 31 0));
    [simpl; lia | reflexivity].
Defined.

(** X7.  The value of the Days In Storage formula on two dates of the
    Reference Window is the difference of their days of the month plus one:
    it is at most the number of days of the previous month, which is its
    value on the whole window, and it is more than minus that number. *)
Theorem days_in_storage_bounds (today s e : datetime) :
  in_window (reference_window today) s = true ->
  in_window (reference_window today) e = true ->
  let W := reference_window today in
  let n := days_in_month (year (fst W)) (month (fst W)) in
  days_in_storage (fst W) (snd W) = n /\
  days_in_storage s e = day e - day s + 1 /\
  2 - n <= days_in_storage s e <= n.
Proof.
  intros Hs He W n.
  apply in_window_month in Hs as (Ys & Ms & Ds).
  apply in_window_month in He as (Ye & Me & De).
  fold W in Ys, Ms, Ds, Ye, Me, De. fold n in Ds, De.
  assert (E : days_in_storage s e = day e - day s + 1).
  { unfold days_in_storage, ordinal. rewrite Ys, Ms, Ye, Me. lia. }
  split; [|split; [done|lia]].
  subst n W. rewrite reference_window_prev_month.
  unfold days_in_storage, ordinal, midnight.
  destruct (1 <? month today); cbn [fst snd year month day tod].
  - lia.
  - change (days_in_month (year today - 1) 12) with 31. lia.
Qed.

Lemma days_in_storage_bounds_witness :
  let W := reference_window (DateTime 2024 3 9 0) in
  let n := days_in_month (year (fst W)) (month (fst W)) in
  days_in_storage (fst W) (snd W) = n /\
  days_in_storage (DateTime 2024 2 29 0) (DateTime 2024 2 1 0)
  = day (DateTime 2024 2 1 0) - day (DateTime 2024 2 29 0) + 1 /\
  2 - n <= days_in_storage (DateTime 2024 2 29 0) (DateTime 2024 2 1 0) <= n.
Proof.
  apply (days_in_storage_bounds (DateTime 2024 3 9 0)
           (DateTime 2024 2 29 0) (DateTime 2024 2 1 0)); reflexivity.
Defined.

End TemporalMore.

(** ** StoragePeriodResolver: errors, untouched columns, composition *)

Section StorageMore.
Import Date Frame Storage Resolved.

Local Abbreviation A := "Arrived @ Warehouse".
Local Abbreviation SS := "Storage Starts".
Local Abbreviation SD := "Scheduled Date".
Local Abbreviation SE := "Storage Ends".

Lemma set_column_columns c vals df :
  columns (set_column c vals df)
  = columns df ++ (if has df c then [] else [c]).
Proof.
  unfold set_column, has.
  destruct (index_of c (columns df)) as [j|] eqn:E; simpl.
  - apply index_of_Some in E as [E _]. apply list_elem_of_lookup_2 in E.
    by rewrite bool_decide_eq_true_2, app_nil_r.
  - apply index_of_None in E. by rewrite bool_decide_eq_false_2.
Qed.

Lemma coerce_column_missing pd c df :
  c ∉ columns df -> coerce_column pd c df = Raise (KeyError c).
Proof.
  intros H. unfold coerce_column, column, has.
  by rewrite bool_decide_eq_false_2.
Qed.

(** X8.  The resolution of the consolidated table fails on a missing source
    column and on nothing else: it raises [KeyError] for
    Arrived @ Warehouse when that column is absent, for Scheduled Date when
    only that one is absent, and returns a table when both are present,
    whatever the cells hold. *)
Theorem resolve_raises_on_missing_source (pd : pandas) (today : datetime)
    (df : frame) :
  wf df ->
  match resolve pd today df with
  | Ok _ => A ∈ columns df /\ SD ∈ columns df
  | Raise e =>
      e = KeyError (if bool_decide (A ∈ columns df) then SD else A) /\
      ~ (A ∈ columns df /\ SD ∈ columns df)
  end.
Proof.
  intros Hwf.
  destruct (decide (A ∈ columns df)) as [HA|HA].
  - destruct (decide (SD ∈ columns df)) as [HSD|HSD].
    + destruct (resolve_total pd today df Hwf HA HSD) as [df' ->]. done.
    + unfold resolve. set (W := reference_window today). clearbody W.
      destruct (coerce_column_total pd A df HA) as [df1 E1].
      rewrite E1, bind_Ok.
      apply coerce_column_inv in E1 as (_ & _ & Hc1 & _); [|done].
      rewrite coerce_column_missing by (by rewrite Hc1).
      rewrite bool_decide_eq_true_2 by done. split; [done|tauto].
  - unfold resolve. rewrite coerce_column_missing by done.
    rewrite bool_decide_eq_false_2 by done. split; [done|tauto].
Qed.

Lemma resolve_raises_on_missing_source_witness :
  match resolve no_parse (DateTime 2026 11 3 0)
          (Frame [A; "Case #"] [[Text "n/a"; Num 7]]) with
  | Ok _ => A ∈ [A; "Case #"] /\ SD ∈ [A; "Case #"]
  | Raise e =>
      e = KeyError (if bool_decide (A ∈ [A; "Case #"]) then SD else A) /\
      ~ (A ∈ [A; "Case #"] /\ SD ∈ [A; "Case #"])
  end.
Proof.
  apply (resolve_raises_on_missing_source no_parse (DateTime 2026 11 3 0)
           (Frame [A; "Case #"] [[Text "n/a"; Num 7]])).
  repeat constructor.
Defined.

Lemma assign_from_columns W d src tgt df df' :
  assign_from W d src tgt df = Ok df' ->
  columns df' = columns df ++ (if has df tgt then [] else [tgt]).
Proof.
  intros H. apply assign_from_ok in H as [_ ->]. apply set_column_columns.
Qed.

Lemma resolve_cells pd today df df' :
  wf df -> resolve pd today df = Ok df' ->
  wf df' /\
  columns df' = columns df ++ (if has df SS then [] else [SS])
                           ++ (if has df SE then [] else [SE]) /\
  Forall2 (fun row row' =>
             forall c, get (columns df') row' c
                       = cell_of pd (reference_window today) (columns df) row c)
          (rows df) (rows df').
Proof.
  intros Hwf H. unfold resolve in H.
  set (W := reference_window today) in *. clearbody W.
  apply bind_Ok_inv in H as (df1 & E1 & H).
  apply bind_Ok_inv in H as (df2 & E2 & H).
  apply bind_Ok_inv in H as (df3 & E3 & H).
  pose proof (assign_from_columns _ _ _ _ _ _ E3) as C3.
  pose proof (assign_from_columns _ _ _ _ _ _ H) as C4.
  apply coerce_column_inv in E1 as (HA & Hwf1 & Hc1 & F1); [|done].
  apply coerce_column_inv in E2 as (HSD & Hwf2 & Hc2 & F2); [|done].
  apply assign_from_inv in E3 as (Hwf3 & Hm3 & _ & F3); [|done].
  apply assign_from_inv in H as (Hwf4 & Hm4 & _ & F4); [|done].
  rewrite Hc2, Hc1 in C3. rewrite Hc2, ?Hc1 in F2, F3. rewrite Hc1 in F1.
  split; [done|]. split.
  - rewrite C4, C3, <- app_assoc. do 2 f_equal.
    + unfold has. by rewrite Hc2, Hc1.
    + unfold has. rewrite C3. apply (f_equal (fun b : bool => if b then [] else [SE])).
      apply bool_decide_ext. rewrite elem_of_app.
      destruct (has df2 SS); [rewrite elem_of_nil; tauto|].
      rewrite list_elem_of_singleton. split; [intros [?|?]; done|tauto].
  - pose proof (Forall2_compose _ _ _ _ _ F1
                  (Forall2_compose _ _ _ _ _ F2
                     (Forall2_compose _ _ _ _ _ F3 F4))) as F.
    eapply Forall2_impl; [exact F|].
    intros row row' (r1 & [G1 O1] & r2 & [G2 O2] & r3 & (P3 & G3 & O3) & (P4 & G4 & O4)).
    simpl in *. intros c. unfold cell_of.
    case_bool_decide as ESS.
    { subst c. rewrite O4 by done. rewrite G3, O2 by done. by rewrite G1. }
    case_bool_decide as ESE.
    { subst c. rewrite G4, O3 by done. rewrite G2. by rewrite O1. }
    rewrite O4, O3 by done.
    case_bool_decide as E.
    + destruct E as [-> | ->].
      * rewrite O2 by done. done.
      * rewrite G2. by rewrite O1.
    + rewrite O2, O1; [done|tauto|tauto].
Qed.

(** X9.  The resolution of the consolidated table, cell by cell.  The result
    has the labels of the input, followed by Storage Starts and Storage
    Ends where the input lacks them, and as many records.  Under Storage
    Starts and Storage Ends it holds the clamped source dates, under the two
    source labels the source cells coerced to timestamps, and under every
    other label the cell of the input. *)
Theorem resolve_changes_four_columns (pd : pandas) (today : datetime)
    (df df' : frame) :
  wf df -> resolve pd today df = Ok df' ->
  columns df' = columns df ++ (if has df SS then [] else [SS])
                           ++ (if has df SE then [] else [SE]) /\
  length (rows df') = length (rows df) /\
  Forall2 (fun row row' =>
             forall c, get (columns df') row' c
                       = cell_of pd (reference_window today) (columns df) row c)
          (rows df) (rows df') /\
  (forall row c, c <> A -> c <> SD -> c <> SS -> c <> SE ->
     cell_of pd (reference_window today) (columns df) row c
     = get (columns df) row c).
Proof.
  intros Hwf H. apply resolve_cells in H as (_ & Hc & F); [|done].
  repeat split; try done.
  - symmetry. by eapply Forall2_length.
  - intros row c ? ? ? ?. unfold cell_of.
    rewrite !bool_decide_eq_false_2; tauto.
Qed.

Lemma resolve_changes_four_columns_witness :
  columns (Frame ["Store"; A; SD; SS; SE]
             [[Text "S1"; Stamp (midnight 2026 10 7); NA;
               Stamp (midnight 2026 10 7); Stamp (midnight 2026 10 31)]])
  = columns (Frame ["Store"; A; SD] [[Text "S1"; Stamp (midnight 2026 10 7); NA]])
    ++ (if has (Frame ["Store"; A; SD]
                  [[Text "S1"; Stamp (midnight 2026 10 7); NA]]) SS
        then [] else [SS])
    ++ (if has (Frame ["Store"; A; SD]
                  [[Text "S1"; Stamp (midnight 2026 10 7); NA]]) SE
        then [] else [SE]) /\
  length [[Text "S1"; Stamp (midnight 2026 10 7); NA;
           Stamp (midnight 2026 10 7); Stamp (midnight 2026 10 31)]]
  = length [[Text "S1"; Stamp (midnight 2026 10 7); NA]] /\
  Forall2 (fun row row' =>
             forall c, get ["Store"; A; SD; SS; SE] row' c
                       = cell_of no_parse (reference_window (DateTime 2026 11 3 0))
                           ["Store"; A; SD] row c)
          [[Text "S1"; Stamp (midnight 2026 10 7); NA]]
          [[Text "S1"; Stamp (midnight 2026 10 7); NA;
            Stamp (midnight 2026 10 7); Stamp (midnight 2026 10 31)]] /\
  (forall row c, c <> A -> c <> SD -> c <> SS -> c <> SE ->
     cell_of no_parse (reference_window (DateTime 2026 11 3 0)) ["Store"; A; SD] row c
     = get ["Store"; A; SD] row c).
Proof.
  apply (resolve_changes_four_columns no_parse (DateTime 2026 11 3 0)
           (Frame ["Store"; A; SD] [[Text "S1"; Stamp (midnight 2026 10 7); NA]])
           (Frame ["Store"; A; SD; SS; SE]
              [[Text "S1"; Stamp (midnight 2026 10 7); NA;
                Stamp (midnight 2026 10 7); Stamp (midnight 2026 10 31)]])).
  - repeat constructor.
  - vm_compute. reflexivity.
Defined.

(** X10.  The per-file resolution writes nowhere else: the labels and the
    number of records are unchanged, and a cell differs from the one it
    replaces only under Storage Starts, in a record set that has
    Arrived @ Warehouse and Storage Starts, or under Storage Ends, in one
    that has Scheduled Date and Storage Ends. *)
Theorem adjust_storage_writes_two_columns (today : datetime) (df df' : frame) :
  wf df -> adjust_storage today df = Ok df' ->
  columns df' = columns df /\
  length (rows df') = length (rows df) /\
  Forall2 (fun row row' =>
             forall c, (c = SS -> has df A && has df SS = false) ->
                       (c = SE -> has df SD && has df SE = false) ->
                       get (columns df) row' c = get (columns df) row c)
          (rows df) (rows df').
Proof.
  intros Hwf H. apply adjust_storage_other in H as (_ & Hc & F); [|done].
  repeat split; try done. symmetry. by eapply Forall2_length.
Qed.

Lemma adjust_storage_writes_two_columns_witness :
  columns (Frame ["Case #"; A; SS; SE]
             [[Text "K1"; NA; Stamp (midnight 2026 10 1); Text "tbd"]])
  = columns (Frame ["Case #"; A; SS; SE] [[Text "K1"; NA; NA; Text "tbd"]]) /\
  length [[Text "K1"; NA; Stamp (midnight 2026 10 1); Text "tbd"]]
  = length [[Text "K1"; NA; NA; Text "tbd"]] /\
  Forall2 (fun row row' =>
             forall c,
               (c = SS ->
                has (Frame ["Case #"; A; SS; SE] [[Text "K1"; NA; NA; Text "tbd"]]) A
                && has (Frame ["Case #"; A; SS; SE] [[Text "K1"; NA; NA; Text "tbd"]]) SS
                = false) ->
               (c = SE ->
                has (Frame ["Case #"; A; SS; SE] [[Text "K1"; NA; NA; Text "tbd"]]) SD
                && has (Frame ["Case #"; A; SS; SE] [[Text "K1"; NA; NA; Text "tbd"]]) SE
                = false) ->
               get ["Case #"; A; SS; SE] row' c = get ["Case #"; A; SS; SE] row c)
          [[Text "K1"; NA; NA; Text "tbd"]]
          [[Text "K1"; NA; Stamp (midnight 2026 10 1); Text "tbd"]].
Proof.
  apply (adjust_storage_writes_two_columns (DateTime 2026 11 3 0)
           (Frame ["Case #"; A; SS; SE] [[Text "K1"; NA; NA; Text "tbd"]])
           (Frame ["Case #"; A; SS; SE]
              [[Text "K1"; NA; Stamp (midnight 2026 10 1); Text "tbd"]])).
  - repeat constructor.
  - vm_compute. reflexivity.
Defined.

Lemma index_of_NoDup cols i c :
  NoDup cols -> cols !! i = Some c -> index_of c cols = Some i.
Proof.
  intros Hnd Hi.
  destruct (index_of_elem c cols) as [j Hj]; [by eapply list_elem_of_lookup_2|].
  rewrite Hj. f_equal. apply index_of_Some in Hj as [Hj _].
  eapply NoDup_lookup; eauto.
Qed.

(** With distinct labels a row is determined by its cells under the
    labels. *)
Lemma row_ext cols (r r' : list cell) :
  NoDup cols -> length r = length cols -> length r' = length cols ->
  (forall c, get cols r c = get cols r' c) -> r = r'.
Proof.
  intros Hnd Hl Hl' Hget. apply list_eq. intros i.
  destruct (cols !! i) as [c|] eqn:Hc.
  - specialize (Hget c). unfold get, at_pos in Hget.
    rewrite (index_of_NoDup _ _ _ Hnd Hc) in Hget.
    apply lookup_lt_Some in Hc.
    destruct (lookup_lt_is_Some_2 r i) as [x Hx]; [lia|].
    destruct (lookup_lt_is_Some_2 r' i) as [x' Hx']; [lia|].
    rewrite Hx, Hx' in *. simpl in Hget. by subst.
  - apply lookup_ge_None in Hc.
    rewrite (lookup_ge_None_2 r), (lookup_ge_None_2 r') by lia. done.
Qed.

Lemma resolve_missing pd today df :
  wf df -> ~ (A ∈ columns df /\ SD ∈ columns df) ->
  resolve pd today df
  = Raise (KeyError (if bool_decide (A ∈ columns df) then SD else A)).
Proof.
  intros Hwf Hno. unfold resolve.
  destruct (decide (A ∈ columns df)) as [HA|HA].
  - destruct (coerce_column_total pd A df HA) as [df1 E1].
    rewrite E1, bind_Ok.
    apply coerce_column_inv in E1 as (_ & _ & Hc1 & _); [|done].
    rewrite coerce_column_missing by (rewrite Hc1; tauto).
    by rewrite bool_decide_eq_true_2.
  - rewrite coerce_column_missing by done.
    by rewrite bool_decide_eq_false_2.
Qed.

Lemma Forall2_flip_rel {X Y} (R : X -> Y -> Prop) l k :
  Forall2 R l k -> Forall2 (fun y x => R x y) k l.
Proof. induction 1; constructor; auto. Qed.

(** X11.  The resolution of the consolidated table absorbs the per-file one: on
    a record set with distinct labels, resolving after the per-file
    resolution has run gives the table, or the exception, that resolving
    the untouched record set gives.  What the per-file resolution wrote is
    overwritten from the same source dates. *)
Theorem resolve_absorbs_adjust_storage (pd : pandas) (today : datetime)
    (df df1 : frame) :
  wf df -> NoDup (columns df) ->
  adjust_storage today df = Ok df1 ->
  resolve pd today df1 = resolve pd today df.
Proof.
  intros Hwf Hnd H.
  apply adjust_storage_other in H as (Hwf1 & Hc1 & F1); [|done].
  destruct (decide (A ∈ columns df /\ SD ∈ columns df)) as [[HA HSD]|Hno].
  2:{ rewrite !resolve_missing; rewrite ?Hc1; done. }
  destruct (resolve_total pd today df Hwf HA HSD) as [dfb Eb].
  destruct (resolve_total pd today df1 Hwf1) as [dfa Ea]; [by rewrite Hc1..|].
  rewrite Ea, Eb. f_equal.
  apply resolve_cells in Ea as (Hwfa & Hca & Fa); [|done].
  apply resolve_cells in Eb as (Hwfb & Hcb & Fb); [|done].
  assert (Hcols : columns dfa = columns dfb).
  { rewrite Hca, Hcb. unfold has. by rewrite Hc1. }
  assert (Hnd' : NoDup (columns dfb)).
  { rewrite Hcb. unfold has. apply NoDup_app. split; [done|]. split.
    - intros c Hc Hin. apply elem_of_app in Hin as [Hin|Hin].
      + case_bool_decide; [by apply elem_of_nil in Hin|].
        apply list_elem_of_singleton in Hin. by subst.
      + case_bool_decide; [by apply elem_of_nil in Hin|].
        apply list_elem_of_singleton in Hin. by subst.
    - repeat case_bool_decide; simpl;
        rewrite ?NoDup_cons, ?elem_of_cons, ?elem_of_nil;
        repeat split; try apply NoDup_nil_2; try tauto.
      intros [?|?]; done. }
  clear Hca. destruct dfa as [ca ra], dfb as [cb rb]. simpl in *.
  subst ca. clear Hcb. unfold wf in Hwfa, Hwfb. simpl in Hwfa, Hwfb. f_equal.
  apply list_eq_Forall2.
  pose proof (Forall2_compose _ _ _ _ _ (Forall2_flip_rel _ _ _ Fa)
                (Forall2_compose _ _ _ _ _ (Forall2_flip_rel _ _ _ F1) Fb)) as F.
  pose proof (Forall2_and_l _ _ _ _ Hwfa F) as F'.
  eapply Forall2_impl;
    [exact (Forall2_flip_rel _ _ _
              (Forall2_and_l _ _ _ _ Hwfb (Forall2_flip_rel _ _ _ F')))|].
  intros ra0 rb0 (Lb & La & r1 & Ga & r & G1 & Gb). simpl in *.
  apply (row_ext cb); [done|done|done|].
  intros c. rewrite Ga, Gb. rewrite Hc1. unfold Resolved.cell_of.
  rewrite (G1 A), (G1 SD) by done.
  repeat case_bool_decide; try done;
    (apply G1 || (apply (f_equal (to_datetime pd)); apply G1)); intros ->; done.
Qed.

Lemma resolve_absorbs_adjust_storage_witness :
  resolve no_parse (DateTime 2026 11 3 0)
    (Frame [A; SS; SD; SE]
       [[Stamp (midnight 2026 9 15); Stamp (midnight 2026 10 1);
         Stamp (midnight 2026 10 20); Stamp (midnight 2026 10 20)]])
  = resolve no_parse (DateTime 2026 11 3 0)
      (Frame [A; SS; SD; SE]
         [[Stamp (midnight 2026 9 15); Text "x"; Stamp (midnight 2026 10 20); NA]]).
Proof.
  apply (resolve_absorbs_adjust_storage no_parse (DateTime 2026 11 3 0)
           (Frame [A; SS; SD; SE]
              [[Stamp (midnight 2026 9 15); Text "x";
                Stamp (midnight 2026 10 20); NA]])
           (Frame [A; SS; SD; SE]
              [[Stamp (midnight 2026 9 15); Stamp (midnight 2026 10 1);
                Stamp (midnight 2026 10 20); Stamp (midnight 2026 10 20)]])).
  - repeat constructor.
  - apply (bool_decide_unpack (NoDup [A; SS; SD; SE])). vm_compute. exact I.
  - vm_compute. reflexivity.
Defined.

End StorageMore.

(** ** SchemaReconciler: renaming, order, pruning, records *)

Section ReconcileMore.
Import Frame Reconcile.

Lemma before_underscore_clean s :
  PyStr.contains "_" (before_underscore s) = false.
Proof.
  induction s as [|c s IH]; [done|]. simpl.
  case_bool_decide as E; [done|].
  rewrite contains_underscore_cons, IH.
  by rewrite bool_decide_eq_false_2.
Qed.

(** X12.  After the renaming of line 441 no label contains an underscore, so
    that renaming twice is renaming once; the labels of COLUMN_ORDER are
    left as they are. *)
Theorem clean_name_no_underscore (col : string) :
  PyStr.contains "_" (clean_name col) = false /\
  clean_name (clean_name col) = clean_name col /\
  Forall (fun c => clean_name c = c) COLUMN_ORDER.
Proof.
  assert (H : PyStr.contains "_" (clean_name col) = false).
  { unfold clean_name. destruct (PyStr.contains "_" col) eqn:E; [|done].
    apply before_underscore_clean. }
  split; [done|]. split.
  - unfold clean_name at 1. by rewrite H.
  - apply (bool_decide_unpack _). vm_compute. reflexivity.
Qed.

Lemma bind_replicate_ext (f g : string -> nat) (l : list string) :
  (forall c, c ∈ l -> f c = g c) ->
  l ≫= (fun c => replicate (f c) c) = l ≫= (fun c => replicate (g c) c).
Proof.
  induction l as [|c l IH]; intros H; [done|].
  rewrite !bind_cons, H by left. f_equal. apply IH.
  intros c' Hc'. apply H. by right.
Qed.

Lemma bind_filter_replicate (f : string -> nat) (P : string -> Prop)
    `{!forall c, Decision (P c)} (l : list string) :
  (forall c, ~ P c -> f c = 0%nat) ->
  filter P l ≫= (fun c => replicate (f c) c) = l ≫= (fun c => replicate (f c) c).
Proof.
  intros Hf. induction l as [|c l IH]; [done|].
  rewrite filter_cons, bind_cons. destruct (decide (P c)) as [Hc|Hc].
  - rewrite bind_cons. by f_equal.
  - rewrite Hf by done. done.
Qed.

Lemma reorder_columns_eq df :
  columns (reorder df)
  = COLUMN_ORDER ≫= (fun c => replicate (occurrences c (columns df)) c).
Proof.
  unfold reorder. rewrite take_columns_columns.
  apply (bind_filter_replicate (fun c => occurrences c (columns df))
           (fun c => c ∈ columns df)).
  intros c Hc. by apply occurrences_absent.
Qed.

(** X13.  The labels of the consolidated table follow COLUMN_ORDER: they are the
    labels of COLUMN_ORDER in that order, each one as many times as the
    table carries it (not at all, once, or several times side by side). *)
Theorem consolidated_labels_in_order (pd : pandas) (data_frames : list frame)
    (T : frame) :
  _consolidate_dataframes pd data_frames = Ok T ->
  columns T
  = COLUMN_ORDER ≫= (fun c => replicate (occurrences c (columns T)) c).
Proof.
  intros H. unfold _consolidate_dataframes in H.
  apply bind_Ok_inv in H as (df1 & _ & H).
  apply bind_Ok_inv in H as (df2 & _ & H). injection H as <-.
  rewrite reorder_columns_eq at 1.
  apply bind_replicate_ext. intros c Hc. symmetry.
  by apply reorder_occurrences.
Qed.

Lemma consolidated_labels_in_order_witness :
  columns (Frame ["Case #"; "Case #"; "Serial #"] [[Text "a"; Text "b"; Text "s"]])
  = COLUMN_ORDER ≫=
      (fun c => replicate
                  (occurrences c
                     (columns (Frame ["Case #"; "Case #"; "Serial #"]
                                 [[Text "a"; Text "b"; Text "s"]]))) c).
Proof.
  apply (consolidated_labels_in_order no_parse
           [Frame ["Serial #"; "Case #"; "Case #_1"; "Note"]
              [[Text "s"; Text "a"; Text "b"; Text "n"]]]).
  vm_compute. reflexivity.
Defined.

Lemma select_app {X} (m1 m2 : list bool) (l1 l2 : list X) :
  length m1 = length l1 ->
  select (m1 ++ m2) (l1 ++ l2) = select m1 l1 ++ select m2 l2.
Proof.
  revert l1. induction m1 as [|b m1 IH]; intros [|x l1] Hl; simpl in *; try done.
  destruct b; simpl; rewrite IH by lia; done.
Qed.

Lemma select_none {X} n (l : list X) : select (replicate n false) l = [].
Proof.
  revert l. induction n as [|n IH]; intros [|x l]; simpl; auto.
Qed.

Lemma holds_value_outside df n k :
  wf df -> (length (columns df) <= n)%nat ->
  map (holds_value df) (seq n k) = replicate k false.
Proof.
  intros Hwf. revert n. induction k as [|k IH]; intros n Hn; simpl; [done|].
  rewrite IH by lia. f_equal.
  destruct (holds_value df n) eqn:E; [|done].
  apply holds_value_lt in E; [lia|done].
Qed.

(** X14.  Lines 430-435 taken together: adding the missing labels as all-missing
    columns and then dropping the all-missing columns is the same as
    dropping the all-missing columns of the record set as it was.  No
    column is ever added by the alignment. *)
Theorem widen_then_prune (all : gset string) (df : frame) :
  wf df -> dropna_all (widen all df) = dropna_all df.
Proof.
  intros Hwf. destruct (widen_spec all df) as (extra & Hc & Hr).
  unfold dropna_all.
  rewrite (map_ext _ _ (holds_value_widen all df)).
  rewrite Hc, Hr, length_app, seq_app, map_app. simpl.
  rewrite (holds_value_outside df (length (columns df))) by (done || lia).
  f_equal.
  - rewrite select_app by (by rewrite length_map, length_seq).
    by rewrite select_none, app_nil_r.
  - rewrite map_map. apply map_ext_Forall.
    eapply Forall_impl; [exact Hwf|]. intros row Hr'. simpl in *.
    rewrite select_app by (by rewrite length_map, length_seq).
    by rewrite select_none, app_nil_r.
Qed.

Lemma widen_then_prune_witness :
  dropna_all (widen {["Case #"; "Note"; "Serial #"]}
                (Frame ["Case #"; "Note"] [[Text "A1"; NA]]))
  = dropna_all (Frame ["Case #"; "Note"] [[Text "A1"; NA]]).
Proof.
  apply (widen_then_prune {["Case #"; "Note"; "Serial #"]}
           (Frame ["Case #"; "Note"] [[Text "A1"; NA]])).
  repeat constructor.
Defined.

Lemma length_bind_rows {X Y} (f : X -> list Y) (l : list X) :
  length (l ≫= f) = sum_list (map (fun x => length (f x)) l).
Proof.
  induction l as [|x l IH]; [done|].
  rewrite bind_cons, length_app, IH. done.
Qed.

Lemma concat_rows dfs T :
  concat dfs = Ok T ->
  length (rows T) = sum_list (map (fun df => length (rows df)) dfs).
Proof.
  unfold concat. destruct dfs as [|df0 rest]; [done|].
  destruct (forallb _ rest).
  - intros [= <-]. apply (length_bind_rows rows (df0 :: rest)).
  - destruct (forallb _ _); [|done]. intros [= <-].
    etrans; [apply (length_bind_rows
                      (fun df => map (reindex (columns df) (union_columns (df0 :: rest)))
                                   (rows df)) (df0 :: rest))|].
    f_equal. apply map_ext. intros df. by rewrite length_map.
Qed.

Lemma map_column_rows c f df :
  length (rows (map_column c f df)) = length (rows df).
Proof.
  unfold map_column. destruct (index_of c (columns df)); [|done].
  simpl. by rewrite length_map.
Qed.

Lemma format_date_rows pd df col df' :
  format_date pd df col = Ok df' -> length (rows df') = length (rows df).
Proof.
  unfold format_date. destruct (has df col); [|by intros [= <-]].
  case_bool_decide; [|done]. intros [= <-]. apply map_column_rows.
Qed.

Lemma format_dates_fold_rows pd cols : forall acc df',
  foldl (fun acc col => df ← acc; format_date pd df col) acc cols = Ok df' ->
  exists df, acc = Ok df /\ length (rows df') = length (rows df).
Proof.
  induction cols as [|col cols IH]; simpl; intros acc df' H; [eauto|].
  apply IH in H as (df1 & H & Hl).
  apply bind_Ok_inv in H as (df & -> & H).
  exists df. split; [done|]. rewrite Hl. by eapply format_date_rows.
Qed.

Lemma format_date_columns_rows pd df df' :
  format_date_columns pd df = Ok df' -> length (rows df') = length (rows df).
Proof.
  unfold format_date_columns. intros H.
  apply bind_Ok_inv in H as (df1 & H1 & H).
  apply format_dates_fold_rows in H1 as (df0 & [= <-] & Hl).
  destruct (has df1 _); [|by injection H as <-].
  case_bool_decide; [|done]. injection H as <-.
  by rewrite map_column_rows.
Qed.

Lemma reorder_rows df : length (rows (reorder df)) = length (rows df).
Proof. unfold reorder, take_columns. cbn [rows]. by rewrite length_map. Qed.

Lemma reindexed_rows data_frames :
  sum_list (map (fun df => length (rows df)) (reindexed data_frames))
  = sum_list (map (fun df => length (rows df)) data_frames).
Proof.
  unfold reindexed. rewrite map_map.
  f_equal. apply map_ext. intros df. unfold dropna_all. cbn [rows].
  rewrite length_map.
  destruct (widen_spec (all_columns data_frames) df) as (extra & _ & ->).
  by rewrite length_map.
Qed.

(** X15.  Consolidation neither loses nor repeats a record: the consolidated
    table has as many records as the record sets it was given have
    together. *)
Theorem consolidation_keeps_every_record (pd : pandas)
    (data_frames : list frame) (T : frame) :
  _consolidate_dataframes pd data_frames = Ok T ->
  length (rows T) = sum_list (map (fun df => length (rows df)) data_frames).
Proof.
  intros H. unfold _consolidate_dataframes in H.
  apply bind_Ok_inv in H as (df1 & H1 & H).
  apply bind_Ok_inv in H as (df2 & H2 & H). injection H as <-.
  apply concat_rows in H1. apply format_date_columns_rows in H2.
  rewrite reorder_rows, H2. cbn [rename rows]. rewrite H1.
  apply reindexed_rows.
Qed.

Lemma consolidation_keeps_every_record_witness :
  length (rows (Frame ["Case #"; "Serial #"]
                  [[Text "A1"; NA]; [Text "A2"; NA]; [Text "B1"; Text "S9"]]))
  = sum_list (map (fun df => length (rows df))
                [Frame ["Case #"; "Note"] [[Text "A1"; NA]; [Text "A2"; Text "n"]];
                 Frame ["Case #"; "Serial #"] [[Text "B1"; Text "S9"]]]).
Proof.
  apply (consolidation_keeps_every_record no_parse
           [Frame ["Case #"; "Note"] [[Text "A1"; NA]; [Text "A2"; Text "n"]];
            Frame ["Case #"; "Serial #"] [[Text "B1"; Text "S9"]]]).
  vm_compute. reflexivity.
Defined.

Lemma map_column_get c f df :
  wf df -> c ∈ columns df ->
  wf (map_column c f df) /\
  Forall2 (fun row row' =>
             get (columns df) row' c = f (get (columns df) row c) /\
             forall c', c' <> c -> get (columns df) row' c' = get (columns df) row c')
          (rows df) (rows (map_column c f df)).
Proof.
  intros Hwf Hc. unfold map_column.
  destruct (index_of_elem _ _ Hc) as [j Hj]. rewrite Hj. cbn [rows columns].
  pose proof (index_of_Some _ _ _ Hj) as [Hcj _].
  apply lookup_lt_Some in Hcj. split.
  - unfold wf in *. cbn [rows columns]. rewrite Forall_map.
    eapply Forall_impl; [exact Hwf|]. intros row Hr. simpl.
    by rewrite length_alter.
  - apply Forall2_fmap_r, Forall_Forall2_diag.
    eapply Forall_impl; [exact Hwf|]. intros row Hr. simpl in Hr. split.
    + unfold get, at_pos. rewrite Hj, list_lookup_alter_eq.
      destruct (lookup_lt_is_Some_2 row j) as [x ->]; [lia|]. done.
    + intros c' Hne. unfold get, at_pos.
      destruct (index_of c' (columns df)) as [j'|] eqn:E; [|done].
      rewrite list_lookup_alter_ne; [done|].
      intros <-. apply index_of_Some in Hj as [H1 _].
      apply index_of_Some in E as [H2 _]. congruence.
Qed.

Lemma format_date_step pd df col df' :
  wf df -> format_date pd df col = Ok df' ->
  wf df' /\ columns df' = columns df /\
  Forall2 (fun row row' =>
             get (columns df) row' col
             = date_only (to_datetime pd (get (columns df) row col)) /\
             forall c', c' <> col -> get (columns df) row' c' = get (columns df) row c')
          (rows df) (rows df').
Proof.
  intros Hwf H. pose proof (format_date_columns_ok _ _ _ _ H) as Hc.
  unfold format_date in H. destruct (has df col) eqn:Hh.
  - case_bool_decide; [|done]. injection H as <-.
    apply has_true in Hh.
    destruct (map_column_get col (fun c => date_only (to_datetime pd c)) df Hwf Hh).
    done.
  - injection H as <-. repeat split; try done.
    apply Forall_Forall2_diag, Forall_true. intros row. split; [|done].
    unfold get. replace (index_of col (columns df)) with (@None nat); [done|].
    symmetry. apply index_of_None. intros Hin. apply has_true in Hin. congruence.
Qed.

Lemma format_dates_fold_cells pd labels : forall df df',
  NoDup labels -> wf df ->
  foldl (fun acc col => df ← acc; format_date pd df col) (Ok df) labels = Ok df' ->
  wf df' /\ columns df' = columns df /\
  Forall2 (fun row row' =>
             forall c, get (columns df) row' c
                       = if bool_decide (c ∈ labels)
                         then date_only (to_datetime pd (get (columns df) row c))
                         else get (columns df) row c)
          (rows df) (rows df').
Proof.
  induction labels as [|col labels IH]; intros df df' Hnd Hwf H.
  - injection H as <-. repeat split; try done.
    apply Forall_Forall2_diag, Forall_true. done.
  - apply NoDup_cons in Hnd as [Hcol Hnd]. simpl in H.
    destruct (format_dates_fold _ _ _ _ H) as (df1 & E1 & _).
    rewrite E1 in H. apply format_date_step in E1 as (Hwf1 & Hc1 & F1); [|done].
    apply IH in H as (Hwf' & Hc' & F'); [|done|done].
    rewrite Hc1 in Hc', F'. repeat split; try done.
    eapply Forall2_impl; [exact (Forall2_compose _ _ _ _ _ F1 F')|].
    intros row row' (r1 & [G1 O1] & G') c. simpl in *. rewrite G'.
    destruct (decide (c = col)) as [->|Hne].
    + rewrite bool_decide_eq_false_2 by done.
      rewrite bool_decide_eq_true_2 by left. done.
    + rewrite O1 by done. apply (f_equal (fun b : bool => if b then _ else _)).
      apply bool_decide_ext. rewrite elem_of_cons. tauto.
Qed.

(** X16.  [format_date_columns], cell by cell: the labels and the number of
    records are kept; under each label of DATE_COLUMNS the cell is coerced
    to a timestamp and cut to its date, so that it is missing or a
    timestamp at midnight; under Scheduled Time it is cleaned up as a time
    string; every other cell is unchanged. *)
Theorem format_date_columns_cells (pd : pandas) (df df' : frame) :
  wf df -> format_date_columns pd df = Ok df' ->
  columns df' = columns df /\
  Forall2 (fun row row' =>
             forall c, c ∈ columns df ->
                       get (columns df) row' c
                       = Formatted.cell_of pd (columns df) row c)
          (rows df) (rows df') /\
  (forall row c, c ∈ DATE_COLUMNS ->
     match Formatted.cell_of pd (columns df) row c with
     | NA => True
     | Stamp t => Date.tod t = 0
     | Text _ | Num _ => False
     end).
Proof.
  intros Hwf H. split; [by eapply format_date_columns_labels|]. split.
  - unfold format_date_columns in H.
    apply bind_Ok_inv in H as (df1 & H1 & H).
    apply format_dates_fold_cells in H1 as (Hwf1 & Hc1 & F1);
      [|by apply (bool_decide_unpack _)|done].
    destruct (has df1 "Scheduled Time") eqn:Hh.
    + case_bool_decide; [|done]. injection H as <-.
      apply has_true in Hh.
      destruct (map_column_get "Scheduled Time" (format_time pd) df1 Hwf1 Hh)
        as [_ F2].
      rewrite Hc1 in F2.
      eapply Forall2_impl; [exact (Forall2_compose _ _ _ _ _ F1 F2)|].
      intros row row' (r1 & G1 & [G2 O2]) c _. simpl in *.
      unfold Formatted.cell_of. case_bool_decide as ED.
      * rewrite O2, G1; [by rewrite bool_decide_eq_true_2|].
        intros ->. revert ED. apply (bool_decide_unpack _). by vm_compute.
      * case_bool_decide as ES.
        -- subst c. rewrite G2, G1. by rewrite bool_decide_eq_false_2.
        -- rewrite O2, G1 by done. by rewrite bool_decide_eq_false_2.
    + injection H as <-.
      eapply Forall2_impl; [exact F1|].
      intros row row' G1 c Hc. simpl in *. rewrite G1.
      unfold Formatted.cell_of. case_bool_decide; [done|].
      rewrite bool_decide_eq_false_2; [done|].
      intros ->. rewrite <- Hc1 in Hc. apply has_true in Hc. congruence.
  - intros row c Hc. unfold Formatted.cell_of.
    rewrite bool_decide_eq_true_2 by done.
    pose proof (to_datetime_date pd (get (columns df) row c)) as Hd.
    by destruct (to_datetime pd _).
Qed.

Lemma format_date_columns_cells_witness :
  columns (Frame ["Case #"; "Storage Ends"]
             [[Text "A1"; Stamp (Date.DateTime 2026 10 7 0)]])
  = columns (Frame ["Case #"; "Storage Ends"]
               [[Text "A1"; Stamp (Date.DateTime 2026 10 7 52200000000)]]) /\
  Forall2 (fun row row' =>
             forall c, c ∈ ["Case #"; "Storage Ends"] ->
                       get ["Case #"; "Storage Ends"] row' c
                       = Formatted.cell_of no_parse ["Case #"; "Storage Ends"] row c)
          [[Text "A1"; Stamp (Date.DateTime 2026 10 7 52200000000)]]
          [[Text "A1"; Stamp (Date.DateTime 2026 10 7 0)]] /\
  (forall row c, c ∈ DATE_COLUMNS ->
     match Formatted.cell_of no_parse ["Case #"; "Storage Ends"] row c with
     | NA => True
     | Stamp t => Date.tod t = 0
     | Text _ | Num _ => False
     end).
Proof.
  apply (format_date_columns_cells no_parse
           (Frame ["Case #"; "Storage Ends"]
              [[Text "A1"; Stamp (Date.DateTime 2026 10 7 52200000000)]])
           (Frame ["Case #"; "Storage Ends"]
              [[Text "A1"; Stamp (Date.DateTime 2026 10 7 0)]])).
  - repeat constructor.
  - vm_compute. reflexivity.
Defined.

End ReconcileMore.

(** ** SheetNamer: the counter and the characters of a title *)

Section SheetMore.
Import Sheets Titles.

Local Abbreviation chars := String.list_ascii_of_string.

(** X17.  [make_unique_title] returns the title itself when it is free, and
    else the candidate with the smallest counter, from 2 on, that is free;
    that counter is at most the number of titles in use plus two.  The
    candidates are built from [base_title], so that for the empty base
    title, whose title is "Sheet", they are " (2)", " (3)", ... *)
Theorem make_unique_title_smallest_counter (base_title : string)
    (existing : gset string) :
  let title := if bool_decide (base_title = EmptyString) then "Sheet" else base_title in
  (title ∉ existing ->
   make_unique_title base_title existing = Some (title, {[title]} ∪ existing)) /\
  (title ∈ existing ->
   exists k, (2 <= k <= size existing + 2)%nat /\
     make_unique_title base_title existing
     = Some (candidate base_title k, {[candidate base_title k]} ∪ existing) /\
     (candidate base_title k ∉ existing) /\
     forall j, (2 <= j < k)%nat -> candidate base_title j ∈ existing) /\
  (forall i, candidate EmptyString i = suffix i).
Proof.
  intros title. split; [|split].
  3:{ intros i. unfold candidate, PyStr.slice_to.
      by destruct (0 <=? _); destruct (Z.to_nat _). }
  - intros Hout. unfold make_unique_title. fold title.
    by rewrite bool_decide_eq_false_2.
  - intros Hin. unfold make_unique_title. fold title.
    rewrite bool_decide_eq_true_2 by done.
    destruct (free_candidate base_title existing 2) as (k & Hk & Hfree & Hbusy).
    exists k. split; [lia|]. split; [by apply unique_loop_found|done].
Qed.

Lemma make_unique_title_shape base (E E' : gset string) t :
  make_unique_title base E = Some (t, E') ->
  t = (if bool_decide (base = EmptyString) then "Sheet" else base) \/
  exists k, t = candidate base k.
Proof.
  unfold make_unique_title. case_bool_decide as Hin.
  - destruct (free_candidate base E 2) as (k & Hk & Hfree & Hbusy).
    rewrite (unique_loop_found _ _ _ _ k) by done.
    intros [= <- _]. eauto.
  - intros [= <- _]. by left.
Qed.

Lemma chars_rev_app s1 : forall s2,
  chars (String.rev_app s1 s2) = rev (chars s1) ++ chars s2.
Proof.
  induction s1 as [|c s1 IH]; intros s2; simpl; [done|].
  rewrite IH. simpl. by rewrite <- app_assoc.
Qed.

Lemma clean_rev s : clean s -> clean (String.rev s).
Proof.
  unfold clean, String.rev. rewrite chars_rev_app. simpl. rewrite app_nil_r.
  apply Forall_rev.
Qed.

Lemma clean_lstrip_apostrophes s : clean s -> clean (lstrip_apostrophes s).
Proof.
  unfold clean. induction s as [|c s IH]; simpl; [done|].
  intros H. case_bool_decide; [|done]. apply IH. by inversion H.
Qed.

Lemma clean_substring n : forall s, clean s -> clean (String.substring 0 n s).
Proof.
  unfold clean. induction n as [|n IH]; intros [|c s] H; simpl; try constructor.
  - by inversion H.
  - apply IH. by inversion H.
Qed.

Lemma clean_slice_to s k : clean s -> clean (PyStr.slice_to s k).
Proof. unfold PyStr.slice_to. destruct (0 <=? k); apply clean_substring. Qed.

Lemma clean_replace_invalid s : clean (replace_invalid s).
Proof.
  unfold clean. induction s as [|c s IH]; simpl; constructor; [|done].
  destruct (invalid_char c) eqn:E; [reflexivity|done].
Qed.

Lemma clean_remove_invalid s : clean (remove_invalid s).
Proof.
  unfold clean. induction s as [|c s IH]; simpl; [constructor|].
  destruct (invalid_char c) eqn:E; [done|]. simpl. by constructor.
Qed.

Lemma clean_app a b : clean a -> clean b -> clean (a +:+ b).
Proof. unfold clean. rewrite chars_app. apply Forall_app_2. Qed.

Lemma digit_valid c : is_digit c = true -> invalid_char c = false.
Proof.
  intros H. unfold invalid_char. apply bool_decide_eq_false_2. intros Hin.
  repeat (apply elem_of_cons in Hin as [->|Hin]; [done|]).
  by apply elem_of_nil in Hin.
Qed.

Lemma clean_of_nat i : clean (PyStr.of_nat i).
Proof.
  unfold clean. eapply Forall_impl; [apply of_nat_digits|].
  intros c. apply digit_valid.
Qed.

Lemma clean_candidate base i : clean base -> clean (candidate base i).
Proof.
  intros H. unfold candidate, suffix.
  apply clean_app; [by apply clean_slice_to|].
  apply clean_app; [repeat constructor|].
  apply clean_app; [apply clean_of_nat|repeat constructor].
Qed.

Lemma clean_base_label name : clean (base_label name).
Proof.
  unfold base_label. case_bool_decide; [repeat constructor|].
  apply clean_slice_to. unfold strip_apostrophes.
  apply clean_rev, clean_lstrip_apostrophes, clean_rev, clean_lstrip_apostrophes.
  apply clean_replace_invalid.
Qed.

Lemma candidate_nonempty base i : candidate base i <> EmptyString.
Proof.
  intros E. apply (f_equal chars) in E. unfold candidate in E.
  rewrite chars_app, suffix_chars in E. simpl in E.
  by destruct (chars (PyStr.slice_to base _)).
Qed.

(** X18.  Every title given to a store sheet is non-empty and free of the
    characters a workbook refuses in a sheet title, also when a counter has
    been appended to it. *)
Theorem assigned_titles_valid (stores : list string)
    (existing_titles existing' : gset string) (titles : list string) :
  assign_titles stores existing_titles = Some (titles, existing') ->
  Forall (fun t => clean t /\ t <> EmptyString) titles.
Proof.
  revert existing_titles existing' titles.
  induction stores as [|store rest IH]; intros E E' titles H; simpl in H.
  - injection H as <- _. constructor.
  - unfold sanitize_sheet_title in H.
    destruct (make_unique_title (base_label store) E) as [[t E1]|] eqn:Ht;
      simpl in H; [|done].
    destruct (assign_titles rest E1) as [[ts E2]|] eqn:Hr; simpl in H; [|done].
    injection H as <- _. constructor; [|by eapply IH].
    pose proof (base_label_nonempty store) as Hne.
    apply make_unique_title_shape in Ht as [->|[k ->]].
    + rewrite bool_decide_eq_false_2 by done.
      split; [apply clean_base_label|done].
    + split; [apply clean_candidate, clean_base_label|apply candidate_nonempty].
Qed.

Lemma assigned_titles_valid_witness :
  Forall (fun t => clean t /\ t <> EmptyString) ["A-B"; "A-B (2)"; "Sheet"].
Proof.
  apply (assigned_titles_valid ["A/B"; "A:B"; "'"] {["Master"]}
           ({["Sheet"]} ∪ ({["A-B (2)"]} ∪ ({["A-B"]} ∪ {["Master"]})))).
  vm_compute. reflexivity.
Defined.

(** X19.  The title built for a store by [create_individual_store_sheets] has at
    most 31 characters, none of them invalid in a sheet title. *)
Theorem sheet_name_valid (today : Date.datetime) (store : string) :
  (String.length (sheet_name today store) <= 31)%nat /\
  clean (sheet_name today store).
Proof.
  unfold sheet_name. split.
  - apply length_substring.
  - apply clean_slice_to, clean_remove_invalid.
Qed.

End SheetMore.

(** ** RunDriver: counters, the written table, the exit status *)

Section DriverMore.
Import Frame Driver.

Local Abbreviation kept := (fun r : option frame => if usable r then option_list r else []).

Lemma count_file_tally t r :
  all_data_frames (count_file t r) = all_data_frames t ++ kept r /\
  processed_files (count_file t r)
  = (processed_files t + length (kept r))%nat /\
  (processed_files (count_file t r) + skipped_files (count_file t r)
   = S (processed_files t + skipped_files t))%nat.
Proof.
  destruct r as [df|]; simpl.
  - destruct (empty df); simpl; rewrite ?app_nil_r; repeat split; lia.
  - rewrite app_nil_r. repeat split; lia.
Qed.

Lemma count_files_tally files : forall t,
  let t' := foldl count_file t files in
  all_data_frames t' = all_data_frames t ++ files ≫= kept /\
  processed_files t' = (processed_files t + length (files ≫= kept))%nat /\
  (processed_files t' + skipped_files t'
   = processed_files t + skipped_files t + length files)%nat.
Proof.
  induction files as [|r files IH]; intros t t'; subst t'; cbn [foldl].
  - simpl. rewrite app_nil_r. repeat split; lia.
  - destruct (IH (count_file t r)) as (H1 & H2 & H3).
    destruct (count_file_tally t r) as (G1 & G2 & G3).
    rewrite bind_cons, length_app. cbn [length].
    cbv beta in *. split; [by rewrite H1, G1, <- app_assoc|]. split; lia.
Qed.

Lemma scan_tally folders : forall t,
  let t' := foldl (fun t folder =>
                     match folder with
                     | None => t
                     | Some files => foldl count_file t files
                     end) t folders in
  all_data_frames t' = all_data_frames t ++ outcomes folders ≫= kept /\
  processed_files t'
  = (processed_files t + length (outcomes folders ≫= kept))%nat /\
  (processed_files t' + skipped_files t'
   = processed_files t + skipped_files t + length (outcomes folders))%nat.
Proof.
  induction folders as [|folder folders IH]; intros t t'; subst t'; cbn [foldl].
  - simpl. rewrite app_nil_r. repeat split; lia.
  - change (outcomes (folder :: folders))
      with (default [] folder ++ outcomes folders).
    rewrite bind_app, !length_app.
    destruct folder as [files|]; simpl.
    + destruct (IH (foldl count_file t files)) as (H1 & H2 & H3).
      destruct (count_files_tally files t) as (G1 & G2 & G3).
      cbv beta in *. split; [by rewrite H1, G1, <- app_assoc|]. split; lia.
    + apply IH.
Qed.

(** X20.  The bookkeeping of [process_folders]: the record sets handed to the
    consolidation are those of the usable files, in processing order;
    [processed_files] counts them, and every file of an existing folder is
    counted once, as processed or as skipped. *)
Theorem scan_counts_every_file (folders : list (option (list (option frame)))) :
  all_data_frames (scan folders)
  = outcomes folders ≫= (fun r => if usable r then option_list r else []) /\
  processed_files (scan folders) = length (all_data_frames (scan folders)) /\
  (processed_files (scan folders) + skipped_files (scan folders)
   = length (outcomes folders))%nat.
Proof.
  destruct (scan_tally folders (Tally [] 0 0)) as (H1 & H2 & H3).
  simpl in *. unfold scan. split; [done|]. split; [|done].
  by rewrite H2, H1.
Qed.

Lemma drop_columns_labels labels df c :
  c ∈ columns (drop_columns labels df) <-> c ∈ columns df /\ c ∉ labels.
Proof.
  unfold drop_columns. cbn [columns]. rewrite select_elem. split.
  - intros (j & Hm & Hc). rewrite list_lookup_fmap, Hc in Hm.
    simpl in Hm. injection Hm as Hm. apply bool_decide_eq_true in Hm.
    split; [by eapply list_elem_of_lookup_2|done].
  - intros [Hc Hl]. apply list_elem_of_lookup_1 in Hc as [j Hj].
    exists j. split; [|done]. rewrite list_lookup_fmap, Hj. simpl.
    by rewrite bool_decide_eq_true_2.
Qed.

Lemma drop_columns_rows labels df :
  length (rows (drop_columns labels df)) = length (rows df).
Proof. unfold drop_columns. cbn [rows]. by rewrite length_map. Qed.

Lemma inject_formulas_ok df :
  inject_formulas df = Ok tt <->
  rows df = [] \/ Forall (fun c => c ∈ columns df) formula_columns.
Proof.
  unfold inject_formulas. destruct (rows df) as [|row rs]; [tauto|].
  destruct (filter _ formula_columns) as [|c l] eqn:E.
  - split; [|done]. intros _. right. apply Forall_forall. intros c Hc.
    destruct (decide (c ∈ columns df)) as [|Hn]; [done|].
    assert (Hin : c ∈ filter (fun c => c ∉ columns df) formula_columns)
      by (by apply list_elem_of_filter).
    rewrite E in Hin. by apply elem_of_nil in Hin.
  - split; [done|]. intros [?|HF]; [done|]. exfalso.
    assert (Hin : c ∈ filter (fun c => c ∉ columns df) formula_columns)
      by (rewrite E; left).
    apply list_elem_of_filter in Hin as [Hn Hc].
    rewrite Forall_forall in HF. by apply Hn, HF.
Qed.

Local Abbreviation A := "Arrived @ Warehouse".
Local Abbreviation SS := "Storage Starts".
Local Abbreviation SD := "Scheduled Date".
Local Abbreviation SE := "Storage Ends".

(** X21.  What [save_consolidated_report] writes for a table that has the two
    source columns: a table with as many records, whose labels are those of
    the input together with Storage Starts and Storage Ends, less the
    labels of [columns_to_hide].  The call then ends normally exactly when
    the table has no record or carries all six labels the formulas look
    up. *)
Theorem saved_table_labels (pd : pandas) (today : Date.datetime) (df : frame) :
  wf df -> A ∈ columns df -> SD ∈ columns df ->
  exists T,
    fst (save_consolidated_report pd today df) = Some T /\
    (forall c, c ∈ columns T <->
               (c ∉ columns_to_hide) /\ (c ∈ columns df \/ c = SS \/ c = SE)) /\
    length (rows T) = length (rows df) /\
    (snd (save_consolidated_report pd today df) = Ok tt <->
     rows df = [] \/ Forall (fun c => c ∈ columns T) formula_columns).
Proof.
  intros Hwf HA HSD. unfold save_consolidated_report.
  destruct (resolve_total pd today df Hwf HA HSD) as [df' E]. rewrite E.
  apply resolve_inv in E as (_ & _ & _ & Hm & F); [|done].
  apply Forall2_length in F.
  eexists. split; [reflexivity|]. cbn [snd]. split; [|split].
  - intros c. rewrite drop_columns_labels, Hm. tauto.
  - by rewrite drop_columns_rows.
  - rewrite inject_formulas_ok.
    assert (Hr : rows (drop_columns columns_to_hide df') = [] <-> rows df = []).
    { rewrite <- !length_zero_iff_nil, drop_columns_rows. by rewrite F. }
    by rewrite Hr.
Qed.

Lemma saved_table_labels_witness :
  exists T,
    fst (save_consolidated_report no_parse (Date.DateTime 2026 11 3 0)
           (Frame ["Case #"; A; SD; "Department"]
              [[Text "A1"; NA; NA; Text "D"]])) = Some T /\
    (forall c, c ∈ columns T <->
               (c ∉ columns_to_hide) /\
               (c ∈ ["Case #"; A; SD; "Department"] \/ c = SS \/ c = SE)) /\
    length (rows T) = length [[Text "A1"; NA; NA; Text "D"]] /\
    (snd (save_consolidated_report no_parse (Date.DateTime 2026 11 3 0)
            (Frame ["Case #"; A; SD; "Department"]
               [[Text "A1"; NA; NA; Text "D"]])) = Ok tt <->
     [[Text "A1"; NA; NA; Text "D"]] = [] \/
     Forall (fun c => c ∈ columns T) formula_columns).
Proof.
  apply (saved_table_labels no_parse (Date.DateTime 2026 11 3 0)
           (Frame ["Case #"; A; SD; "Department"] [[Text "A1"; NA; NA; Text "D"]])).
  - repeat constructor.
  - apply (bool_decide_unpack _). vm_compute. exact I.
  - apply (bool_decide_unpack _). vm_compute. exact I.
Defined.

Lemma reorder_wf df : wf (Reconcile.reorder df).
Proof.
  unfold Reconcile.reorder, Reconcile.take_columns, wf. cbn [rows columns].
  rewrite Forall_map. apply Forall_true. intros row. simpl.
  by rewrite !length_map.
Qed.

Lemma consolidate_wf pd dfs T :
  Reconcile._consolidate_dataframes pd dfs = Ok T -> wf T.
Proof.
  intros H. unfold Reconcile._consolidate_dataframes in H.
  apply bind_Ok_inv in H as (df1 & _ & H).
  apply bind_Ok_inv in H as (df2 & _ & H). injection H as <-.
  apply reorder_wf.
Qed.

Lemma scan_frames_nonempty folders :
  Forall (fun df => rows df <> []) (all_data_frames (scan folders)).
Proof.
  destruct (scan_tally folders (Tally [] 0 0)) as (H1 & _).
  unfold scan. rewrite H1. simpl. apply Forall_forall. intros df Hin.
  apply list_elem_of_bind in Hin as (r & Hdf & _).
  destruct r as [df'|]; simpl in Hdf; [|by apply elem_of_nil in Hdf].
  destruct (empty df') eqn:E; simpl in Hdf; [by apply elem_of_nil in Hdf|].
  apply list_elem_of_singleton in Hdf as ->.
  unfold empty in E. apply orb_false_iff in E as [_ E].
  by apply bool_decide_eq_false in E.
Qed.

Lemma sum_rows_pos (dfs : list frame) :
  dfs <> [] -> Forall (fun df => rows df <> []) dfs ->
  (0 < sum_list (map (fun df => length (rows df)) dfs))%nat.
Proof.
  destruct dfs as [|df dfs]; [done|]. intros _ H. inversion H; subst.
  simpl. destruct (rows df); [done|]. simpl. lia.
Qed.

(** X22.  A run that ends with exit status 0 has written a table: it holds one
    record for every record of the usable files, so at least one; it
    carries the six labels the formulas look up, among them Storage Starts
    and Storage Ends, and none of the labels of [columns_to_hide]. *)
Theorem successful_run_output (pd : pandas) (today : Date.datetime)
    (folders : list (option (list (option frame)))) :
  fst (main pd today folders) = 0 ->
  exists T,
    snd (main pd today folders) = Some T /\
    length (rows T)
    = sum_list (map (fun df => length (rows df)) (all_data_frames (scan folders))) /\
    rows T <> [] /\
    Forall (fun c => c ∈ columns T) formula_columns /\
    Forall (fun c => c ∉ columns T) columns_to_hide.
Proof.
  unfold main. destruct (process_folders pd folders) as [cons|e] eqn:EP; [|done].
  unfold save_consolidated_report.
  destruct (Storage.resolve pd today cons) as [df2|e] eqn:ER; [|done].
  destruct (inject_formulas _) as [[]|e] eqn:EI; [|done].
  intros _. eexists. split; [reflexivity|].
  unfold process_folders in EP. case_bool_decide as Hne; [done|].
  pose proof (consolidate_wf _ _ _ EP) as Hwf.
  assert (Hcons : length (rows cons)
                  = sum_list (map (fun df => length (rows df))
                                (all_data_frames (scan folders)))).
  { unfold Reconcile._consolidate_dataframes in EP.
    apply bind_Ok_inv in EP as (df1 & H1 & EP).
    apply bind_Ok_inv in EP as (df3 & H3 & EP). injection EP as <-.
    apply concat_rows in H1. apply format_date_columns_rows in H3.
    rewrite reorder_rows, H3. cbn [Reconcile.rename rows]. rewrite H1.
    apply reindexed_rows. }
  apply resolve_inv in ER as (_ & _ & _ & _ & F); [|done].
  apply Forall2_length in F.
  assert (Hlen : length (rows (drop_columns columns_to_hide df2))
                 = sum_list (map (fun df => length (rows df))
                               (all_data_frames (scan folders)))).
  { by rewrite drop_columns_rows, <- F. }
  clear Hcons.
  assert (Hrows : rows (drop_columns columns_to_hide df2) <> []).
  { pose proof (sum_rows_pos _ Hne (scan_frames_nonempty folders)) as Hpos.
    intros E. rewrite E in Hlen. simpl in Hlen. lia. }
  repeat split; try done.
  - apply inject_formulas_ok in EI as [?|?]; done.
  - apply Forall_forall. intros c Hc Hin.
    apply drop_columns_labels in Hin as [_ Hin]. done.
Qed.

Lemma successful_run_output_witness :
  exists T,
    snd (main no_parse (Date.DateTime 2026 11 3 0)
           [Some [Some (Frame ["Case #"; A; SD; "# Days In Storage";
                               "Square Footage of Case"; "Storage Charge";
                               "Extended Price"; "Department"]
                          [[Text "A1"; Stamp (Date.midnight 2026 10 15);
                            Stamp (Date.midnight 2026 11 20);
                            Num 1; Num 12; Num 3; Num 0; Text "D"]])]])
    = Some T /\
    length (rows T)
    = sum_list
        (map (fun df => length (rows df))
           (all_data_frames
              (scan [Some [Some (Frame ["Case #"; A; SD; "# Days In Storage";
                                        "Square Footage of Case"; "Storage Charge";
                                        "Extended Price"; "Department"]
                                   [[Text "A1"; Stamp (Date.midnight 2026 10 15);
                                     Stamp (Date.midnight 2026 11 20);
                                     Num 1; Num 12; Num 3; Num 0; Text "D"]])]]))) /\
    rows T <> [] /\
    Forall (fun c => c ∈ columns T) formula_columns /\
    Forall (fun c => c ∉ columns T) columns_to_hide.
Proof.
  apply (successful_run_output no_parse (Date.DateTime 2026 11 3 0)).
  vm_compute. reflexivity.
Defined.

End DriverMore.

(** ** WorkbookReader: the row scan *)

Section ExtractMore.
Import Extract.

(** X23.  The scan of the inventory rows stops at the first row whose first five
    cells are all empty: the rows before it are extracted as they are, and
    neither that row nor any row after it is, whatever they hold.  A sheet
    without such a row is extracted whole, and no extracted row has its
    first five cells all empty. *)
Theorem data_rows_stop_at_blank (before after : list (list cell))
    (blank : list cell) :
  Forall (fun row => blank_start row = false) before ->
  blank_start blank = true ->
  data_rows (before ++ blank :: after) = before /\
  data_rows before = before /\
  (forall sheet_rows,
     Forall (fun row => blank_start row = false) (data_rows sheet_rows)).
Proof.
  intros Hb Hblank. split; [|split].
  - induction Hb as [|row before Hrow _ IH]; simpl.
    + by rewrite Hblank.
    + by rewrite Hrow, IH.
  - induction Hb as [|row before Hrow _ IH]; simpl; [done|].
    by rewrite Hrow, IH.
  - clear. intros l. induction l as [|row l IH]; simpl; [constructor|].
    destruct (blank_start row) eqn:E; constructor; done.
Qed.

Lemma data_rows_stop_at_blank_witness :
  data_rows ([[Text "A1"; NA; NA; NA; NA; NA]]
             ++ [NA; NA; NA; NA; NA; Text "note"]
             :: [[Text "A2"; NA; NA; NA; NA; NA]])
  = [[Text "A1"; NA; NA; NA; NA; NA]] /\
  data_rows [[Text "A1"; NA; NA; NA; NA; NA]] = [[Text "A1"; NA; NA; NA; NA; NA]] /\
  (forall sheet_rows,
     Forall (fun row => blank_start row = false) (data_rows sheet_rows)).
Proof.
  apply (data_rows_stop_at_blank [[Text "A1"; NA; NA; NA; NA; NA]]
           [[Text "A2"; NA; NA; NA; NA; NA]]
           [NA; NA; NA; NA; NA; Text "note"]).
  - repeat constructor.
  - reflexivity.
Defined.

End ExtractMore.

(** ** FormatCSV.py: store sheets *)

Section StoreSheetsMore.
Import Frame StoreSheets.

Lemma stores_elem idx master s :
  s ∈ stores idx master <->
  truthy s = true /\ exists row, row ∈ master /\ at_pos row idx = s.
Proof.
  induction master as [|row master IH]; simpl.
  - rewrite elem_of_nil. split; [done|]. intros (_ & r & Hr & _).
    by apply elem_of_nil in Hr.
  - rewrite elem_of_app, list_elem_of_filter, IH. split.
    + intros [H|(Hne & Ht & r & Hr & Hs)].
      * destruct (truthy (at_pos row idx)) eqn:E; [|by apply elem_of_nil in H].
        apply list_elem_of_singleton in H as ->. split; [done|].
        exists row. split; [left|done].
      * split; [done|]. exists r. split; [by right|done].
    + intros (Ht & r & Hr & Hs). apply elem_of_cons in Hr as [->|Hr].
      * left. rewrite Hs, Ht. by apply list_elem_of_singleton.
      * destruct (decide (s = at_pos row idx)) as [->|Hne].
        -- left. rewrite Ht. by apply list_elem_of_singleton.
        -- right. eauto.
Qed.

Lemma stores_NoDup idx master : NoDup (stores idx master).
Proof.
  induction master as [|row master IH]; simpl; [apply NoDup_nil_2|].
  apply NoDup_app. split; [|split].
  - destruct (truthy _); [apply NoDup_singleton|apply NoDup_nil_2].
  - intros s Hs Hin. apply list_elem_of_filter in Hin as [Hne _].
    destruct (truthy _); [|by apply elem_of_nil in Hs].
    by apply list_elem_of_singleton in Hs.
  - by apply NoDup_filter.
Qed.

Lemma copied_cons idx row master s :
  copied idx (row :: master) s
  = (if bool_decide (at_pos row idx = s) then [row] else []) ++ copied idx master s.
Proof. unfold copied. simpl. by case_bool_decide. Qed.

Lemma copied_other idx row master (keys : list cell) :
  at_pos row idx ∉ keys ->
  keys ≫= copied idx (row :: master) = keys ≫= copied idx master.
Proof.
  induction keys as [|s keys IH]; intros Hn; [done|].
  apply not_elem_of_cons in Hn as [Hne Hn].
  rewrite !bind_cons, copied_cons, IH by done.
  by rewrite bool_decide_eq_false_2.
Qed.

Lemma copied_own idx row master (keys : list cell) :
  NoDup keys -> at_pos row idx ∈ keys ->
  keys ≫= copied idx (row :: master) ≡ₚ row :: keys ≫= copied idx master.
Proof.
  induction keys as [|s keys IH]; intros Hnd Hin.
  - by apply elem_of_nil in Hin.
  - apply NoDup_cons in Hnd as [Hs Hnd].
    rewrite !bind_cons, copied_cons.
    destruct (decide (at_pos row idx = s)) as [E|E].
    + rewrite bool_decide_eq_true_2 by done. subst s.
      by rewrite copied_other by done.
    + rewrite bool_decide_eq_false_2 by done.
      apply elem_of_cons in Hin as [?|Hin]; [done|].
      rewrite IH by done. simpl. symmetry. apply Permutation_middle.
Qed.

Lemma bind_copied_nil idx (keys : list cell) : keys ≫= copied idx [] = [].
Proof. induction keys as [|s keys IH]; [done|]. by rewrite bind_cons, IH. Qed.

Lemma copied_partition idx (keys : list cell) master :
  NoDup keys ->
  keys ≫= copied idx master
  ≡ₚ List.filter (fun row => bool_decide (at_pos row idx ∈ keys)) master.
Proof.
  intros Hnd. induction master as [|row master IH].
  - by rewrite bind_copied_nil.
  - simpl. case_bool_decide as Hin.
    + rewrite copied_own by done. by rewrite IH.
    + rewrite copied_other by done. done.
Qed.

(** X24.  The store sheets divide the master rows: whatever the order in which
    the set of store values is visited, the values are distinct and the
    rows copied to the store sheets are, taken together, the master rows
    that have a store value, each one as often as the master sheet has it.
    A row whose store cell is empty is copied to no sheet. *)
Theorem store_sheets_partition (store_column_index : nat)
    (master : list (list cell)) (order : list cell) :
  order ≡ₚ stores store_column_index master ->
  NoDup order /\
  order ≫= copied store_column_index master
  ≡ₚ List.filter (fun row => truthy (at_pos row store_column_index)) master.
Proof.
  intros Hp.
  assert (Hnd : NoDup order) by (rewrite Hp; apply stores_NoDup).
  split; [done|]. rewrite copied_partition by done.
  assert (E : forall l : list (list cell), (forall row, row ∈ l -> row ∈ master) ->
            List.filter (fun row => bool_decide (at_pos row store_column_index ∈ order)) l
            = List.filter (fun row => truthy (at_pos row store_column_index)) l).
  { induction l as [|row l IH]; intros Hl; [done|]. simpl.
    rewrite IH by (intros r Hr; apply Hl; by right).
    assert (Hb : bool_decide (at_pos row store_column_index ∈ order)
                 = truthy (at_pos row store_column_index)).
    { destruct (truthy (at_pos row store_column_index)) eqn:Et.
      - apply bool_decide_eq_true_2. rewrite Hp. apply stores_elem.
        split; [done|]. exists row. split; [apply Hl; left|done].
      - apply bool_decide_eq_false_2. rewrite Hp, stores_elem.
        intros [Ht _]. congruence. }
    by rewrite Hb. }
  by rewrite E.
Qed.

Lemma store_sheets_partition_witness :
  NoDup [Text "S2"; Text "S1"] /\
  [Text "S2"; Text "S1"]
    ≫= copied 0 [[Text "S1"; Num 1]; [NA; Num 2]; [Text "S2"; Num 3];
                 [Text "S1"; Num 4]]
  ≡ₚ List.filter (fun row => truthy (at_pos row 0))
       [[Text "S1"; Num 1]; [NA; Num 2]; [Text "S2"; Num 3]; [Text "S1"; Num 4]].
Proof.
  apply (store_sheets_partition 0
           [[Text "S1"; Num 1]; [NA; Num 2]; [Text "S2"; Num 3]; [Text "S1"; Num 4]]
           [Text "S2"; Text "S1"]).
  vm_compute. apply perm_swap.
Defined.

End StoreSheetsMore.

(** ** HeaderNormalizer: late recognition of the time column *)

Section TimeColumnsFacts.
Import Frame TimeColumns.

Variable str : cell -> string.

Local Abbreviation ST := "Scheduled Time".

(** Same rows, and label by label the same label or Scheduled Time. *)
Local Abbreviation relabelled df df' :=
  (rows df' = rows df /\
   Forall2 (fun c c' => c' = c \/ c' = ST) (columns df) (columns df')).

Lemma relabelled_refl df : relabelled df df.
Proof. split; [done|]. apply Forall_Forall2_diag, Forall_true. auto. Qed.

Lemma relabelled_trans df1 df2 df3 :
  relabelled df1 df2 -> relabelled df2 df3 -> relabelled df1 df3.
Proof.
  intros [R1 F1] [R2 F2]. split; [congruence|].
  eapply Forall2_impl; [exact (Forall2_compose _ _ _ _ _ F1 F2)|].
  intros c c' (c1 & [-> | ->] & [-> | ->]); auto.
Qed.

Lemma rename_label_relabelled col df : relabelled df (rename_label col ST df).
Proof.
  split; [done|]. cbn [rename_label columns].
  apply Forall2_fmap_r, Forall_Forall2_diag, Forall_true.
  intros c. unfold compose. case_bool_decide; auto.
Qed.

Lemma rename_if_time_inv df col df' :
  rename_if_time str df col = Ok df' ->
  df' = df \/
  df' = rename_label col ST df /\
  existsb (fun row => time_match (str (get (columns df) row col))) (rows df) = true.
Proof.
  unfold rename_if_time, any_time_value.
  destruct (Reconcile.occurrences col (columns df)) as [|[|n]]; simpl; try done.
  destruct (existsb _ _) eqn:E; intros [= <-]; auto.
Qed.

Lemma fix_one_inv df col df' :
  fix_one str df col = Ok df' ->
  df' = df \/
  df' = rename_label col ST df /\
  existsb (fun row => time_match (str (get (columns df) row col))) (rows df) = true.
Proof.
  unfold fix_one. destruct (_ && _); [apply rename_if_time_inv|].
  intros [= <-]. by left.
Qed.

Lemma find_adjacent_inv df df' :
  _find_adjacent_time_column str df = Ok df' ->
  df' = df \/
  exists col, df' = rename_label col ST df /\
    existsb (fun row => time_match (str (get (columns df) row col))) (rows df) = true.
Proof.
  unfold _find_adjacent_time_column.
  destruct (index_of _ _) as [j|]; [|intros [= <-]; by left].
  destruct (columns df !! _) as [next_col|]; [|intros [= <-]; by left].
  intros H. apply rename_if_time_inv in H as [?|?]; eauto.
Qed.

Lemma fix_fold_raise labels e :
  foldl (fun acc col => df ← acc; fix_one str df col) (Raise e) labels = Raise e.
Proof. induction labels as [|col labels IH]; [done|]. simpl. apply IH. Qed.

Lemma fix_fold_relabelled labels : forall df df',
  foldl (fun acc col => df ← acc; fix_one str df col) (Ok df) labels = Ok df' ->
  relabelled df df'.
Proof.
  induction labels as [|col labels IH]; intros df df' H; simpl in H.
  - injection H as <-. apply relabelled_refl.
  - destruct (fix_one str df col) as [df1|e] eqn:E; simpl in H;
      [|by rewrite fix_fold_raise in H].
    apply IH in H. eapply relabelled_trans; [|exact H].
    apply fix_one_inv in E as [-> | [-> _]];
      [apply relabelled_refl|apply rename_label_relabelled].
Qed.

(** X25.  [_fix_time_columns] only relabels: when it returns, the records are
    untouched, there are as many columns as before, and each label is the
    one it was or has become Scheduled Time. *)
Theorem fix_time_columns_relabels (df df' : frame) :
  _fix_time_columns str df = Ok df' ->
  rows df' = rows df /\
  length (columns df') = length (columns df) /\
  Forall2 (fun c c' => c' = c \/ c' = ST) (columns df) (columns df').
Proof.
  intros H. unfold _fix_time_columns in H.
  apply bind_Ok_inv in H as (df1 & H1 & H).
  apply fix_fold_relabelled in H1.
  assert (R : relabelled df df').
  { eapply relabelled_trans; [exact H1|].
    destruct (_ && _); [|injection H as <-; apply relabelled_refl].
    apply find_adjacent_inv in H as [-> | (col & -> & _)];
      [apply relabelled_refl|apply rename_label_relabelled]. }
  destruct R as [R F]. split; [done|]. split; [|done].
  symmetry. by eapply Forall2_length.
Qed.

Lemma get_in_row cols (row : list cell) col :
  length row = length cols -> col ∈ cols -> get cols row col ∈ row.
Proof.
  intros Hl Hc. destruct (index_of_elem _ _ Hc) as [j Hj].
  unfold get, at_pos. rewrite Hj.
  apply index_of_Some in Hj as [Hj _]. apply lookup_lt_Some in Hj.
  destruct (lookup_lt_is_Some_2 row j) as [x Hx]; [lia|].
  rewrite Hx. simpl. by eapply list_elem_of_lookup_2.
Qed.

Lemma no_time_value df col :
  wf df ->
  Forall (Forall (fun c => time_match (str c) = false)) (rows df) ->
  col ∈ columns df ->
  existsb (fun row => time_match (str (get (columns df) row col))) (rows df) = false.
Proof.
  intros Hwf Hno Hc. unfold wf in Hwf.
  induction Hno as [|row rs Hrow _ IH]; [done|].
  inversion Hwf; subst. simpl. rewrite IH by done.
  rewrite Forall_forall in Hrow. rewrite Hrow; [done|].
  by apply get_in_row.
Qed.

Lemma rename_if_time_none df col df' :
  wf df ->
  Forall (Forall (fun c => time_match (str c) = false)) (rows df) ->
  rename_if_time str df col = Ok df' -> df' = df.
Proof.
  intros Hwf Hno H. pose proof H as H'.
  apply rename_if_time_inv in H as [?|[_ E]]; [done|].
  destruct (decide (col ∈ columns df)) as [Hc|Hc].
  - by rewrite no_time_value in E.
  - unfold rename_if_time, any_time_value in H'.
    by rewrite (occurrences_absent _ _ Hc) in H'.
Qed.

Lemma fix_fold_none labels : forall df df',
  wf df ->
  Forall (Forall (fun c => time_match (str c) = false)) (rows df) ->
  foldl (fun acc col => df ← acc; fix_one str df col) (Ok df) labels = Ok df' ->
  df' = df.
Proof.
  induction labels as [|col labels IH]; intros df df' Hwf Hno H; simpl in H.
  - by injection H as <-.
  - destruct (fix_one str df col) as [df1|e] eqn:E; simpl in H;
      [|by rewrite fix_fold_raise in H].
    assert (df1 = df) as ->.
    { unfold fix_one in E. destruct (_ && _); [|by injection E as <-].
      by eapply rename_if_time_none. }
    by apply IH.
Qed.

(** X26.  No label is changed without evidence: in a record set none of whose
    cells reads as a time of day, [_fix_time_columns] returns, when it
    returns, the record set it was given. *)
Theorem fix_time_columns_needs_time_value (df df' : frame) :
  wf df ->
  Forall (Forall (fun c => time_match (str c) = false)) (rows df) ->
  _fix_time_columns str df = Ok df' ->
  df' = df.
Proof.
  intros Hwf Hno H. unfold _fix_time_columns in H.
  apply bind_Ok_inv in H as (df1 & H1 & H).
  apply fix_fold_none in H1 as ->; [|done|done].
  destruct (_ && _); [|by injection H as <-].
  unfold _find_adjacent_time_column in H.
  destruct (index_of _ _) as [j|]; [|by injection H as <-].
  destruct (columns df !! _) as [next_col|]; [|by injection H as <-].
  by eapply rename_if_time_none.
Qed.

Lemma fix_time_columns_labels df df' :
  _fix_time_columns str df = Ok df' ->
  Forall2 (fun c c' => c' = c \/ c' = ST) (columns df) (columns df').
Proof.
  intros H. unfold _fix_time_columns in H.
  apply bind_Ok_inv in H as (df1 & H1 & H).
  apply fix_fold_relabelled in H1.
  eapply (relabelled_trans df df1 df'); [exact H1|].
  destruct (_ && _); [|injection H as <-; apply relabelled_refl].
  apply find_adjacent_inv in H as [-> | (col & -> & _)];
    [apply relabelled_refl|apply rename_label_relabelled].
Qed.

End TimeColumnsFacts.

Section TimeColumnsExamples.
Import Frame TimeColumns.

Lemma fix_time_columns_relabels_witness :
  rows (Frame ["Case #"; "Scheduled Date"; "Scheduled Time"]
          [[Text "A1"; NA; Text "9:05 AM"]])
  = rows (Frame ["Case #"; "Scheduled Date"; "Appt Time"]
            [[Text "A1"; NA; Text "9:05 AM"]]) /\
  length (columns (Frame ["Case #"; "Scheduled Date"; "Scheduled Time"]
                           [[Text "A1"; NA; Text "9:05 AM"]]))
  = length (columns (Frame ["Case #"; "Scheduled Date"; "Appt Time"]
                             [[Text "A1"; NA; Text "9:05 AM"]])) /\
  Forall2 (fun c c' => c' = c \/ c' = "Scheduled Time")
    (columns (Frame ["Case #"; "Scheduled Date"; "Appt Time"]
                      [[Text "A1"; NA; Text "9:05 AM"]]))
    (columns (Frame ["Case #"; "Scheduled Date"; "Scheduled Time"]
                      [[Text "A1"; NA; Text "9:05 AM"]])).
Proof.
  apply (fix_time_columns_relabels
           (fun c => match c with Text s => s | _ => "None" end)).
  vm_compute. reflexivity.
Defined.

Lemma fix_time_columns_needs_time_value_witness :
  Frame ["Case #"; "Scheduled Date"; "Appt Time"] [[Text "A1"; NA; Text "tbd"]]
  = Frame ["Case #"; "Scheduled Date"; "Appt Time"] [[Text "A1"; NA; Text "tbd"]].
Proof.
  apply (fix_time_columns_needs_time_value
           (fun c => match c with Text s => s | _ => "None" end)
           (Frame ["Case #"; "Scheduled Date"; "Appt Time"]
              [[Text "A1"; NA; Text "tbd"]])
           (Frame ["Case #"; "Scheduled Date"; "Appt Time"]
              [[Text "A1"; NA; Text "tbd"]])).
  - repeat constructor.
  - repeat constructor.
  - vm_compute. reflexivity.
Defined.

End TimeColumnsExamples.

(** ** From an empty header cell to the report *)

Section EmptyHeaders.
Import Header HeaderNames Frame Reconcile TimeColumns.

Lemma empty_header_candidate header_row subheader_row i c :
  header_row !! i = Some None ->
  header_candidates header_row subheader_row !! i = Some c ->
  c = "Scheduled Time" \/ c = "Unnamed_" +:+ PyStr.of_nat i.
Proof.
  intros Hh Hc. unfold header_candidates in Hc.
  assert (Hlt : (i < length (zip header_row subheader_row))%nat).
  { apply lookup_lt_Some in Hc. by rewrite candidates_length in Hc. }
  destruct (lookup_lt_is_Some_2 _ _ Hlt) as [[h s] Hz].
  assert (h = None) as ->.
  { apply lookup_zip_with_Some in Hz as (x & y & E & Hx & _).
    injection E as -> _.
    assert (Hn : Some x = Some None)
      by (etrans; [symmetry; exact Hx|exact Hh]).
    by injection Hn. }
  rewrite (candidates_lookup _ _ _ _ _ _ Hz) in Hc. injection Hc as <-.
  unfold candidate, resolve_none. destruct (_ && _); cbn [fst].
  - by left.
  - right. apply unnamed_not_appt.
Qed.

Lemma clean_name_numbered c k :
  c = "Scheduled Time" \/ (exists i, c = "Unnamed_" +:+ PyStr.of_nat i) ->
  clean_name (numbered c k) = "Scheduled Time" \/
  clean_name (numbered c k) = "Unnamed".
Proof.
  assert (E : forall base rest, PyStr.contains "_" base = false ->
                clean_name (base +:+ "_" +:+ rest) = base).
  { intros base rest Hb. unfold clean_name.
    destruct (before_underscore_app base rest Hb) as [-> ->]. done. }
  intros [-> | [i ->]].
  - left. destruct k as [|k]; [reflexivity|]. by apply E.
  - right. destruct k as [|k]; simpl.
    + apply (E "Unnamed" (PyStr.of_nat i)). reflexivity.
    + unfold suffixed.
      change (("Unnamed_" +:+ PyStr.of_nat i) +:+ "_" +:+ PyStr.of_nat (S k))
        with ("Unnamed" +:+ "_" +:+ (PyStr.of_nat i +:+ "_" +:+ PyStr.of_nat (S k))).
      by apply E.
Qed.

(** X27.  What becomes of the column under an empty header cell.  Its name
    is Scheduled Time or Unnamed_<i>, possibly with a duplicate counter;
    [_fix_time_columns] leaves that name or makes it Scheduled Time; the
    renaming of line 441 then gives Scheduled Time or Unnamed, and no
    consolidated table has a column Unnamed.  Such a column is reported only
    as Scheduled Time. *)
Theorem empty_header_column_fate (str : cell -> string)
    (header_row subheader_row : list raw) (df df' : frame) (i : nat)
    (label : string) (pd : pandas) (data_frames : list frame) (T : frame) :
  header_row !! i = Some None ->
  columns df = _process_headers header_row subheader_row ->
  _fix_time_columns str df = Ok df' ->
  columns df' !! i = Some label ->
  _consolidate_dataframes pd data_frames = Ok T ->
  (clean_name label = "Scheduled Time" \/ clean_name label = "Unnamed") /\
  "Unnamed" ∉ columns T.
Proof.
  intros Hh Hcols Hfix Hlabel HT. split.
  - apply fix_time_columns_labels in Hfix.
    destruct (Forall2_lookup_r _ _ _ _ _ Hfix Hlabel) as (n & Hn & Hrel).
    destruct Hrel as [-> | ->]; [|by left].
    rewrite Hcols, process_headers_two_passes in Hn.
    assert (Hlt : (i < length (header_candidates header_row subheader_row))%nat).
    { apply lookup_lt_Some in Hn. by rewrite dedup_all_length in Hn. }
    destruct (lookup_lt_is_Some_2 _ _ Hlt) as [c Hc].
    rewrite (dedup_all_lookup _ _ _ _ Hc), numbered_from_empty in Hn.
    injection Hn as <-. apply clean_name_numbered.
    destruct (empty_header_candidate _ _ _ _ Hh Hc) as [-> | ->]; eauto.
  - unfold _consolidate_dataframes in HT.
    apply bind_Ok_inv in HT as (df1 & _ & HT).
    apply bind_Ok_inv in HT as (df2 & _ & HT). injection HT as <-.
    rewrite reorder_columns. intros [Hin _]. revert Hin.
    apply (bool_decide_unpack _). vm_compute. reflexivity.
Qed.

Lemma empty_header_column_fate_witness :
  (clean_name "Scheduled Time" = "Scheduled Time" \/
   clean_name "Scheduled Time" = "Unnamed") /\
  "Unnamed" ∉ columns (Frame ["Scheduled Date"; "Scheduled Time"]
                         [[Stamp (Date.midnight 2026 10 20); Text "14:30"]]).
Proof.
  apply (empty_header_column_fate
           (fun c => match c with Text s => s | _ => "None" end)
           [Some "Scheduled Date"; None] [None; None]
           (Frame ["Scheduled Date"; "Unnamed_1"]
              [[Stamp (Date.midnight 2026 10 20); Text "14:30"]])
           (Frame ["Scheduled Date"; "Scheduled Time"]
              [[Stamp (Date.midnight 2026 10 20); Text "14:30"]])
           1 "Scheduled Time" no_parse
           [Frame ["Scheduled Date"; "Scheduled Time"]
              [[Stamp (Date.midnight 2026 10 20); Text "14:30"]]]).
  - reflexivity.
  - vm_compute. reflexivity.
  - vm_compute. reflexivity.
  - reflexivity.
  - vm_compute. reflexivity.
Defined.

End EmptyHeaders.
